(** * Worksheet template designer scripts: a shallow embedding

    The repository holds three near-identical scripts
    ([odd_temp_veb.py], [odoo_template_temp.py], [odoolong1.py]).  Each one
    defines a class [WorksheetTemplateDesigner] that talks to a remote ERP
    through one entry point, [_execute], and

    - resolves a worksheet template name to a model,
    - adds the declared custom fields to that model, and
    - creates or overwrites the form view of the model.

    The remote system is not part of the repository.  It is modelled as an
    interface ([Env]): a state type with one transition function for
    [execute_kw], which either answers or raises a fault.  The scripts are
    embedded as computations in a state-and-output monad over that interface:
    every remote call and every status line they print is recorded, in order. *)

From Stdlib Require Import String Ascii List ZArith Bool Arith Lia.
Import ListNotations.

Open Scope list_scope.
Open Scope string_scope.

(** ** Declarative input: the JSON template document *)

(** JSON values as [json.load] returns them (numbers restricted to integers). *)
#[local] Set Warnings "-register-all".
Inductive Json : Type :=
| JNull
| JBool (b : bool)
| JNum (z : Z)
| JStr (s : string)
| JList (l : list Json)
| JObj (l : list (string * Json)).

(** Python truthiness of a loaded value: [if v:]. *)
Definition truthy (v : Json) : bool :=
  match v with
  | JNull => false
  | JBool b => b
  | JNum z => negb (z =? 0)%Z
  | JStr s => negb (s =? "")
  | JList l => match l with [] => false | _ => true end
  | JObj l => match l with [] => false | _ => true end
  end.

(** One entry of the template's ['fields'] list.  The keys [name], [label] and
    [field_type] are indexed directly by the scripts; the others are read with
    [.get] or guarded by [in]. *)
Record FieldSpec : Type := {
  name : string;
  label : string;
  field_type : string;
  required : option Json;
  readonly : option Json;
  default_value : option Json;
  selection : option Json
}.

(** The loaded template document.  [template_code] is an optional key that
    only [odoo_template_temp.py] reads, with [.get]; like every value of the
    document it can be of any JSON type. *)
Record Template : Type := {
  template_name : string;
  fields : list FieldSpec;
  template_code : option Json
}.

(** ** The remote call interface *)

(** The dictionary passed to ['ir.model.fields'].create.  [fv_selection] holds
    the value whose [str()] rendering is sent; [fv_default] is the ['default']
    key, which only [odoo_template_temp.py] sets. *)
Record FieldValues : Type := {
  fv_name : string;
  fv_field_description : string;
  fv_model_id : Z;
  fv_ttype : string;
  fv_state : string;
  fv_required : Json;
  fv_readonly : Json;
  fv_selection : option Json;
  fv_default : option Json
}.

(** The dictionary passed to ['ir.ui.view'].create. *)
Record ViewValues : Type := {
  vv_name : string;
  vv_model : string;
  vv_type : string;
  vv_arch : string;
  vv_priority : Z
}.

(** The calls the scripts issue through [_execute], one constructor per
    (model, method) pair with its arguments. *)
Inductive Call : Type :=
| TemplateSearch (template_name : string)
| TemplateRead (template_id : Z)
| ModelRead (model_id : Z)
| FieldSearch (model field_name : string)
| ModelSearch (model : string)
| FieldCreate (field_values : FieldValues)
| DefaultSet (model field_name : string) (value : Json)
| ViewSearch (view_name model : string)
| ViewWrite (view_id : Z) (arch : string)
| ViewCreate (view_values : ViewValues).

(** A record read from ['worksheet.template']: its ['model_id'] is a
    (identifier, display name) pair, or absent/false. *)
Record TemplateData : Type := { td_model_id : option (Z * string) }.

(** A record read from ['ir.model']. *)
Record ModelData : Type := { md_model : string }.

(** The shape of the answer to each call. *)
Definition reply_of (c : Call) : Type :=
  match c with
  | TemplateSearch _ | FieldSearch _ _ | ModelSearch _ | ViewSearch _ _ => list Z
  | TemplateRead _ => list TemplateData
  | ModelRead _ => list ModelData
  | FieldCreate _ | ViewCreate _ => Z
  | DefaultSet _ _ _ | ViewWrite _ _ => unit
  end.

(** An exception, carried as its message. *)
Definition Fault : Type := string.

(** The collaborators of a script: the remote system, stepping a state of type
    [R] at every call, and the file that [design_template] loads. *)
Class Env (R : Type) : Type := {
  execute_kw : forall c : Call, R -> (Fault + reply_of c) * R;
  json_load : string -> Fault + Template
}.

(** ** Console output *)

Inductive Msg : Type :=
| MsgTemplateNotFound (template_name : string)
| MsgTemplateNoModel
| MsgModelUnreadable
| MsgTemplateFound (template_name : string) (template_id : Z) (worksheet_model : string)
| MsgFindError (e : Fault)
| MsgFieldExists (field_name : string)
| MsgModelNotFound (model : string)
| MsgFieldCreated (field_name : string) (field_id : Z)
| MsgFieldError (field_name : string) (e : Fault)
| MsgDefaultSet (field_name : string)
| MsgDefaultFailed (field_name : string) (e : Fault)
| MsgViewExists (view_name : string)
| MsgViewUpdated (view_id : Z)
| MsgViewCreated (view_name : string) (view_id : Z)
| MsgViewError (e : Fault)
| MsgJsonError (e : Fault)
| MsgBanner (template_name : string) (n_fields : nat)
| MsgStep1
| MsgCouldNotFind
| MsgStep2 (worksheet_model : string)
| MsgProgress (idx total : nat) (field_name : string)
| MsgStep3
| MsgSummary (template_name : string) (template_id : Z) (worksheet_model : string)
             (created total : nat) (view_id : option Z) (failed_fields : list string).

(** What a run does that the outside can observe, in order. *)
Inductive Event : Type :=
| Called (c : Call)
| Printed (m : Msg).

(** ** The monad of the scripts *)

Section Monad.
Context {R : Type}.

Definition M (A : Type) : Type := R -> A * R * list Event.

Definition ret {A : Type} (a : A) : M A := fun r => (a, r, []).

Definition bind {A B : Type} (m : M A) (k : A -> M B) : M B :=
  fun r =>
    let '(a, r1, e1) := m r in
    let '(b, r2, e2) := k a r1 in
    (b, r2, (e1 ++ e2)%list).

Definition print (m : Msg) : M unit := fun r => (tt, r, [Printed m]).
End Monad.

Arguments M : clear implicits.

Notation "x <- m ;; k" := (bind m (fun x => k))
  (at level 61, m at next level, right associativity).
Notation "m ;; k" := (bind m (fun _ => k))
  (at level 61, right associativity).

(** Projections of a finished computation. *)
Definition value {R A : Type} (x : A * R * list Event) : A := fst (fst x).
Definition remote {R A : Type} (x : A * R * list Event) : R := snd (fst x).
Definition events {R A : Type} (x : A * R * list Event) : list Event := snd x.

(** The remote calls among a list of events. *)
Fixpoint calls (es : list Event) : list Call :=
  match es with
  | [] => []
  | Called c :: es' => c :: calls es'
  | Printed _ :: es' => calls es'
  end.

(** The printed lines among a list of events. *)
Fixpoint printed (es : list Event) : list Msg :=
  match es with
  | [] => []
  | Called _ :: es' => printed es'
  | Printed m :: es' => m :: printed es'
  end.

Definition is_field_create (c : Call) : bool :=
  match c with FieldCreate _ => true | _ => false end.

Definition is_field_search (c : Call) : bool :=
  match c with FieldSearch _ _ => true | _ => false end.

(** Calls of the field step (existence check, model lookup, creation,
    default registration). *)
Definition is_field_call (c : Call) : bool :=
  match c with
  | FieldSearch _ _ | ModelSearch _ | FieldCreate _ | DefaultSet _ _ _ => true
  | _ => false
  end.

(** The line printed when an existing field is skipped. *)
Definition is_skip_line (m : Msg) : bool :=
  match m with MsgFieldExists _ => true | _ => false end.

(** Calls of the layout step. *)
Definition is_view_call (c : Call) : bool :=
  match c with
  | ViewSearch _ _ | ViewWrite _ _ | ViewCreate _ => true
  | _ => false
  end.

(** ** Results of a run *)

(** The [results] dictionary as [design_template] builds it before the view
    step. *)
Record Progress : Type := {
  p_template_name : string;
  p_template_id : Z;
  p_worksheet_model : string;
  total_fields : nat;
  created : nat;
  failed : nat;
  failed_fields : list string
}.

(** The [results] dictionary as returned, with ['view_id'] and ['success']. *)
Record Results : Type := {
  progress : Progress;
  view_id : option Z;
  success : bool
}.

(** The three dictionaries [design_template] can return. *)
Inductive RunResult : Type :=
| LoadFailed (error : Fault)      (* {'success': False, 'error': str(e)} *)
| NotFound                        (* {'success': False} *)
| Completed (results : Results).

(** [results.get('success')], as [main] reads it. *)
Definition run_success (r : RunResult) : bool :=
  match r with
  | LoadFailed _ => false
  | NotFound => false
  | Completed res => success res
  end.

(** [results.get('error')]. *)
Definition run_error (r : RunResult) : option Fault :=
  match r with
  | LoadFailed e => Some e
  | _ => None
  end.

(** ** Functions shared by the three scripts

    [_execute], [find_worksheet_template_by_name], [check_field_exists],
    [create_worksheet_view] and [design_template] have the same text in the
    three files, up to the layout generator and the [create_field] they call;
    those two are parameters of the shared definitions below. *)

Section Shared.
Context {R : Type} `{Env R}.

(** [_execute]: one remote call, recorded. *)
Definition _execute (c : Call) : M R (Fault + reply_of c) :=
  fun r => let '(a, r') := execute_kw c r in (a, r', [Called c]).

(** [find_worksheet_template_by_name]: [(None, None)] is [None], a pair
    [(template_id, worksheet_model)] is [Some]. *)
Definition find_worksheet_template_by_name (template_name : string)
  : M R (option (Z * string)) :=
  template_ids <- _execute (TemplateSearch template_name) ;;
  match template_ids with
  | inl e => print (MsgFindError e) ;; ret None
  | inr [] => print (MsgTemplateNotFound template_name) ;; ret None
  | inr (template_id :: _) =>
    template_data <- _execute (TemplateRead template_id) ;;
    match template_data with
    | inl e => print (MsgFindError e) ;; ret None
    | inr [] => print MsgTemplateNoModel ;; ret None
    | inr (td :: _) =>
      match td_model_id td with
      | None => print MsgTemplateNoModel ;; ret None
      | Some (model_id, _) =>
        model_data <- _execute (ModelRead model_id) ;;
        match model_data with
        | inl e => print (MsgFindError e) ;; ret None
        | inr [] => print MsgModelUnreadable ;; ret None
        | inr (md :: _) =>
          let worksheet_model := md_model md in
          print (MsgTemplateFound template_name template_id worksheet_model) ;;
          ret (Some (template_id, worksheet_model))
        end
      end
    end
  end.

(** [check_field_exists]: [len(field_ids) > 0], and [False] on any
    exception. *)
Definition check_field_exists (model field_name : string) : M R bool :=
  field_ids <- _execute (FieldSearch model field_name) ;;
  match field_ids with
  | inr ids => ret (0 <? length ids)%nat
  | inl _ => ret false
  end.

(** The [field_type_map] dictionary of [create_field]. *)
Definition field_type_map : list (string * string) :=
  [ ("char", "char");
    ("text", "text");
    ("integer", "integer");
    ("float", "float");
    ("date", "date");
    ("datetime", "datetime");
    ("boolean", "boolean");
    ("selection", "selection") ].

(** [d.get(key, default)] on a dictionary with string keys. *)
Fixpoint dict_get {V : Type} (d : list (string * V)) (key : string) (default : V) : V :=
  match d with
  | [] => default
  | (k, v) :: d' => if k =? key then v else dict_get d' key default
  end.

(** [field_config.get(key, False)] on an optional key. *)
Definition get_or_false (v : option Json) : Json :=
  match v with Some j => j | None => JBool false end.

(** The layout name: [f"view_{worksheet_model.replace('.', '_')}_form"]. *)
Fixpoint replace_dot (s : string) : string :=
  match s with
  | EmptyString => EmptyString
  | String c s' => String (if Ascii.eqb c "."%char then "_"%char else c) (replace_dot s')
  end.

Definition view_name_of (worksheet_model : string) : string :=
  "view_" ++ replace_dot worksheet_model ++ "_form".

(** A function of the scripts that cannot raise, seen as one that can. *)
Definition returns {A B : Type} (f : A -> B) : A -> Fault + B :=
  fun a => inr (f a).

Section Parameterised.
(** The layout generator that [create_worksheet_view] calls, which returns
    the layout or raises, and the [create_field] that [design_template]
    calls. *)
Variable generate_xml : Template -> Fault + string.
Variable create_field : string -> FieldSpec -> M R bool.

(** [create_worksheet_view]: the view identifier, or [None] after an
    exception.  The layout is generated inside the [try] block, before the
    first remote call. *)
Definition create_worksheet_view_with (worksheet_model : string)
  (template_config : Template) : M R (option Z) :=
  let view_name := view_name_of worksheet_model in
  match generate_xml template_config with
  | inl e => print (MsgViewError e) ;; ret None
  | inr view_xml =>
    existing_views <- _execute (ViewSearch view_name worksheet_model) ;;
    match existing_views with
    | inl e => print (MsgViewError e) ;; ret None
    | inr (view_id :: _) =>
      print (MsgViewExists view_name) ;;
      w <- _execute (ViewWrite view_id view_xml) ;;
      match w with
      | inl e => print (MsgViewError e) ;; ret None
      | inr _ => print (MsgViewUpdated view_id) ;; ret (Some view_id)
      end
    | inr [] =>
      let view_values :=
        {| vv_name := view_name;
           vv_model := worksheet_model;
           vv_type := "form";
           vv_arch := view_xml;
           vv_priority := 1 |} in
      created_id <- _execute (ViewCreate view_values) ;;
      match created_id with
      | inl e => print (MsgViewError e) ;; ret None
      | inr view_id => print (MsgViewCreated view_name view_id) ;; ret (Some view_id)
      end
    end
  end.

(** The loop of step 2: [for idx, field_config in enumerate(fields, 1)]. *)
Fixpoint add_fields (worksheet_model : string) (total idx : nat)
  (fields : list FieldSpec) (results : Progress) : M R Progress :=
  match fields with
  | [] => ret results
  | field_config :: rest =>
    print (MsgProgress idx total (name field_config)) ;;
    ok <- create_field worksheet_model field_config ;;
    add_fields worksheet_model total (S idx) rest
      (if ok
       then {| p_template_name := p_template_name results;
               p_template_id := p_template_id results;
               p_worksheet_model := p_worksheet_model results;
               total_fields := total_fields results;
               created := created results + 1;
               failed := failed results;
               failed_fields := failed_fields results |}
       else {| p_template_name := p_template_name results;
               p_template_id := p_template_id results;
               p_worksheet_model := p_worksheet_model results;
               total_fields := total_fields results;
               created := created results;
               failed := failed results + 1;
               failed_fields := (failed_fields results ++ [name field_config])%list |})
  end.

(** [design_template]. *)
Definition design_template_with (json_path : string) : M R RunResult :=
  match json_load json_path with
  | inl e => print (MsgJsonError e) ;; ret (LoadFailed e)
  | inr template =>
    let template_name := template_name template in
    let fields := fields template in
    print (MsgBanner template_name (length fields)) ;;
    print MsgStep1 ;;
    found <- find_worksheet_template_by_name template_name ;;
    match found with
    | None => print MsgCouldNotFind ;; ret NotFound
    | Some (template_id, worksheet_model) =>
      if (template_id =? 0)%Z || (worksheet_model =? "")
      then print MsgCouldNotFind ;; ret NotFound
      else
        let results :=
          {| p_template_name := template_name;
             p_template_id := template_id;
             p_worksheet_model := worksheet_model;
             total_fields := length fields;
             created := 0;
             failed := 0;
             failed_fields := [] |} in
        print (MsgStep2 worksheet_model) ;;
        results <- add_fields worksheet_model (length fields) 1 fields results ;;
        print MsgStep3 ;;
        view_id <- create_worksheet_view_with worksheet_model template ;;
        print (MsgSummary template_name template_id worksheet_model
                 (created results) (total_fields results) view_id
                 (failed_fields results)) ;;
        ret (Completed {| progress := results;
                          view_id := view_id;
                          success := match view_id with Some _ => true | None => false end |})
    end
  end.
End Parameterised.
End Shared.

(** ** Text helpers *)

(** The double-quote character and a quoted attribute value. *)
Definition dq : string := String (ascii_of_nat 34) EmptyString.
Definition q (s : string) : string := dq ++ s ++ dq.

(** Lines joined by newline characters, as in a triple-quoted literal. *)
Definition nl : string := String (ascii_of_nat 10) EmptyString.

Fixpoint unlines (ls : list string) : string :=
  match ls with
  | [] => EmptyString
  | [l] => l
  | l :: ls' => l ++ nl ++ unlines ls'
  end.

(** [str.lower()] on the UTF-8 bytes of a string: the ASCII capitals are
    lowered and every other byte is kept.  Python also lowers capitals outside
    ASCII, to letters outside ASCII, except for the Kelvin sign (to [k]) and
    the dotted capital I (to [i] and a combining dot); none of these meets the
    keyword ['temperatura'] that the lowered text is searched for. *)
Definition lower_ascii (c : ascii) : ascii :=
  let n := nat_of_ascii c in
  if (65 <=? n)%nat && (n <=? 90)%nat then ascii_of_nat (n + 32) else c.

Fixpoint lower (s : string) : string :=
  match s with
  | EmptyString => EmptyString
  | String c s' => String (lower_ascii c) (lower s')
  end.

(** [needle in hay] on strings. *)
Fixpoint contains (needle hay : string) : bool :=
  match hay with
  | EmptyString => String.prefix needle EmptyString
  | String _ hay' => String.prefix needle hay || contains needle hay'
  end.

(** [type(v).__name__] of a loaded value. *)
Definition type_name (v : Json) : string :=
  match v with
  | JNull => "NoneType"
  | JBool _ => "bool"
  | JNum _ => "int"
  | JStr _ => "str"
  | JList _ => "list"
  | JObj _ => "dict"
  end.

(** [v.lower()] on a loaded value: only a string has the method, and on any
    other value the attribute lookup raises [AttributeError]. *)
Definition lower_of (v : Json) : Fault + string :=
  match v with
  | JStr s => inr (lower s)
  | _ => inl ("'" ++ type_name v ++ "' object has no attribute 'lower'")
  end.

(** [field_values['selection'] = ...] and [field_values['default'] = ...]. *)
Definition set_selection (fv : FieldValues) (sel : Json) : FieldValues :=
  {| fv_name := fv_name fv;
     fv_field_description := fv_field_description fv;
     fv_model_id := fv_model_id fv;
     fv_ttype := fv_ttype fv;
     fv_state := fv_state fv;
     fv_required := fv_required fv;
     fv_readonly := fv_readonly fv;
     fv_selection := Some sel;
     fv_default := fv_default fv |}.

Definition set_default (fv : FieldValues) (v : Json) : FieldValues :=
  {| fv_name := fv_name fv;
     fv_field_description := fv_field_description fv;
     fv_model_id := fv_model_id fv;
     fv_ttype := fv_ttype fv;
     fv_state := fv_state fv;
     fv_required := fv_required fv;
     fv_readonly := fv_readonly fv;
     fv_selection := fv_selection fv;
     fv_default := Some v |}.

(** ** [odd_temp_veb.py]: the vibration test designer *)

Module OddTempVeb.

(** The four locals that [generate_worksheet_xml_vibracion] fills from the
    fields list (and never uses). *)
Record Defaults : Type := {
  default_objective : Json;
  default_procedure : Json;
  default_method : Json;
  default_criteria : Json
}.

Definition has_default (field : FieldSpec) : bool :=
  match default_value field with Some _ => true | None => false end.

Definition default_or (field : FieldSpec) (d : Json) : Json :=
  match default_value field with Some v => v | None => d end.

(** The [for field in template_config['fields']] loop of the generator. *)
Fixpoint collect_defaults (fs : list FieldSpec) (d : Defaults) : Defaults :=
  match fs with
  | [] => d
  | field :: rest =>
    collect_defaults rest
      (if (name field =? "x_test_objective") && has_default field then
         {| default_objective := default_or field (default_objective d);
            default_procedure := default_procedure d;
            default_method := default_method d;
            default_criteria := default_criteria d |}
       else if (name field =? "x_test_procedure") && has_default field then
         {| default_objective := default_objective d;
            default_procedure := default_or field (default_procedure d);
            default_method := default_method d;
            default_criteria := default_criteria d |}
       else if (name field =? "x_test_method") && has_default field then
         {| default_objective := default_objective d;
            default_procedure := default_procedure d;
            default_method := default_or field (default_method d);
            default_criteria := default_criteria d |}
       else if (name field =? "x_acceptance_criteria") && has_default field then
         {| default_objective := default_objective d;
            default_procedure := default_procedure d;
            default_method := default_method d;
            default_criteria := default_or field (default_criteria d) |}
       else d)
  end.

(** [generate_worksheet_xml_vibracion]. *)
Definition generate_worksheet_xml_vibracion (template_config : Template) : string :=
  let template_name := template_name template_config in
  let _defaults :=
    collect_defaults (fields template_config)
      {| default_objective := JStr EmptyString;
         default_procedure := JStr EmptyString;
         default_method := JStr EmptyString;
         default_criteria := JStr EmptyString |} in
  unlines [
    "<form string=" ++ q template_name ++ ">";
    "    <sheet>";
    "        <div class=" ++ q "oe_title" ++ ">";
    "            <h1>Test de vibración</h1>";
    "        </div>";
    "        ";
    "        <group string=" ++ q "Información del Equipo" ++ " col=" ++ q "2" ++ ">";
    "            <field name=" ++ q "x_assistance_code" ++ "/>";
    "            <field name=" ++ q "x_client" ++ "/>";
    "            <field name=" ++ q "x_model" ++ "/>";
    "            <field name=" ++ q "x_project" ++ "/>";
    "            <field name=" ++ q "x_serial_number" ++ "/>";
    "        </group>";
    "        ";
    "        <separator string=" ++ q "1. Test de vibración" ++ "/>";
    "        ";
    "        <group string=" ++ q "1.1. Objetivo" ++ ">";
    "            <field name=" ++ q "x_test_objective" ++ " widget=" ++ q "text" ++ " readonly=" ++ q "1" ++ "/>";
    "        </group>";
    "        ";
    "        <group string=" ++ q "1.2. Procedimiento" ++ ">";
    "            <field name=" ++ q "x_test_procedure" ++ " widget=" ++ q "text" ++ " readonly=" ++ q "1" ++ "/>";
    "        </group>";
    "        ";
    "        <group string=" ++ q "1.3. Método" ++ ">";
    "            <field name=" ++ q "x_test_method" ++ " widget=" ++ q "text" ++ " readonly=" ++ q "1" ++ "/>";
    "        </group>";
    "        ";
    "        <group string=" ++ q "1.4. Criterio de aceptación" ++ ">";
    "            <field name=" ++ q "x_acceptance_criteria" ++ " widget=" ++ q "text" ++ " readonly=" ++ q "1" ++ "/>";
    "        </group>";
    "        ";
    "        <separator string=" ++ q "1.5. Instrumento de medición" ++ "/>";
    "        ";
    "        <group col=" ++ q "4" ++ ">";
    "            <field name=" ++ q "x_instrument_brand_model" ++ "/>";
    "            <field name=" ++ q "x_instrument_serial" ++ "/>";
    "            <field name=" ++ q "x_calibration_certificate" ++ "/>";
    "            <field name=" ++ q "x_calibration_date" ++ "/>";
    "        </group>";
    "        ";
    "        <separator string=" ++ q "1.6. Datos de la prueba - Reglajes" ++ "/>";
    "        ";
    "        <group col=" ++ q "4" ++ ">";
    "            <field name=" ++ q "x_limit_1" ++ "/>";
    "            <field name=" ++ q "x_limit_2" ++ "/>";
    "            <field name=" ++ q "x_max_speed" ++ "/>";
    "            <field name=" ++ q "x_test_weights" ++ "/>";
    "        </group>";
    "        ";
    "        <separator string=" ++ q "Ensayo 1" ++ "/>";
    "        <group col=" ++ q "4" ++ ">";
    "            <field name=" ++ q "x_test_1_imbalance" ++ "/>";
    "            <newline/>";
    "            <field name=" ++ q "x_test_1_speed_50" ++ "/>";
    "            <field name=" ++ q "x_test_1_vibration_50" ++ "/>";
    "            <field name=" ++ q "x_test_1_speed_75" ++ "/>";
    "            <field name=" ++ q "x_test_1_vibration_75" ++ "/>";
    "            <field name=" ++ q "x_test_1_speed_100" ++ "/>";
    "            <field name=" ++ q "x_test_1_vibration_100" ++ "/>";
    "        </group>";
    "        <group>";
    "            <field name=" ++ q "x_test_1_comments" ++ " widget=" ++ q "text" ++ " nolabel=" ++ q "1" ++ " placeholder=" ++ q "Comentarios Ensayo 1" ++ "/>";
    "        </group>";
    "        ";
    "        <separator string=" ++ q "Ensayo 2" ++ "/>";
    "        <group col=" ++ q "4" ++ ">";
    "            <field name=" ++ q "x_test_2_imbalance" ++ "/>";
    "            <newline/>";
    "            <field name=" ++ q "x_test_2_speed_50" ++ "/>";
    "            <field name=" ++ q "x_test_2_vibration_50" ++ "/>";
    "            <field name=" ++ q "x_test_2_speed_75" ++ "/>";
    "            <field name=" ++ q "x_test_2_vibration_75" ++ "/>";
    "            <field name=" ++ q "x_test_2_speed_100" ++ "/>";
    "            <field name=" ++ q "x_test_2_vibration_100" ++ "/>";
    "        </group>";
    "        <group>";
    "            <field name=" ++ q "x_test_2_comments" ++ " widget=" ++ q "text" ++ " nolabel=" ++ q "1" ++ " placeholder=" ++ q "Comentarios Ensayo 2" ++ "/>";
    "        </group>";
    "        ";
    "        <separator string=" ++ q "Ensayo 3" ++ "/>";
    "        <group col=" ++ q "4" ++ ">";
    "            <field name=" ++ q "x_test_3_imbalance" ++ "/>";
    "            <newline/>";
    "            <field name=" ++ q "x_test_3_speed_50" ++ "/>";
    "            <field name=" ++ q "x_test_3_vibration_50" ++ "/>";
    "            <field name=" ++ q "x_test_3_speed_75" ++ "/>";
    "            <field name=" ++ q "x_test_3_vibration_75" ++ "/>";
    "            <field name=" ++ q "x_test_3_speed_100" ++ "/>";
    "            <field name=" ++ q "x_test_3_vibration_100" ++ "/>";
    "        </group>";
    "        <group>";
    "            <field name=" ++ q "x_test_3_comments" ++ " widget=" ++ q "text" ++ " nolabel=" ++ q "1" ++ " placeholder=" ++ q "Comentarios Ensayo 3" ++ "/>";
    "        </group>";
    "        ";
    "        <separator string=" ++ q "1.7. Resultados test" ++ "/>";
    "        ";
    "        <group>";
    "            <field name=" ++ q "x_test_comments" ++ " widget=" ++ q "text" ++ " placeholder=" ++ q "Comentarios generales" ++ "/>";
    "            <field name=" ++ q "x_result_status" ++ " widget=" ++ q "radio" ++ "/>";
    "        </group>";
    "        ";
    "        <separator/>";
    "        ";
    "        <group col=" ++ q "4" ++ ">";
    "            <field name=" ++ q "x_performed_by" ++ "/>";
    "            <field name=" ++ q "x_department" ++ "/>";
    "            <field name=" ++ q "x_test_date" ++ "/>";
    "            <field name=" ++ q "x_signature" ++ "/>";
    "        </group>";
    "        ";
    "    </sheet>";
    "</form>" ].

Section Script.
Context {R : Type} `{Env R}.

(** [set_field_default]: registers a default through ['ir.default']. *)
Definition set_field_default (model field_name : string) (default_value : Json)
  : M R bool :=
  r <- _execute (DefaultSet model field_name default_value) ;;
  match r with
  | inr _ => print (MsgDefaultSet field_name) ;; ret true
  | inl e => print (MsgDefaultFailed field_name e) ;; ret false
  end.

(** [create_field]. *)
Definition create_field (model : string) (field_config : FieldSpec) : M R bool :=
  let field_name := name field_config in
  present <- check_field_exists model field_name ;;
  if present : bool
  then print (MsgFieldExists field_name) ;; ret true
  else
    model_ids <- _execute (ModelSearch model) ;;
    match model_ids with
    | inl e => print (MsgFieldError field_name e) ;; ret false
    | inr [] => print (MsgModelNotFound model) ;; ret false
    | inr (model_id :: _) =>
    let ttype := dict_get field_type_map (field_type field_config) "char" in
    let field_values :=
      {| fv_name := field_name;
         fv_field_description := label field_config;
         fv_model_id := model_id;
         fv_ttype := ttype;
         fv_state := "manual";
         fv_required := get_or_false (required field_config);
         fv_readonly := get_or_false (readonly field_config);
         fv_selection := None;
         fv_default := None |} in
    let field_values :=
      match selection field_config with
      | Some sel => if ttype =? "selection" then set_selection field_values sel else field_values
      | None => field_values
      end in
    created_id <- _execute (FieldCreate field_values) ;;
    match created_id with
    | inl e => print (MsgFieldError field_name e) ;; ret false
    | inr field_id =>
      print (MsgFieldCreated field_name field_id) ;;
      match default_value field_config with
      | Some v => if truthy v
                  then set_field_default model field_name v ;; ret true
                  else ret true
      | None => ret true
      end
    end
    end.

(** [create_worksheet_view] and [design_template] of this script. *)
Definition create_worksheet_view : string -> Template -> M R (option Z) :=
  create_worksheet_view_with (returns generate_worksheet_xml_vibracion).

Definition design_template : string -> M R RunResult :=
  design_template_with (returns generate_worksheet_xml_vibracion) create_field.

End Script.

End OddTempVeb.

(** ** [odoo_template_temp.py]: hermiticity and temperature designer *)

Module OdooTemplateTemp.

(** [generate_worksheet_xml_hermiticity]. *)
Definition generate_worksheet_xml_hermiticity (template_config : Template) : string :=
  let template_name := template_name template_config in
  unlines [
    "<form string=" ++ q template_name ++ ">";
    "    <sheet>";
    "        <div class=" ++ q "oe_title" ++ ">";
    "            <h1>" ++ template_name ++ "</h1>";
    "        </div>";
    "        ";
    "        <group string=" ++ q "Información del Equipo" ++ " col=" ++ q "2" ++ ">";
    "            <field name=" ++ q "x_assistance_code" ++ "/>";
    "            <field name=" ++ q "x_client" ++ "/>";
    "            <field name=" ++ q "x_model" ++ "/>";
    "            <field name=" ++ q "x_project_name" ++ "/>";
    "            <field name=" ++ q "x_serial_number" ++ "/>";
    "        </group>";
    "        ";
    "        <separator string=" ++ q "1. Test de hermeticidad" ++ "/>";
    "        ";
    "        <group string=" ++ q "1.1. Objetivo" ++ ">";
    "            <field name=" ++ q "x_test_objective" ++ " widget=" ++ q "text" ++ " readonly=" ++ q "1" ++ "/>";
    "        </group>";
    "        ";
    "        <group string=" ++ q "1.2. Procedimiento" ++ ">";
    "            <field name=" ++ q "x_test_procedure" ++ " widget=" ++ q "text" ++ " readonly=" ++ q "1" ++ "/>";
    "        </group>";
    "        ";
    "        <group string=" ++ q "1.3. Método" ++ ">";
    "            <field name=" ++ q "x_test_method" ++ " widget=" ++ q "text" ++ " readonly=" ++ q "1" ++ "/>";
    "        </group>";
    "        ";
    "        <group string=" ++ q "1.4. Criterio de aceptación" ++ ">";
    "            <field name=" ++ q "x_acceptance_criteria" ++ " widget=" ++ q "text" ++ " readonly=" ++ q "1" ++ "/>";
    "        </group>";
    "        ";
    "        <separator string=" ++ q "1.5. Datos de la prueba" ++ "/>";
    "        ";
    "        <group string=" ++ q "Mediciones" ++ " col=" ++ q "4" ++ ">";
    "            <field name=" ++ q "x_test_number" ++ "/>";
    "            <newline/>";
    "            <field name=" ++ q "x_initial_time" ++ "/>";
    "            <field name=" ++ q "x_initial_pressure" ++ "/>";
    "            <field name=" ++ q "x_final_time" ++ "/>";
    "            <field name=" ++ q "x_final_pressure" ++ "/>";
    "        </group>";
    "        ";
    "        <group string=" ++ q "Comentarios del ensayo" ++ ">";
    "            <field name=" ++ q "x_test_comments" ++ " widget=" ++ q "text" ++ " nolabel=" ++ q "1" ++ "/>";
    "        </group>";
    "        ";
    "        <separator string=" ++ q "Resultados" ++ "/>";
    "        ";
    "        <group string=" ++ q "Resultado del test" ++ " col=" ++ q "2" ++ ">";
    "            <field name=" ++ q "x_result_status" ++ " widget=" ++ q "radio" ++ "/>";
    "            <field name=" ++ q "x_result_comments" ++ " widget=" ++ q "text" ++ "/>";
    "        </group>";
    "        ";
    "        <separator/>";
    "        ";
    "        <group string=" ++ q "Realizado por" ++ " col=" ++ q "3" ++ ">";
    "            <field name=" ++ q "x_performed_by" ++ "/>";
    "            <field name=" ++ q "x_department" ++ "/>";
    "            <field name=" ++ q "x_test_date" ++ "/>";
    "        </group>";
    "        ";
    "    </sheet>";
    "</form>" ].

(** [generate_worksheet_xml_temperatura]. *)
Definition generate_worksheet_xml_temperatura (template_config : Template) : string :=
  let template_name := template_name template_config in
  unlines [
    "<form string=" ++ q template_name ++ ">";
    "    <sheet>";
    "        <div class=" ++ q "oe_title" ++ ">";
    "            <h1>Test de temperatura de rodamientos</h1>";
    "        </div>";
    "        ";
    "        <group string=" ++ q "Información del Equipo" ++ " col=" ++ q "2" ++ ">";
    "            <field name=" ++ q "x_client" ++ "/>";
    "            <field name=" ++ q "x_equipment_model" ++ "/>";
    "            <field name=" ++ q "x_serial_number" ++ "/>";
    "            <field name=" ++ q "x_assistance_code" ++ "/>";
    "        </group>";
    "        ";
    "        <separator string=" ++ q "1. Test de temperatura de rodamientos" ++ "/>";
    "        ";
    "        <group string=" ++ q "1.1. Objetivo" ++ ">";
    "            <field name=" ++ q "x_test_objective" ++ " widget=" ++ q "text" ++ " readonly=" ++ q "1" ++ "/>";
    "        </group>";
    "        ";
    "        <group string=" ++ q "1.2. Procedimiento" ++ ">";
    "            <field name=" ++ q "x_test_procedure" ++ " widget=" ++ q "text" ++ " readonly=" ++ q "1" ++ "/>";
    "        </group>";
    "        ";
    "        <group string=" ++ q "1.3. Método" ++ ">";
    "            <field name=" ++ q "x_test_method" ++ " widget=" ++ q "text" ++ " readonly=" ++ q "1" ++ "/>";
    "        </group>";
    "        ";
    "        <group string=" ++ q "1.4. Criterio de aceptación" ++ ">";
    "            <field name=" ++ q "x_acceptance_criteria" ++ " widget=" ++ q "text" ++ " readonly=" ++ q "1" ++ "/>";
    "        </group>";
    "        ";
    "        <separator string=" ++ q "1.5. Datos de la prueba" ++ "/>";
    "        ";
    "        <group string=" ++ q "Mediciones" ++ " col=" ++ q "4" ++ ">";
    "            <field name=" ++ q "x_measurement_time" ++ " string=" ++ q "Hora" ++ "/>";
    "            <field name=" ++ q "x_max_speed" ++ " string=" ++ q "Velocidad MAX (rpm)" ++ "/>";
    "            <newline/>";
    "            <field name=" ++ q "x_temp_upper_bearing" ++ " string=" ++ q "Temperatura rodamiento superior (°C)" ++ "/>";
    "            <field name=" ++ q "x_temp_lower_bearing" ++ " string=" ++ q "Temperatura rodamiento inferior (°C)" ++ "/>";
    "        </group>";
    "        ";
    "        <group string=" ++ q "Comentarios" ++ ">";
    "            <field name=" ++ q "x_test_comments" ++ " widget=" ++ q "text" ++ " nolabel=" ++ q "1" ++ "/>";
    "        </group>";
    "        ";
    "        <separator string=" ++ q "Resultados" ++ "/>";
    "        ";
    "        <group string=" ++ q "Resultado del test" ++ ">";
    "            <field name=" ++ q "x_result_status" ++ " widget=" ++ q "radio" ++ "/>";
    "        </group>";
    "        ";
    "        <separator/>";
    "        ";
    "        <group string=" ++ q "Realizado por" ++ " col=" ++ q "3" ++ ">";
    "            <field name=" ++ q "x_performed_by" ++ "/>";
    "            <field name=" ++ q "x_department" ++ "/>";
    "            <field name=" ++ q "x_test_date" ++ "/>";
    "        </group>";
    "        ";
    "    </sheet>";
    "</form>" ].

(** [generate_worksheet_xml]: [template_config.get('template_code', '')],
    lower-cased, searched for ['temperatura'].  The default of [.get] covers
    the absent key only: a value that is present and not a string has no
    [lower], and the call raises before either layout is chosen. *)
Definition generate_worksheet_xml (template_config : Template) : Fault + string :=
  let template_code :=
    match template_code template_config with
    | Some c => c
    | None => JStr EmptyString
    end in
  match lower_of template_code with
  | inl e => inl e
  | inr lowered =>
    if contains "temperatura" lowered
    then inr (generate_worksheet_xml_temperatura template_config)
    else inr (generate_worksheet_xml_hermiticity template_config)
  end.

Section Script.
Context {R : Type} `{Env R}.

(** [create_field]. *)
Definition create_field (model : string) (field_config : FieldSpec) : M R bool :=
  let field_name := name field_config in
  present <- check_field_exists model field_name ;;
  if present : bool
  then print (MsgFieldExists field_name) ;; ret true
  else
    model_ids <- _execute (ModelSearch model) ;;
    match model_ids with
    | inl e => print (MsgFieldError field_name e) ;; ret false
    | inr [] => print (MsgModelNotFound model) ;; ret false
    | inr (model_id :: _) =>
    let ttype := dict_get field_type_map (field_type field_config) "char" in
    let field_values :=
      {| fv_name := field_name;
         fv_field_description := label field_config;
         fv_model_id := model_id;
         fv_ttype := ttype;
         fv_state := "manual";
         fv_required := get_or_false (required field_config);
         fv_readonly := get_or_false (readonly field_config);
         fv_selection := None;
         fv_default := None |} in
    let field_values :=
      match default_value field_config with
      | Some v => if truthy v then set_default field_values v else field_values
      | None => field_values
      end in
    let field_values :=
      match selection field_config with
      | Some sel => if ttype =? "selection" then set_selection field_values sel else field_values
      | None => field_values
      end in
    created_id <- _execute (FieldCreate field_values) ;;
    match created_id with
    | inl e => print (MsgFieldError field_name e) ;; ret false
    | inr field_id =>
      print (MsgFieldCreated field_name field_id) ;;
      ret true
    end
    end.

(** [create_worksheet_view] and [design_template] of this script. *)
Definition create_worksheet_view : string -> Template -> M R (option Z) :=
  create_worksheet_view_with generate_worksheet_xml.

Definition design_template : string -> M R RunResult :=
  design_template_with generate_worksheet_xml create_field.

End Script.

End OdooTemplateTemp.

(** ** [odoolong1.py]: the centrifuge revision designer *)

Module OdooLong1.

(** [generate_worksheet_xml]. *)
Definition generate_worksheet_xml (template_config : Template) : string :=
  let template_name := template_name template_config in
  unlines [
    "<form string=" ++ q template_name ++ ">";
    "    <sheet>";
    "        <div class=" ++ q "oe_title" ++ ">";
    "            <h1>" ++ template_name ++ "</h1>";
    "            <h3>Electrical &amp; Mechanical Inspection</h3>";
    "        </div>";
    "        ";
    "        <group string=" ++ q "Equipment Information" ++ " col=" ++ q "4" ++ ">";
    "            <field name=" ++ q "x_assistance_code" ++ "/>";
    "            <field name=" ++ q "x_customer" ++ "/>";
    "            <field name=" ++ q "x_model" ++ "/>";
    "            <field name=" ++ q "x_project" ++ "/>";
    "            <field name=" ++ q "x_serial_number" ++ " colspan=" ++ q "1" ++ "/>";
    "        </group>";
    "        ";
    "        <separator string=" ++ q "Inspection Details" ++ "/>";
    "        ";
    "        <group string=" ++ q "Performed by" ++ " col=" ++ q "3" ++ ">";
    "            <field name=" ++ q "x_performed_by" ++ "/>";
    "            <field name=" ++ q "x_position_dept" ++ "/>";
    "            <field name=" ++ q "x_inspection_date" ++ "/>";
    "        </group>";
    "        ";
    "        <group string=" ++ q "Received by Customer" ++ " col=" ++ q "3" ++ ">";
    "            <field name=" ++ q "x_received_by" ++ "/>";
    "            <field name=" ++ q "x_received_position" ++ "/>";
    "            <field name=" ++ q "x_received_date" ++ "/>";
    "        </group>";
    "        ";
    "        <separator string=" ++ q "1. Revision Centrifuge" ++ "/>";
    "        ";
    "        <group string=" ++ q "1.1. Objective" ++ ">";
    "            <field name=" ++ q "x_objective" ++ " widget=" ++ q "text" ++ " readonly=" ++ q "1" ++ "/>";
    "        </group>";
    "        ";
    "        <group string=" ++ q "1.2. Procedure" ++ ">";
    "            <field name=" ++ q "x_procedure" ++ " widget=" ++ q "text" ++ " readonly=" ++ q "1" ++ "/>";
    "        </group>";
    "        ";
    "        <group string=" ++ q "1.3. Standard" ++ ">";
    "            <field name=" ++ q "x_standard" ++ " widget=" ++ q "text" ++ " readonly=" ++ q "1" ++ "/>";
    "        </group>";
    "        ";
    "        <separator string=" ++ q "1.4. Inspection Points / Maintenance" ++ "/>";
    "        ";
    "        <group string=" ++ q "Confirmation of Previous Status with Client" ++ " col=" ++ q "2" ++ ">";
    "            <field name=" ++ q "x_prev_no_defects" ++ " widget=" ++ q "radio" ++ "/>";
    "            <field name=" ++ q "x_prev_regular_use" ++ " widget=" ++ q "radio" ++ "/>";
    "            <field name=" ++ q "x_prev_minor_defects" ++ " widget=" ++ q "radio" ++ "/>";
    "            <field name=" ++ q "x_prev_customer_comments" ++ " widget=" ++ q "text" ++ " colspan=" ++ q "2" ++ "/>";
    "        </group>";
    "        ";
    "        <separator string=" ++ q "Previous Verifications" ++ "/>";
    "        ";
    "        <group string=" ++ q "Basic Checks" ++ " col=" ++ q "2" ++ ">";
    "            <field name=" ++ q "x_verify_id_plate" ++ " widget=" ++ q "radio" ++ "/>";
    "            <field name=" ++ q "x_verify_emergency_stop" ++ " widget=" ++ q "radio" ++ "/>";
    "            <field name=" ++ q "x_verify_hmi" ++ " widget=" ++ q "radio" ++ "/>";
    "            <field name=" ++ q "x_verify_collector" ++ " widget=" ++ q "radio" ++ "/>";
    "            <field name=" ++ q "x_verify_rotation" ++ " widget=" ++ q "radio" ++ "/>";
    "            <field name=" ++ q "x_verify_vibration" ++ " widget=" ++ q "radio" ++ "/>";
    "            <field name=" ++ q "x_verify_comments" ++ " widget=" ++ q "text" ++ " colspan=" ++ q "2" ++ "/>";
    "        </group>";
    "        ";
    "        <separator string=" ++ q "Inertial Baseplate" ++ "/>";
    "        ";
    "        <group string=" ++ q "Baseplate Inspection" ++ " col=" ++ q "2" ++ ">";
    "            <field name=" ++ q "x_baseplate_corrosion" ++ " widget=" ++ q "radio" ++ "/>";
    "            <field name=" ++ q "x_baseplate_remains" ++ " widget=" ++ q "radio" ++ "/>";
    "            <field name=" ++ q "x_support_structure" ++ " widget=" ++ q "radio" ++ "/>";
    "            <field name=" ++ q "x_motor_support" ++ " widget=" ++ q "radio" ++ "/>";
    "            <field name=" ++ q "x_connection_boxes" ++ " widget=" ++ q "radio" ++ "/>";
    "            <field name=" ++ q "x_cover_condition" ++ " widget=" ++ q "radio" ++ "/>";
    "            <field name=" ++ q "x_cable_protection" ++ " widget=" ++ q "radio" ++ "/>";
    "            <field name=" ++ q "x_vibration_sensor" ++ " widget=" ++ q "radio" ++ "/>";
    "            <field name=" ++ q "x_baseplate_comments" ++ " widget=" ++ q "text" ++ " colspan=" ++ q "2" ++ "/>";
    "        </group>";
    "        ";
    "        <separator string=" ++ q "Suspension System" ++ "/>";
    "        ";
    "        <group col=" ++ q "2" ++ ">";
    "            <field name=" ++ q "x_suspension_maintenance" ++ "/>";
    "            <newline/>";
    "            <field name=" ++ q "x_dampers_condition" ++ " widget=" ++ q "radio" ++ "/>";
    "            <field name=" ++ q "x_tripendular_condition" ++ " widget=" ++ q "radio" ++ "/>";
    "            <field name=" ++ q "x_visco_dampers" ++ " widget=" ++ q "radio" ++ "/>";
    "            <field name=" ++ q "x_suspension_comments" ++ " widget=" ++ q "text" ++ " colspan=" ++ q "2" ++ "/>";
    "        </group>";
    "        ";
    "        <separator string=" ++ q "Casing" ++ "/>";
    "        ";
    "        <group col=" ++ q "2" ++ ">";
    "            <field name=" ++ q "x_casing_maintenance" ++ "/>";
    "            <newline/>";
    "            <field name=" ++ q "x_temp_probe" ++ " widget=" ++ q "radio" ++ "/>";
    "            <field name=" ++ q "x_sensor_interlock" ++ " widget=" ++ q "radio" ++ "/>";
    "            <field name=" ++ q "x_pneumatic_system" ++ " widget=" ++ q "radio" ++ "/>";
    "            <field name=" ++ q "x_casing_gasket" ++ " widget=" ++ q "radio" ++ "/>";
    "            <field name=" ++ q "x_casing_closure" ++ " widget=" ++ q "radio" ++ "/>";
    "            <field name=" ++ q "x_casing_comments" ++ " widget=" ++ q "text" ++ " colspan=" ++ q "2" ++ "/>";
    "        </group>";
    "        ";
    "        <separator string=" ++ q "Lid" ++ "/>";
    "        ";
    "        <group col=" ++ q "2" ++ ">";
    "            <field name=" ++ q "x_lid_maintenance" ++ "/>";
    "            <newline/>";
    "            <field name=" ++ q "x_sight_glasses" ++ " widget=" ++ q "radio" ++ "/>";
    "            <field name=" ++ q "x_hinges" ++ " widget=" ++ q "radio" ++ "/>";
    "            <field name=" ++ q "x_opening_cylinder" ++ " widget=" ++ q "radio" ++ "/>";
    "            <field name=" ++ q "x_lid_comments" ++ " widget=" ++ q "text" ++ " colspan=" ++ q "2" ++ "/>";
    "        </group>";
    "        ";
    "        <separator string=" ++ q "Feeding Detector" ++ "/>";
    "        ";
    "        <group col=" ++ q "2" ++ ">";
    "            <field name=" ++ q "x_feeding_detector_maintenance" ++ "/>";
    "            <newline/>";
    "            <field name=" ++ q "x_feeding_corrosion" ++ " widget=" ++ q "radio" ++ "/>";
    "            <field name=" ++ q "x_feeding_instrumentation" ++ " widget=" ++ q "radio" ++ "/>";
    "            <field name=" ++ q "x_feeding_comments" ++ " widget=" ++ q "text" ++ " colspan=" ++ q "2" ++ "/>";
    "        </group>";
    "        ";
    "        <separator string=" ++ q "Piping and Connections" ++ "/>";
    "        ";
    "        <group col=" ++ q "2" ++ ">";
    "            <field name=" ++ q "x_feeding_pipe" ++ " widget=" ++ q "radio" ++ "/>";
    "            <field name=" ++ q "x_washing_pipe" ++ " widget=" ++ q "radio" ++ "/>";
    "            <field name=" ++ q "x_outlet_liquid" ++ " widget=" ++ q "radio" ++ "/>";
    "            <field name=" ++ q "x_cip_system" ++ " widget=" ++ q "radio" ++ "/>";
    "            <field name=" ++ q "x_solid_discharge_pipe" ++ " widget=" ++ q "radio" ++ "/>";
    "            <field name=" ++ q "x_piping_comments" ++ " widget=" ++ q "text" ++ " colspan=" ++ q "2" ++ "/>";
    "        </group>";
    "        ";
    "        <separator string=" ++ q "Scrapper" ++ "/>";
    "        ";
    "        <group col=" ++ q "2" ++ ">";
    "            <field name=" ++ q "x_scrapper_maintenance" ++ "/>";
    "            <newline/>";
    "            <field name=" ++ q "x_scrapper_hydraulic" ++ " widget=" ++ q "radio" ++ "/>";
    "            <field name=" ++ q "x_hydraulic_circuit" ++ " widget=" ++ q "radio" ++ "/>";
    "            <field name=" ++ q "x_blade_condition" ++ " widget=" ++ q "radio" ++ "/>";
    "            <field name=" ++ q "x_blade_blowing" ++ " widget=" ++ q "radio" ++ "/>";
    "            <field name=" ++ q "x_scrapper_comments" ++ " widget=" ++ q "text" ++ " colspan=" ++ q "2" ++ "/>";
    "        </group>";
    "        ";
    "        <separator string=" ++ q "Antagonic Blowing" ++ "/>";
    "        ";
    "        <group col=" ++ q "2" ++ ">";
    "            <field name=" ++ q "x_antagonic_maintenance" ++ "/>";
    "            <newline/>";
    "            <field name=" ++ q "x_antagonic_clearances" ++ " widget=" ++ q "radio" ++ "/>";
    "            <field name=" ++ q "x_antagonic_comments" ++ " widget=" ++ q "text" ++ " colspan=" ++ q "2" ++ "/>";
    "        </group>";
    "        ";
    "        <separator string=" ++ q "Drive" ++ "/>";
    "        ";
    "        <group col=" ++ q "2" ++ ">";
    "            <field name=" ++ q "x_drive_maintenance" ++ "/>";
    "            <newline/>";
    "            <field name=" ++ q "x_belt_condition" ++ " widget=" ++ q "radio" ++ "/>";
    "            <field name=" ++ q "x_main_motor" ++ " widget=" ++ q "radio" ++ "/>";
    "            <field name=" ++ q "x_pulley_condition" ++ " widget=" ++ q "radio" ++ "/>";
    "            <field name=" ++ q "x_static_discharge" ++ " widget=" ++ q "radio" ++ "/>";
    "            <field name=" ++ q "x_tachometric" ++ " widget=" ++ q "radio" ++ "/>";
    "            <field name=" ++ q "x_drive_comments" ++ " widget=" ++ q "text" ++ " colspan=" ++ q "2" ++ "/>";
    "        </group>";
    "        ";
    "        <separator string=" ++ q "Basket" ++ "/>";
    "        ";
    "        <group col=" ++ q "2" ++ ">";
    "            <field name=" ++ q "x_basket_bottom" ++ " widget=" ++ q "radio" ++ "/>";
    "            <field name=" ++ q "x_basket_boarding" ++ " widget=" ++ q "radio" ++ "/>";
    "            <field name=" ++ q "x_basket_ferrule" ++ " widget=" ++ q "radio" ++ "/>";
    "            <field name=" ++ q "x_basket_comments" ++ " widget=" ++ q "text" ++ " colspan=" ++ q "2" ++ "/>";
    "        </group>";
    "        ";
    "        <separator string=" ++ q "Bearing Box" ++ "/>";
    "        ";
    "        <group col=" ++ q "2" ++ ">";
    "            <field name=" ++ q "x_bearing_maintenance" ++ "/>";
    "            <newline/>";
    "            <field name=" ++ q "x_greasing_system" ++ " widget=" ++ q "radio" ++ "/>";
    "            <field name=" ++ q "x_oil_system" ++ " widget=" ++ q "radio" ++ "/>";
    "            <field name=" ++ q "x_bearing_temp_probe" ++ " widget=" ++ q "radio" ++ "/>";
    "            <field name=" ++ q "x_inerting" ++ " widget=" ++ q "radio" ++ "/>";
    "            <field name=" ++ q "x_bearing_comments" ++ " widget=" ++ q "text" ++ " colspan=" ++ q "2" ++ "/>";
    "        </group>";
    "        ";
    "        <separator string=" ++ q "Hoses" ++ "/>";
    "        ";
    "        <group col=" ++ q "2" ++ ">";
    "            <field name=" ++ q "x_hoses_maintenance" ++ "/>";
    "            <newline/>";
    "            <field name=" ++ q "x_liquid_outlet_hose" ++ " widget=" ++ q "radio" ++ "/>";
    "            <field name=" ++ q "x_hoses_comments" ++ " widget=" ++ q "text" ++ " colspan=" ++ q "2" ++ "/>";
    "        </group>";
    "        ";
    "        <separator string=" ++ q "Filtercloth" ++ "/>";
    "        ";
    "        <group col=" ++ q "2" ++ ">";
    "            <field name=" ++ q "x_filtercloth_fixing_ring" ++ " widget=" ++ q "radio" ++ "/>";
    "            <field name=" ++ q "x_filtercloth_clip" ++ " widget=" ++ q "radio" ++ "/>";
    "            <field name=" ++ q "x_filtercloth_gasket" ++ " widget=" ++ q "radio" ++ "/>";
    "            <field name=" ++ q "x_filtercloth_comments" ++ " widget=" ++ q "text" ++ " colspan=" ++ q "2" ++ "/>";
    "        </group>";
    "        ";
    "        <separator string=" ++ q "Solid Discharge" ++ "/>";
    "        ";
    "        <group col=" ++ q "2" ++ ">";
    "            <field name=" ++ q "x_butterfly_valve" ++ " widget=" ++ q "radio" ++ "/>";
    "            <field name=" ++ q "x_screw_conveyor" ++ " widget=" ++ q "radio" ++ "/>";
    "            <field name=" ++ q "x_solid_discharge_comments" ++ " widget=" ++ q "text" ++ " colspan=" ++ q "2" ++ "/>";
    "        </group>";
    "        ";
    "        <separator string=" ++ q "Inertization" ++ "/>";
    "        ";
    "        <group col=" ++ q "2" ++ ">";
    "            <field name=" ++ q "x_inertization_maintenance" ++ "/>";
    "            <newline/>";
    "            <field name=" ++ q "x_blanketing_panel" ++ " widget=" ++ q "radio" ++ "/>";
    "            <field name=" ++ q "x_oxygen_analyzer" ++ " widget=" ++ q "radio" ++ "/>";
    "            <field name=" ++ q "x_siphonic_tank" ++ " widget=" ++ q "radio" ++ "/>";
    "            <field name=" ++ q "x_inertization_comments" ++ " widget=" ++ q "text" ++ " colspan=" ++ q "2" ++ "/>";
    "        </group>";
    "        ";
    "        <separator string=" ++ q "Hydraulic Unit" ++ "/>";
    "        ";
    "        <group col=" ++ q "2" ++ ">";
    "            <field name=" ++ q "x_hydraulic_unit_maintenance" ++ "/>";
    "            <newline/>";
    "            <field name=" ++ q "x_hydraulic_actuators" ++ " widget=" ++ q "radio" ++ "/>";
    "            <field name=" ++ q "x_hydraulic_comments" ++ " widget=" ++ q "text" ++ " colspan=" ++ q "2" ++ "/>";
    "        </group>";
    "        ";
    "        <separator string=" ++ q "Lubrication Unit" ++ "/>";
    "        ";
    "        <group col=" ++ q "2" ++ ">";
    "            <field name=" ++ q "x_lubrication_maintenance" ++ "/>";
    "            <newline/>";
    "            <field name=" ++ q "x_lubrication_actuators" ++ " widget=" ++ q "radio" ++ "/>";
    "            <field name=" ++ q "x_lubrication_comments" ++ " widget=" ++ q "text" ++ " colspan=" ++ q "2" ++ "/>";
    "        </group>";
    "        ";
    "        <separator string=" ++ q "Electrical Cabinets" ++ "/>";
    "        ";
    "        <group col=" ++ q "2" ++ ">";
    "            <field name=" ++ q "x_power_cabinet" ++ " widget=" ++ q "radio" ++ "/>";
    "            <field name=" ++ q "x_control_cabinet" ++ " widget=" ++ q "radio" ++ "/>";
    "            <field name=" ++ q "x_operator_panel_cabinet" ++ " widget=" ++ q "radio" ++ "/>";
    "            <field name=" ++ q "x_brake_resistors" ++ " widget=" ++ q "radio" ++ "/>";
    "            <field name=" ++ q "x_electrical_comments" ++ " widget=" ++ q "text" ++ " colspan=" ++ q "2" ++ "/>";
    "        </group>";
    "        ";
    "        <separator string=" ++ q "Tests" ++ "/>";
    "        ";
    "        <group col=" ++ q "2" ++ ">";
    "            <field name=" ++ q "x_temperature_test" ++ " widget=" ++ q "radio" ++ "/>";
    "            <field name=" ++ q "x_vibrations_test" ++ " widget=" ++ q "radio" ++ "/>";
    "            <field name=" ++ q "x_leak_test" ++ " widget=" ++ q "radio" ++ "/>";
    "            <field name=" ++ q "x_tests_comments" ++ " widget=" ++ q "text" ++ " colspan=" ++ q "2" ++ "/>";
    "        </group>";
    "        ";
    "        <separator string=" ++ q "Others Before Not Mentioned" ++ "/>";
    "        ";
    "        <group>";
    "            <field name=" ++ q "x_others_not_mentioned" ++ " widget=" ++ q "text" ++ " nolabel=" ++ q "1" ++ "/>";
    "        </group>";
    "        ";
    "        <separator string=" ++ q "1.5. Notes, Comments and Final Conclusions" ++ "/>";
    "        ";
    "        <group>";
    "            <field name=" ++ q "x_final_notes" ++ " widget=" ++ q "text" ++ " nolabel=" ++ q "1" ++ "/>";
    "        </group>";
    "        ";
    "        <separator/>";
    "        ";
    "        <group string=" ++ q "Overall Inspection Result" ++ ">";
    "            <field name=" ++ q "x_overall_result" ++ " widget=" ++ q "radio" ++ "/>";
    "        </group>";
    "        ";
    "    </sheet>";
    "</form>" ].

Section Script.
Context {R : Type} `{Env R}.

(** [create_field]. *)
Definition create_field (model : string) (field_config : FieldSpec) : M R bool :=
  let field_name := name field_config in
  present <- check_field_exists model field_name ;;
  if present : bool
  then print (MsgFieldExists field_name) ;; ret true
  else
    model_ids <- _execute (ModelSearch model) ;;
    match model_ids with
    | inl e => print (MsgFieldError field_name e) ;; ret false
    | inr [] => print (MsgModelNotFound model) ;; ret false
    | inr (model_id :: _) =>
    let ttype := dict_get field_type_map (field_type field_config) "char" in
    let field_values :=
      {| fv_name := field_name;
         fv_field_description := label field_config;
         fv_model_id := model_id;
         fv_ttype := ttype;
         fv_state := "manual";
         fv_required := get_or_false (required field_config);
         fv_readonly := get_or_false (readonly field_config);
         fv_selection := None;
         fv_default := None |} in
    let field_values :=
      match selection field_config with
      | Some sel => if ttype =? "selection" then set_selection field_values sel else field_values
      | None => field_values
      end in
    created_id <- _execute (FieldCreate field_values) ;;
    match created_id with
    | inl e => print (MsgFieldError field_name e) ;; ret false
    | inr field_id =>
      print (MsgFieldCreated field_name field_id) ;;
      ret true
    end
    end.

(** [create_worksheet_view] and [design_template] of this script. *)
Definition create_worksheet_view : string -> Template -> M R (option Z) :=
  create_worksheet_view_with (returns generate_worksheet_xml).

Definition design_template : string -> M R RunResult :=
  design_template_with (returns generate_worksheet_xml) create_field.

End Script.

End OdooLong1.

(** ** Vocabulary of the statements *)

(** The type tags that [field_type_map] recognises. *)
Definition recognised_types : list string :=
  ["char"; "text"; "integer"; "float"; "date"; "datetime"; "boolean"; "selection"].

(** Occurrences of a character in a string. *)
Fixpoint count_char (c : ascii) (s : string) : nat :=
  match s with
  | EmptyString => 0
  | String d s' => (if Ascii.eqb d c then 1 else 0) + count_char c s'
  end.

(** Newline characters in a string. *)
Definition newlines (s : string) : nat := count_char (ascii_of_nat 10) s.

(** [needle] occurs somewhere in [hay]. *)
Definition occurs_in (needle hay : string) : Prop :=
  exists pre post, hay = pre ++ needle ++ post.

(** [template_config.get('template_code', '')]. *)
Definition code_of (cfg : Template) : Json :=
  match template_code cfg with
  | Some c => c
  | None => JStr EmptyString
  end.

(** The test of the dispatch, ['temperatura' in template_code.lower()]: its
    truth value, or the exception of [lower]. *)
Definition keyword_test (cfg : Template) : Fault + bool :=
  match lower_of (code_of cfg) with
  | inl e => inl e
  | inr lowered => inr (contains "temperatura" lowered)
  end.

(** A model name without ['.'], on which [replace] is the identity. *)
Definition dot_free (s : string) : Prop := count_char "."%char s = 0.

Section Statements.
Context {R : Type} `{Env R}.

(** The existence search finds the field and leaves the remote state as it
    was. *)
Definition field_present (model field_name : string) (r : R) : Prop :=
  exists id ids,
    execute_kw (FieldSearch model field_name) r = (inr (id :: ids), r).

(** The outcomes of [create_field] over a list of fields, one after the other
    from state [r]: each field with what [create_field] returned for it. *)
Fixpoint outcomes (create_field : string -> FieldSpec -> M R bool)
  (worksheet_model : string) (fields : list FieldSpec) (r : R)
  : list (FieldSpec * bool) :=
  match fields with
  | [] => []
  | fc :: rest =>
    let run := create_field worksheet_model fc r in
    (fc, value run) :: outcomes create_field worksheet_model rest (remote run)
  end.

(** Names of the fields whose outcome is a failure. *)
Definition failed_names (outs : list (FieldSpec * bool)) : list string :=
  map (fun o => name (fst o)) (filter (fun o => negb (snd o)) outs).

Definition count_ok (outs : list (FieldSpec * bool)) : nat :=
  length (filter (fun o => snd o) outs).

Definition count_failed (outs : list (FieldSpec * bool)) : nat :=
  length (filter (fun o => negb (snd o)) outs).

(** Template resolution finds nothing at state [r]: the search has no match,
    or the template record or its model reference is missing, or the model
    record is missing. *)
Inductive resolution_empty (template_name : string) (r : R) : Prop :=
| no_match : forall r1,
    execute_kw (TemplateSearch template_name) r = (inr [], r1) ->
    resolution_empty template_name r
| no_template_record : forall tid tids r1 r2,
    execute_kw (TemplateSearch template_name) r = (inr (tid :: tids), r1) ->
    execute_kw (TemplateRead tid) r1 = (inr [], r2) ->
    resolution_empty template_name r
| no_model_reference : forall tid tids r1 td tds r2,
    execute_kw (TemplateSearch template_name) r = (inr (tid :: tids), r1) ->
    execute_kw (TemplateRead tid) r1 = (inr (td :: tds), r2) ->
    td_model_id td = None ->
    resolution_empty template_name r
| no_model_record : forall tid tids r1 td tds r2 mid mname r3,
    execute_kw (TemplateSearch template_name) r = (inr (tid :: tids), r1) ->
    execute_kw (TemplateRead tid) r1 = (inr (td :: tds), r2) ->
    td_model_id td = Some (mid, mname) ->
    execute_kw (ModelRead mid) r2 = (inr [], r3) ->
    resolution_empty template_name r.

(** The view step raises at state [r]: the layout generator raises, or one
    of the remote calls does. *)
Definition view_step_faults (generate_xml : Template -> Fault + string)
  (worksheet_model : string) (template_config : Template) (r : R) : Prop :=
  let view_name := view_name_of worksheet_model in
  match generate_xml template_config with
  | inl _ => True
  | inr view_xml =>
    match execute_kw (ViewSearch view_name worksheet_model) r with
    | (inl _, _) => True
    | (inr (view_id :: _), r1) =>
      match execute_kw (ViewWrite view_id view_xml) r1 with
      | (inl _, _) => True
      | (inr _, _) => False
      end
    | (inr [], r1) =>
      match execute_kw (ViewCreate {| vv_name := view_name;
                                      vv_model := worksheet_model;
                                      vv_type := "form";
                                      vv_arch := view_xml;
                                      vv_priority := 1 |}) r1 with
      | (inl _, _) => True
      | (inr _, _) => False
      end
    end
  end.

(** The dictionary that [create_field] of [odd_temp_veb.py] sends for a field
    of the model with identifier [model_id]. *)
Definition field_payload (model_id : Z) (fc : FieldSpec) : FieldValues :=
  let ttype := dict_get field_type_map (field_type fc) "char" in
  let fv :=
    {| fv_name := name fc;
       fv_field_description := label fc;
       fv_model_id := model_id;
       fv_ttype := ttype;
       fv_state := "manual";
       fv_required := get_or_false (required fc);
       fv_readonly := get_or_false (readonly fc);
       fv_selection := None;
       fv_default := None |} in
  match selection fc with
  | Some sel => if ttype =? "selection" then set_selection fv sel else fv
  | None => fv
  end.

(** What [create_field] of [odd_temp_veb.py] does once the field is created:
    register the default value, if one is declared and truthy. *)
Definition register_default (model : string) (fc : FieldSpec) : M R unit :=
  match default_value fc with
  | Some v =>
    if truthy v
    then OddTempVeb.set_field_default model (name fc) v ;; ret tt
    else ret tt
  | None => ret tt
  end.

(** The remote state after [create_field] has run on each field in turn. *)
Fixpoint remote_after (create_field : string -> FieldSpec -> M R bool)
  (worksheet_model : string) (fields : list FieldSpec) (r : R) : R :=
  match fields with
  | [] => r
  | fc :: rest =>
    remote_after create_field worksheet_model rest
      (remote (create_field worksheet_model fc r))
  end.

(** What the field loop does when every field is skipped: per field, the
    progress line, the existence check, the skip line. *)
Fixpoint skip_events (worksheet_model : string) (total idx : nat)
  (fields : list FieldSpec) : list Event :=
  match fields with
  | [] => []
  | fc :: rest =>
    Printed (MsgProgress idx total (name fc))
      :: Called (FieldSearch worksheet_model (name fc))
      :: Printed (MsgFieldExists (name fc))
      :: skip_events worksheet_model total (S idx) rest
  end.

(** A run that stopped at template resolution: plain failure, and no call of
    the field step or of the layout step was issued. *)
Definition stopped_at_resolution (run : RunResult * R * list Event) : Prop :=
  value run = NotFound
  /\ run_success (value run) = false
  /\ forall c, In c (calls (events run)) ->
               is_field_call c = false /\ is_view_call c = false.

(** A run that stopped at the load: failure with the error message, nothing
    sent to the remote, the remote state untouched. *)
Definition stopped_at_load (run : RunResult * R * list Event) (e : Fault) (r : R) : Prop :=
  value run = LoadFailed e
  /\ run_success (value run) = false
  /\ run_error (value run) = Some e
  /\ calls (events run) = []
  /\ remote run = r.

End Statements.

(** ** A reference remote

    A small in-memory stand-in for the ERP, used to run the scripts on concrete
    inputs: templates, models, fields and views are tables, identifiers are
    handed out from a counter, and [faulty] lists the calls that raise. *)

Module Reference.

Record Server : Type := {
  templates : list (Z * (string * option (Z * string)));
  models : list (Z * string);
  model_fields : list (Z * (string * string));
  views : list (Z * ((string * string) * string));
  next_id : Z;
  faulty : Call -> bool
}.

Definition ids_where {A : Type} (p : A -> bool) (t : list (Z * A)) : list Z :=
  map fst (filter (fun row => p (snd row)) t).

Definition rows_of {A : Type} (id : Z) (t : list (Z * A)) : list A :=
  map snd (filter (fun row => (fst row =? id)%Z) t).

Definition with_field (s : Server) (row : Z * (string * string)) : Server :=
  {| templates := templates s;
     models := models s;
     model_fields := (model_fields s ++ [row])%list;
     views := views s;
     next_id := (next_id s + 1)%Z;
     faulty := faulty s |}.

Definition with_views (s : Server) (vs : list (Z * ((string * string) * string)))
  (next : Z) : Server :=
  {| templates := templates s;
     models := models s;
     model_fields := model_fields s;
     views := vs;
     next_id := next;
     faulty := faulty s |}.

Definition same_field (model field_name : string) (f : string * string) : bool :=
  (fst f =? model) && (snd f =? field_name).

Definition same_view (view_name model : string) (v : (string * string) * string) : bool :=
  (fst (fst v) =? view_name) && (snd (fst v) =? model).

(** One call against the tables. *)
Definition answer (c : Call) (s : Server) : (Fault + reply_of c) * Server :=
  match c as c0 return (Fault + reply_of c0) * Server with
  | TemplateSearch n =>
    (inr (ids_where (fun t => fst t =? n) (templates s)), s)
  | TemplateRead id =>
    (inr (map (fun t => {| td_model_id := snd t |}) (rows_of id (templates s))), s)
  | ModelRead id =>
    (inr (map (fun m => {| md_model := m |}) (rows_of id (models s))), s)
  | FieldSearch m n =>
    (inr (ids_where (same_field m n) (model_fields s)), s)
  | ModelSearch m =>
    (inr (ids_where (fun x => x =? m) (models s)), s)
  | FieldCreate fv =>
    match rows_of (fv_model_id fv) (models s) with
    | [] => (inl "unknown model", s)
    | m :: _ =>
      match ids_where (same_field m (fv_name fv)) (model_fields s) with
      | [] => (inr (next_id s), with_field s (next_id s, (m, fv_name fv)))
      | _ :: _ => (inl "field names must be unique per model", s)
      end
    end
  | DefaultSet _ _ _ => (inr tt, s)
  | ViewSearch n m =>
    (inr (ids_where (same_view n m) (views s)), s)
  | ViewWrite id arch =>
    (inr tt,
     with_views s
       (map (fun v => if (fst v =? id)%Z then (fst v, (fst (snd v), arch)) else v) (views s))
       (next_id s))
  | ViewCreate vv =>
    (inr (next_id s),
     with_views s
       (views s ++ [(next_id s, ((vv_name vv, vv_model vv), vv_arch vv))])%list
       (next_id s + 1)%Z)
  end.

Definition execute (c : Call) (s : Server) : (Fault + reply_of c) * Server :=
  if faulty s c then (inl "fault", s) else answer c s.

(** The files a run can load. *)
Definition load (files : list (string * Template)) (path : string) : Fault + Template :=
  match find (fun f => fst f =? path) files with
  | Some f => inr (snd f)
  | None => inl "No such file or directory"
  end.

Definition env (files : list (string * Template)) : Env Server :=
  {| execute_kw := execute; json_load := load files |}.

(** No call raises. *)
Definition reliable (c : Call) : bool := false.

(** Every field creation raises. *)
Definition rejects_fields (c : Call) : bool := is_field_create c.

(** Every layout call raises. *)
Definition rejects_views (c : Call) : bool := is_view_call c.

(** The existence search raises. *)
Definition search_down (c : Call) : bool := is_field_search c.

(** The creation of field [x_test_objective] raises. *)
Definition rejects_objective (c : Call) : bool :=
  match c with
  | FieldCreate fv => fv_name fv =? "x_test_objective"
  | _ => false
  end.

(** After the scenario of the specification: a template ["Vibration Test"]
    bound to model [x_fsm_vibration], no field and no view yet.  The document
    declares the field of the scenario and a second one whose type tag is not
    a recognised one. *)
Definition objective : FieldSpec :=
  {| name := "x_test_objective";
     label := "Objective";
     field_type := "text";
     required := None;
     readonly := None;
     default_value := None;
     selection := None |}.

Definition serial : FieldSpec :=
  {| name := "x_serial_number";
     label := "Serial number";
     field_type := "barcode";
     required := Some (JBool true);
     readonly := None;
     default_value := Some (JStr "n/a");
     selection := None |}.

Definition vibration : Template :=
  {| template_name := "Vibration Test";
     fields := [objective; serial];
     template_code := None |}.

Definition files : list (string * Template) := [("vibration.json", vibration)].

Definition fresh (f : Call -> bool) : Server :=
  {| templates := [(7, ("Vibration Test", Some (31, "Vibration")))%Z];
     models := [(31, "x_fsm_vibration")%Z];
     model_fields := [];
     views := [];
     next_id := 100;
     faulty := f |}.

(** The same server once both fields exist. *)
Definition synced (f : Call -> bool) : Server :=
  {| templates := [(7, ("Vibration Test", Some (31, "Vibration")))%Z];
     models := [(31, "x_fsm_vibration")%Z];
     model_fields := [(100, ("x_fsm_vibration", "x_test_objective"));
                      (101, ("x_fsm_vibration", "x_serial_number"))]%Z;
     views := [];
     next_id := 102;
     faulty := f |}.

(** A server that knows no template. *)
Definition blank : Server :=
  {| templates := [];
     models := [];
     model_fields := [];
     views := [];
     next_id := 1;
     faulty := reliable |}.

End Reference.

(** ** More vocabulary: [create_field] and template resolution *)

Section FieldStatements.
Context {R : Type} `{Env R}.

(** The dictionary that [create_field] of [odoo_template_temp.py] sends: as
    in [odd_temp_veb.py], with the declared default under ['default'] when it
    is truthy. *)
Definition temp_payload (model_id : Z) (fc : FieldSpec) : FieldValues :=
  let ttype := dict_get field_type_map (field_type fc) "char" in
  let fv :=
    {| fv_name := name fc;
       fv_field_description := label fc;
       fv_model_id := model_id;
       fv_ttype := ttype;
       fv_state := "manual";
       fv_required := get_or_false (required fc);
       fv_readonly := get_or_false (readonly fc);
       fv_selection := None;
       fv_default := None |} in
  let fv :=
    match default_value fc with
    | Some v => if truthy v then set_default fv v else fv
    | None => fv
    end in
  match selection fc with
  | Some sel => if ttype =? "selection" then set_selection fv sel else fv
  | None => fv
  end.

(** The common shape of the three [create_field] functions: the existence
    check, the model lookup, the creation call with the script's payload, and
    what the script does after a successful creation. *)
Definition create_field_by (payload : Z -> FieldSpec -> FieldValues)
  (after : string -> FieldSpec -> M R unit)
  (model : string) (fc : FieldSpec) : M R bool :=
  fun r =>
    let chk := check_field_exists model (name fc) r in
    if value chk
    then (true, remote chk, (events chk ++ [Printed (MsgFieldExists (name fc))])%list)
    else
      match execute_kw (ModelSearch model) (remote chk) with
      | (inl e, r2) =>
        (false, r2,
         (events chk ++ [Called (ModelSearch model);
                         Printed (MsgFieldError (name fc) e)])%list)
      | (inr [], r2) =>
        (false, r2,
         (events chk ++ [Called (ModelSearch model);
                         Printed (MsgModelNotFound model)])%list)
      | (inr (model_id :: _), r2) =>
        let fv := payload model_id fc in
        match execute_kw (FieldCreate fv) r2 with
        | (inl e, r3) =>
          (false, r3,
           (events chk ++ [Called (ModelSearch model);
                           Called (FieldCreate fv);
                           Printed (MsgFieldError (name fc) e)])%list)
        | (inr field_id, r3) =>
          (true, remote (after model fc r3),
           (events chk ++ [Called (ModelSearch model);
                           Called (FieldCreate fv);
                           Printed (MsgFieldCreated (name fc) field_id)]
                       ++ events (after model fc r3))%list)
        end
      end.

(** Nothing is done after the creation ([odoo_template_temp.py],
    [odoolong1.py]). *)
Definition nothing_after (model : string) (fc : FieldSpec) : M R unit := ret tt.

(** The default a field specification declares, when it is truthy. *)
Definition truthy_default (fc : FieldSpec) : option Json :=
  match default_value fc with
  | Some v => if truthy v then Some v else None
  | None => None
  end.

(** The selection options that go with a field: the declared ones when the
    type tag is ['selection'], none otherwise. *)
Definition selection_sent (fc : FieldSpec) : option Json :=
  if field_type fc =? "selection" then selection fc else None.

(** Template resolution succeeds at state [r] with the first search hit
    [template_id] and the model name [worksheet_model], leaving the remote in
    [r3]: the three reads answer, none of them empty, and the template record
    carries a model reference. *)
Inductive resolves (template_name : string) (r : R)
  (template_id : Z) (worksheet_model : string) (r3 : R) : Prop :=
| resolved : forall tids r1 td tds r2 model_id mname md mds,
    execute_kw (TemplateSearch template_name) r = (inr (template_id :: tids), r1) ->
    execute_kw (TemplateRead template_id) r1 = (inr (td :: tds), r2) ->
    td_model_id td = Some (model_id, mname) ->
    execute_kw (ModelRead model_id) r2 = (inr (md :: mds), r3) ->
    md_model md = worksheet_model ->
    resolves template_name r template_id worksheet_model r3.

(** The dictionary of a new layout record. *)
Definition new_view (worksheet_model arch : string) : ViewValues :=
  {| vv_name := view_name_of worksheet_model;
     vv_model := worksheet_model;
     vv_type := "form";
     vv_arch := arch;
     vv_priority := 1 |}.

(** The calls of a resolution that reaches the model record. *)
Definition resolution_calls (template_name : string) (template_id model_id : Z)
  : list Call :=
  [TemplateSearch template_name; TemplateRead template_id; ModelRead model_id].

(** Every element of a list passes a test. *)
Definition all_of {A : Type} (p : A -> bool) (l : list A) : Prop :=
  forall x, In x l -> p x = true.

(** The three designer scripts. *)
Inductive Script : Type :=
| OddTempVebPy
| OdooTemplateTempPy
| OdooLong1Py.

Definition create_field_of (s : Script) : string -> FieldSpec -> M R bool :=
  match s with
  | OddTempVebPy => OddTempVeb.create_field
  | OdooTemplateTempPy => OdooTemplateTemp.create_field
  | OdooLong1Py => OdooLong1.create_field
  end.

Definition generate_of (s : Script) : Template -> Fault + string :=
  match s with
  | OddTempVebPy => returns OddTempVeb.generate_worksheet_xml_vibracion
  | OdooTemplateTempPy => OdooTemplateTemp.generate_worksheet_xml
  | OdooLong1Py => returns OdooLong1.generate_worksheet_xml
  end.

Definition create_worksheet_view_of (s : Script) : string -> Template -> M R (option Z) :=
  match s with
  | OddTempVebPy => OddTempVeb.create_worksheet_view
  | OdooTemplateTempPy => OdooTemplateTemp.create_worksheet_view
  | OdooLong1Py => OdooLong1.create_worksheet_view
  end.

Definition design_template_of (s : Script) : string -> M R RunResult :=
  match s with
  | OddTempVebPy => OddTempVeb.design_template
  | OdooTemplateTempPy => OdooTemplateTemp.design_template
  | OdooLong1Py => OdooLong1.design_template
  end.

(** The creation payload of each script, and what each does after a
    successful creation. *)
Definition payload_of (s : Script) : Z -> FieldSpec -> FieldValues :=
  match s with
  | OddTempVebPy => field_payload
  | OdooTemplateTempPy => temp_payload
  | OdooLong1Py => field_payload
  end.

Definition after_of (s : Script) : string -> FieldSpec -> M R unit :=
  match s with
  | OddTempVebPy => register_default
  | OdooTemplateTempPy => nothing_after
  | OdooLong1Py => nothing_after
  end.

(** The ['default'] key of the creation payload, script by script. *)
Definition default_sent (s : Script) (fc : FieldSpec) : option Json :=
  match s with
  | OdooTemplateTempPy => truthy_default fc
  | _ => None
  end.

(** What [create_field] sends and returns, in the four ways it can end. *)
Inductive field_run (s : Script) (model : string) (fc : FieldSpec) (r : R)
  : bool -> list Call -> Prop :=
| run_skipped : forall r1 ev,
    check_field_exists model (name fc) r = (true, r1, ev) ->
    field_run s model fc r true [FieldSearch model (name fc)]
| run_no_model : forall r1 ev r2 a,
    check_field_exists model (name fc) r = (false, r1, ev) ->
    execute_kw (ModelSearch model) r1 = (a, r2) ->
    (a = inr [] \/ exists e, a = inl e) ->
    field_run s model fc r false [FieldSearch model (name fc); ModelSearch model]
| run_refused : forall r1 ev model_id more r2 e r3,
    check_field_exists model (name fc) r = (false, r1, ev) ->
    execute_kw (ModelSearch model) r1 = (inr (model_id :: more), r2) ->
    execute_kw (FieldCreate (payload_of s model_id fc)) r2 = (inl e, r3) ->
    field_run s model fc r false
      [FieldSearch model (name fc); ModelSearch model;
       FieldCreate (payload_of s model_id fc)]
| run_created : forall r1 ev model_id more r2 field_id r3,
    check_field_exists model (name fc) r = (false, r1, ev) ->
    execute_kw (ModelSearch model) r1 = (inr (model_id :: more), r2) ->
    execute_kw (FieldCreate (payload_of s model_id fc)) r2 = (inr field_id, r3) ->
    field_run s model fc r true
      ([FieldSearch model (name fc); ModelSearch model;
        FieldCreate (payload_of s model_id fc)]
         ++ calls (events (after_of s model fc r3)))%list.

End FieldStatements.

(** More sample inputs for the reference remote. *)
Module Samples.

(** A selection field with its options and a falsy default. *)
Definition status : FieldSpec :=
  {| name := "x_result_status";
     label := "Result";
     field_type := "selection";
     required := None;
     readonly := Some (JBool false);
     default_value := Some (JStr EmptyString);
     selection := Some (JList [JList [JStr "ok"; JStr "OK"];
                               JList [JStr "ko"; JStr "No OK"]]) |}.

(** A text field that declares selection options all the same. *)
Definition comments : FieldSpec :=
  {| name := "x_test_comments";
     label := "Comments";
     field_type := "text";
     required := None;
     readonly := None;
     default_value := None;
     selection := Some (JList [JList [JStr "a"; JStr "A"]]) |}.

(** A server on which the layout of [x_fsm_vibration] exists, twice. *)
Definition with_layout : Reference.Server :=
  {| Reference.templates := [(7, ("Vibration Test", Some (31, "Vibration")))%Z];
     Reference.models := [(31, "x_fsm_vibration")%Z];
     Reference.model_fields := [];
     Reference.views :=
       [(55, (("view_x_fsm_vibration_form", "x_fsm_vibration"), "<form/>"));
        (56, (("view_x_fsm_vibration_form", "x_fsm_vibration"), "<form/>"))]%Z;
     Reference.next_id := 100;
     Reference.faulty := Reference.reliable |}.

(** A server whose template record has identifier 0. *)
Definition zero_id : Reference.Server :=
  {| Reference.templates := [(0, ("Vibration Test", Some (31, "Vibration")))%Z];
     Reference.models := [(31, "x_fsm_vibration")%Z];
     Reference.model_fields := [];
     Reference.views := [];
     Reference.next_id := 100;
     Reference.faulty := Reference.reliable |}.

End Samples.

(** ** The programs around the designer: [main], [test.py] and
    [check_odoo_models.py]

    Besides the object endpoint that [_execute] reaches, the programs read
    [config.json], ask whether files exist, build XML-RPC proxies and log in
    at the common endpoint; the diagnostic script sends [search_read] queries
    of its own.  These collaborators form the interface [Host]. *)

(** The keys of [config.json] that the programs read ([None]: the key is
    missing). *)
Record Config : Type := {
  odoo_url : option string;
  odoo_db : option string;
  odoo_username : option string;
  odoo_password : option string;
  template_file : option string
}.

(** The [search_read] queries of [check_odoo_models.py]; every answer is a
    list of records with two fields, as a list of pairs. *)
Inductive Query : Type :=
| ModelsLike (keyword : string)      (* 'ir.model', model ilike keyword: (model, name) *)
| ModelNamed (model : string)        (* 'ir.model', model = ...: (model, name) *)
| FieldsLike (model pattern : string) (limit : nat)
                                     (* 'ir.model.fields': (name, field_description) *)
| ModulesLike (pattern state : string).
                                     (* 'ir.module.module': (name, shortdesc) *)

Class Host (R : Type) : Type := {
  (** [os.path.exists]. *)
  path_exists : string -> bool;
  (** [open('config.json')] and [json.load]: the configuration, or the
      exception raised. *)
  load_config : Fault + Config;
  (** [xmlrpc.client.ServerProxy(uri)]: the exception it raises, if any. *)
  proxy_fault : string -> option Fault;
  (** [common.authenticate(db, username, password, {})] at an endpoint. *)
  authenticate : string -> string -> string -> string -> R -> (Fault + Json) * R;
  (** [models.execute_kw(db, uid, password, model, 'search_read', ...)]. *)
  search_read : Query -> R -> (Fault + list (string * string)) * R
}.

(** How a piece of a program ends: normally, by an exception that leaves it,
    or by [sys.exit]. *)
Inductive Control (A : Type) : Type :=
| Normal (a : A)
| Raised (e : Fault)
| Exited (code : Z).

Arguments Normal {A} a.
Arguments Raised {A} e.
Arguments Exited {A} code.

(** The exit status of the process: 0 after a normal end, 1 after an uncaught
    exception, the code given to [sys.exit] otherwise. *)
Definition exit_status {A : Type} (c : Control A) : Z :=
  match c with
  | Normal _ => 0
  | Raised _ => 1
  | Exited code => code
  end.

(** The lines the programs print (one constructor per status line or block). *)
Inductive HostMsg : Type :=
| SayBanner
| SayNoConfig
| SayNoTemplateFile (path : string)
| SayConfigLoaded (url db template_file : string)
| SayConnecting (url : string)
| SayAuthenticated (uid : Json)
| SayAuthError (e : Fault)
| SayDesigned
| SayDesignErrors
| SayUnexpected (e : Fault)
| SayLoading
| SayTesting (url db username : string)
| SayConnected (uid : Json)
| SayLoginFailed
| SayLoginError (e : Fault)
| SayAuthFailed
| SaySearching
| SayFoundHeader
| SayModel (model name : string)
| SayNoModels
| SayCheckingTask
| SayTaskExists
| SayCheckingFields
| SayFieldsHeader
| SayField (name description : string)
| SayTaskMissing
| SayTaskError (e : Fault)
| SayCheckingModules
| SayModulesHeader
| SayModule (name shortdesc : string)
| SayNoModules
| SayModulesError (e : Fault)
| SayRecommendations
| SayUseFsm
| SayUseTask
| SayInstall.

(** What a program does that the outside can observe. *)
Inductive HostEvent : Type :=
| Login (uri db username password : string)
| Asked (q : Query)
| Said (m : HostMsg)
| Ran (e : Event).

(** The events of the designer inside the events of a program. *)
Fixpoint ran (es : list HostEvent) : list Event :=
  match es with
  | [] => []
  | Ran e :: es' => e :: ran es'
  | _ :: es' => ran es'
  end.

(** The logins among the events of a program. *)
Fixpoint logins (es : list HostEvent) : list (string * string * string * string) :=
  match es with
  | [] => []
  | Login uri db username password :: es' => (uri, db, username, password) :: logins es'
  | _ :: es' => logins es'
  end.

(** The queries among the events of a program. *)
Fixpoint asked (es : list HostEvent) : list Query :=
  match es with
  | [] => []
  | Asked q :: es' => q :: asked es'
  | _ :: es' => asked es'
  end.

(** The lines among the events of a program. *)
Fixpoint said (es : list HostEvent) : list HostMsg :=
  match es with
  | [] => []
  | Said m :: es' => m :: said es'
  | _ :: es' => said es'
  end.

(** [s.rstrip('/')]. *)
Fixpoint rstrip_slash (s : string) : string :=
  match s with
  | EmptyString => EmptyString
  | String c s' =>
    match rstrip_slash s' with
    | EmptyString => if Ascii.eqb c "/"%char then EmptyString else String c EmptyString
    | String d t => String c (String d t)
    end
  end.

(** [config[key]]: the value, or the [KeyError] whose text is the quoted
    key. *)
Definition config_key (key : string) (v : option string) : Control string :=
  match v with
  | Some x => Normal x
  | None => Raised ("'" ++ key ++ "'")
  end.

(** The two endpoints. *)
Definition common_endpoint (url : string) : string := url ++ "/xmlrpc/2/common".
Definition object_endpoint (url : string) : string := url ++ "/xmlrpc/2/object".

Section Programs.
Context {R : Type} `{Env R} `{Host R}.

Definition HM (A : Type) : Type := R -> A * R * list HostEvent.

Definition hret {A : Type} (a : A) : HM A := fun r => (a, r, []).

Definition hbind {A B : Type} (m : HM A) (k : A -> HM B) : HM B :=
  fun r =>
    let '(a, r1, e1) := m r in
    let '(b, r2, e2) := k a r1 in
    (b, r2, (e1 ++ e2)%list).

Definition say (m : HostMsg) : HM unit := fun r => (tt, r, [Said m]).

(** One login at the common endpoint, recorded. *)
Definition login (uri db username password : string) : HM (Fault + Json) :=
  fun r =>
    let '(a, r') := authenticate uri db username password r in
    (a, r', [Login uri db username password]).

(** One [search_read] query, recorded. *)
Definition ask (q : Query) : HM (Fault + list (string * string)) :=
  fun r => let '(a, r') := search_read q r in (a, r', [Asked q]).

(** A computation of the designer inside a program. *)
Definition designer {A : Type} (m : M R A) : HM A :=
  fun r => let '(a, r', ev) := m r in (a, r', map Ran ev).

End Programs.

Arguments HM : clear implicits.

Notation "x <~ m ;; k" := (hbind m (fun x => k))
  (at level 61, m at next level, right associativity).
Notation "m ;;; k" := (hbind m (fun _ => k))
  (at level 61, right associativity).

Section Main.
Context {R : Type} `{Env R} `{Host R}.

(** [WorksheetTemplateDesigner(url, db, username, password)]: [__init__] and
    [_authenticate].  The first proxy is built outside the [try], so its
    exception leaves the constructor; everything else that fails ends in
    [sys.exit(1)]. *)
Definition _authenticate (url db username password : string) : HM R (Control unit) :=
  match proxy_fault (common_endpoint url) with
  | Some e => hret (Raised e)
  | None =>
    uid <~ login (common_endpoint url) db username password ;;
    match uid with
    | inl e => say (SayAuthError e) ;;; hret (Exited 1)
    | inr uid =>
      if truthy uid
      then
        match proxy_fault (object_endpoint url) with
        | Some e => say (SayAuthError e) ;;; hret (Exited 1)
        | None => say (SayAuthenticated uid) ;;; hret (Normal tt)
        end
      else
        say (SayAuthError "Authentication failed. Check credentials.") ;;;
        hret (Exited 1)
    end
  end.

Definition new_designer (url db username password : string) : HM R (Control unit) :=
  say (SayConnecting url) ;;; _authenticate url db username password.

(** [config['template_file']] in [odd_temp_veb.py] and
    [odoo_template_temp.py];
    [config.get('template_file', 'centrifuge_revision_template.json')] in
    [odoolong1.py]. *)
Definition template_file_of (s : Script) (config : Config) : Control string :=
  match s with
  | OdooLong1Py =>
    Normal (match template_file config with
            | Some f => f
            | None => "centrifuge_revision_template.json"
            end)
  | _ => config_key "template_file" (template_file config)
  end.

(** [main] of the three designer scripts. *)
Definition main (s : Script) : HM R (Control unit) :=
  say SayBanner ;;;
  if negb (path_exists "config.json")
  then say SayNoConfig ;;; hret (Exited 1)
  else
    match load_config with
    | inl e => hret (Raised e)
    | inr config =>
    match config_key "odoo_url" (odoo_url config) with
    | Raised e => hret (Raised e)
    | Exited code => hret (Exited code)
    | Normal url =>
    let ODOO_URL := rstrip_slash url in
    match config_key "odoo_db" (odoo_db config) with
    | Raised e => hret (Raised e)
    | Exited code => hret (Exited code)
    | Normal ODOO_DB =>
    match config_key "odoo_username" (odoo_username config) with
    | Raised e => hret (Raised e)
    | Exited code => hret (Exited code)
    | Normal ODOO_USERNAME =>
    match config_key "odoo_password" (odoo_password config) with
    | Raised e => hret (Raised e)
    | Exited code => hret (Exited code)
    | Normal ODOO_PASSWORD =>
    match template_file_of s config with
    | Raised e => hret (Raised e)
    | Exited code => hret (Exited code)
    | Normal TEMPLATE_FILE =>
      if negb (path_exists TEMPLATE_FILE)
      then say (SayNoTemplateFile TEMPLATE_FILE) ;;; hret (Exited 1)
      else
        say (SayConfigLoaded ODOO_URL ODOO_DB TEMPLATE_FILE) ;;;
        made <~ new_designer ODOO_URL ODOO_DB ODOO_USERNAME ODOO_PASSWORD ;;
        match made with
        | Raised e => say (SayUnexpected e) ;;; hret (Exited 1)
        | Exited code => hret (Exited code)
        | Normal _ =>
          results <~ designer (design_template_of s TEMPLATE_FILE) ;;
          if run_success results
          then say SayDesigned ;;; hret (Normal tt)
          else say SayDesignErrors ;;; hret (Exited 1)
        end
    end end end end end
    end.

(** [test.py], a script without functions: the configuration, one login, one
    line of verdict. *)
Definition test_py : HM R (Control unit) :=
  say SayLoading ;;;
  match load_config with
  | inl e => hret (Raised e)
  | inr config =>
  match config_key "odoo_url" (odoo_url config) with
  | Raised e => hret (Raised e)
  | Exited code => hret (Exited code)
  | Normal url =>
  match config_key "odoo_db" (odoo_db config) with
  | Raised e => hret (Raised e)
  | Exited code => hret (Exited code)
  | Normal db =>
  match config_key "odoo_username" (odoo_username config) with
  | Raised e => hret (Raised e)
  | Exited code => hret (Exited code)
  | Normal username =>
  match config_key "odoo_password" (odoo_password config) with
  | Raised e => hret (Raised e)
  | Exited code => hret (Exited code)
  | Normal password =>
    say (SayTesting url db username) ;;;
    match proxy_fault (common_endpoint url) with
    | Some e => say (SayLoginError e) ;;; hret (Normal tt)
    | None =>
      uid <~ login (common_endpoint url) db username password ;;
      match uid with
      | inl e => say (SayLoginError e) ;;; hret (Normal tt)
      | inr uid =>
        if truthy uid
        then say (SayConnected uid) ;;; hret (Normal tt)
        else say SayLoginFailed ;;; hret (Normal tt)
      end
    end
  end end end end
  end.

End Main.

(** ** [check_odoo_models.py] *)

From Stdlib Require Import Sorted Permutation.

(** A dictionary with string keys and values, in insertion order. *)
Definition Dict : Type := list (string * string).

(** [d[k] = v]: the value of an existing key is replaced in place, a new key
    goes to the end. *)
Fixpoint dict_set (d : Dict) (k v : string) : Dict :=
  match d with
  | [] => [(k, v)]
  | (k', v') :: d' =>
    if k' =? k then (k', v) :: d' else (k', v') :: dict_set d' k v
  end.

(** [k in d]. *)
Definition dict_has (d : Dict) (k : string) : bool :=
  existsb (fun kv => fst kv =? k) d.

(** [d.get(k)]. *)
Fixpoint dict_lookup (d : Dict) (k : string) : option string :=
  match d with
  | [] => None
  | (k', v) :: d' => if k' =? k then Some v else dict_lookup d' k
  end.

(** The order of Python on pairs of strings: by the first components, and by
    the second ones when the first are equal. *)
Definition item_leb (a b : string * string) : bool :=
  match String.compare (fst a) (fst b) with
  | Lt => true
  | Eq => String.leb (snd a) (snd b)
  | Gt => false
  end.

Fixpoint insert_item (x : string * string) (l : list (string * string))
  : list (string * string) :=
  match l with
  | [] => [x]
  | y :: l' => if item_leb x y then x :: y :: l' else y :: insert_item x l'
  end.

(** [sorted(d.items())], as an insertion sort: the order on pairs is total
    and only equal pairs compare as equal, so every sort returns this list. *)
Fixpoint py_sorted (l : list (string * string)) : list (string * string) :=
  match l with
  | [] => []
  | x :: l' => insert_item x (py_sorted l')
  end.

(** The [field_service_keywords] list. *)
Definition field_service_keywords : list string :=
  ["fsm"; "field"; "service"; "worksheet"; "project.task"; "maintenance"; "helpdesk"].

(** [for model in model_ids: found_models[model['model']] = model['name']]. *)
Definition record_models (found : Dict) (model_ids : list (string * string)) : Dict :=
  fold_left (fun d model => dict_set d (fst model) (snd model)) model_ids found.

(** The advice printed at the end. *)
Definition recommendation (found : Dict) : HostMsg :=
  if dict_has found "fsm.worksheet" then SayUseFsm
  else if dict_has found "project.task" then SayUseTask
  else SayInstall.

Section Diagnostics.
Context {R : Type} `{Host R}.

(** Several lines in a row. *)
Definition say_all (ms : list HostMsg) : HM R unit :=
  fun r => (tt, r, map Said ms).

(** The loop over the keywords: a query that raises is passed over. *)
Fixpoint scan_keywords (keywords : list string) (found_models : Dict) : HM R Dict :=
  match keywords with
  | [] => hret found_models
  | keyword :: rest =>
    model_ids <~ ask (ModelsLike keyword) ;;
    scan_keywords rest
      match model_ids with
      | inr ids => record_models found_models ids
      | inl _ => found_models
      end
  end.

(** The listing of the models found. *)
Definition list_models (found_models : Dict) : HM R unit :=
  match found_models with
  | [] => say SayNoModels
  | _ :: _ =>
    say SayFoundHeader ;;;
    say_all (map (fun item => SayModel (fst item) (snd item)) (py_sorted found_models))
  end.

(** The check of [project.task] and of its worksheet fields. *)
Definition check_project_task : HM R unit :=
  say SayCheckingTask ;;;
  project_task <~ ask (ModelNamed "project.task") ;;
  match project_task with
  | inl e => say (SayTaskError e)
  | inr [] => say SayTaskMissing
  | inr (_ :: _) =>
    say SayTaskExists ;;;
    say SayCheckingFields ;;;
    found_fields <~ ask (FieldsLike "project.task" "worksheet" 10) ;;
    match found_fields with
    | inl e => say (SayTaskError e)
    | inr [] => hret tt
    | inr (f :: fs) =>
      say SayFieldsHeader ;;;
      say_all (map (fun field => SayField (fst field) (snd field)) (f :: fs))
    end
  end.

(** The check of the installed modules. *)
Definition check_modules : HM R unit :=
  say SayCheckingModules ;;;
  modules <~ ask (ModulesLike "field" "installed") ;;
  match modules with
  | inl e => say (SayModulesError e)
  | inr [] => say SayNoModules
  | inr (m :: ms) =>
    say SayModulesHeader ;;;
    say_all (map (fun module => SayModule (fst module) (snd module)) (m :: ms))
  end.

(** What [check_odoo_models] does once it holds a user identifier and the
    object proxy. *)
Definition diagnose : HM R unit :=
  say SaySearching ;;;
  found_models <~ scan_keywords field_service_keywords [] ;;
  list_models found_models ;;;
  check_project_task ;;;
  check_modules ;;;
  say SayRecommendations ;;;
  say (recommendation found_models).

(** [check_odoo_models]: nothing is guarded before the keyword loop, so a
    failing load, a missing key, a proxy or a login that raises leave the
    function as exceptions. *)
Definition check_odoo_models : HM R (Control unit) :=
  say SayBanner ;;;
  match load_config with
  | inl e => hret (Raised e)
  | inr config =>
  match config_key "odoo_url" (odoo_url config) with
  | Raised e => hret (Raised e)
  | Exited code => hret (Exited code)
  | Normal raw_url =>
  let url := rstrip_slash raw_url in
  match config_key "odoo_db" (odoo_db config) with
  | Raised e => hret (Raised e)
  | Exited code => hret (Exited code)
  | Normal db =>
  match config_key "odoo_username" (odoo_username config) with
  | Raised e => hret (Raised e)
  | Exited code => hret (Exited code)
  | Normal username =>
  match config_key "odoo_password" (odoo_password config) with
  | Raised e => hret (Raised e)
  | Exited code => hret (Exited code)
  | Normal password =>
    say (SayConnecting url) ;;;
    match proxy_fault (common_endpoint url) with
    | Some e => hret (Raised e)
    | None =>
      uid <~ login (common_endpoint url) db username password ;;
      match uid with
      | inl e => hret (Raised e)
      | inr uid =>
        if truthy uid
        then
          say (SayAuthenticated uid) ;;;
          match proxy_fault (object_endpoint url) with
          | Some e => hret (Raised e)
          | None => diagnose ;;; hret (Normal tt)
          end
        else say SayAuthFailed ;;; hret (Normal tt)
      end
    end
  end end end end
  end.

End Diagnostics.

(** ** Vocabulary for the programs *)

(** Projections of a finished program. *)
Definition hvalue {R A : Type} (x : A * R * list HostEvent) : A := fst (fst x).
Definition hremote {R A : Type} (x : A * R * list HostEvent) : R := snd (fst x).
Definition hevents {R A : Type} (x : A * R * list HostEvent) : list HostEvent := snd x.

(** The models that the listing of [check_odoo_models.py] shows, in the order
    of the lines. *)
Fixpoint listed (ms : list HostMsg) : list (string * string) :=
  match ms with
  | [] => []
  | SayModel model name :: ms' => (model, name) :: listed ms'
  | _ :: ms' => listed ms'
  end.

(** The lines of advice among the printed lines. *)
Definition is_advice (m : HostMsg) : bool :=
  match m with
  | SayUseFsm | SayUseTask | SayInstall => true
  | _ => false
  end.

(** A string made of ['/'] only. *)
Definition slashes (s : string) : Prop := count_char "/"%char s = String.length s.

Section HostStatements.
Context {R : Type} `{Host R}.

(** [config.json] loads and holds the four connection keys. *)
Inductive configured (url db username password : string) : Prop :=
| is_configured : forall config,
    load_config = inr config ->
    odoo_url config = Some url ->
    odoo_db config = Some db ->
    odoo_username config = Some username ->
    odoo_password config = Some password ->
    configured url db username password.

(** The records that the keyword queries return, one keyword after the other
    from state [r]; a query that raises contributes none. *)
Fixpoint scan_answers (keywords : list string) (r : R) : list (string * string) :=
  match keywords with
  | [] => []
  | keyword :: rest =>
    let '(a, r') := search_read (ModelsLike keyword) r in
    (match a with inr ids => ids | inl _ => [] end ++ scan_answers rest r')%list
  end.

(** The remote state after the keyword queries. *)
Fixpoint scan_remote (keywords : list string) (r : R) : R :=
  match keywords with
  | [] => r
  | keyword :: rest => scan_remote rest (snd (search_read (ModelsLike keyword) r))
  end.

(** The diagnostic script holds a session: the configuration is complete,
    both proxies can be built and the login at the common endpoint of the
    stripped URL returns a truthy user identifier, leaving the remote in
    [r1]. *)
Inductive signed_in (r r1 : R) : Prop :=
| is_signed_in : forall url db username password uid,
    configured url db username password ->
    proxy_fault (common_endpoint (rstrip_slash url)) = None ->
    authenticate (common_endpoint (rstrip_slash url)) db username password r
    = (inr uid, r1) ->
    truthy uid = true ->
    proxy_fault (object_endpoint (rstrip_slash url)) = None ->
    signed_in r r1.

(** The login of the diagnostic script returns something: the configuration
    is complete, the proxy of the common endpoint can be built, the login
    answers, and the proxy of the object endpoint can be built if the answer
    is a user identifier. *)
Inductive login_answered (r : R) : Prop :=
| is_login_answered : forall url db username password uid r1,
    configured url db username password ->
    proxy_fault (common_endpoint (rstrip_slash url)) = None ->
    authenticate (common_endpoint (rstrip_slash url)) db username password r
    = (inr uid, r1) ->
    (truthy uid = true -> proxy_fault (object_endpoint (rstrip_slash url)) = None) ->
    login_answered r.

(** The advice that goes with the records of the keyword queries. *)
Definition advice_for (answers : list (string * string)) : HostMsg :=
  if existsb (fun rec => fst rec =? "fsm.worksheet") answers then SayUseFsm
  else if existsb (fun rec => fst rec =? "project.task") answers then SayUseTask
  else SayInstall.

End HostStatements.

Section MainStatements.
Context {R : Type} `{Env R} `{Host R}.

(** Everything [main] needs before it runs the designer: [config.json]
    exists, loads and holds its keys, the template file exists, both proxies
    can be built, and the login at the common endpoint of the stripped URL
    returns a truthy user identifier, leaving the remote in [r1]. *)
Inductive prepared (s : Script) (r : R) (template_file : string) (r1 : R) : Prop :=
| is_prepared : forall config url db username password uid,
    path_exists "config.json" = true ->
    load_config = inr config ->
    odoo_url config = Some url ->
    odoo_db config = Some db ->
    odoo_username config = Some username ->
    odoo_password config = Some password ->
    template_file_of s config = Normal template_file ->
    path_exists template_file = true ->
    proxy_fault (common_endpoint (rstrip_slash url)) = None ->
    authenticate (common_endpoint (rstrip_slash url)) db username password r
    = (inr uid, r1) ->
    truthy uid = true ->
    proxy_fault (object_endpoint (rstrip_slash url)) = None ->
    prepared s r template_file r1.

End MainStatements.

(** ** A reference host *)

Module Desk.

(** The files that exist, what [config.json] holds, the endpoints a proxy
    refuses, the answer of the login and the answers of the queries. *)
Record Office : Type := {
  present : list string;
  config_file : Fault + Config;
  refused : list string;
  uid_for : string -> string -> string -> string -> Fault + Json;
  catalogue : Query -> Fault + list (string * string)
}.

Definition host (o : Office) : Host Reference.Server :=
  {| path_exists := fun p => existsb (String.eqb p) (present o);
     load_config := config_file o;
     proxy_fault := fun uri =>
       if existsb (String.eqb uri) (refused o)
       then Some "unsupported XML-RPC protocol"
       else None;
     authenticate := fun uri db username password r =>
       (uid_for o uri db username password, r);
     search_read := fun q r => (catalogue o q, r) |}.

(** A complete configuration whose URL ends with a slash. *)
Definition config : Config :=
  {| odoo_url := Some "https://erp.example.com/";
     odoo_db := Some "prod";
     odoo_username := Some "designer";
     odoo_password := Some "secret";
     template_file := Some "vibration.json" |}.

(** The same without [template_file]. *)
Definition config_without_template : Config :=
  {| odoo_url := Some "https://erp.example.com/";
     odoo_db := Some "prod";
     odoo_username := Some "designer";
     odoo_password := Some "secret";
     template_file := None |}.

(** The login knows one user, at the endpoint without a doubled slash. *)
Definition one_user (uri db username password : string) : Fault + Json :=
  if (uri =? "https://erp.example.com/xmlrpc/2/common")
     && (db =? "prod") && (username =? "designer") && (password =? "secret")
  then inr (JNum 2)
  else inr (JBool false).

(** The login knows nobody. *)
Definition no_user (uri db username password : string) : Fault + Json :=
  inr (JBool false).

(** Keyword queries: [fsm] raises, [worksheet] and [project.task] answer,
    the others find nothing.  The dedicated checks answer too. *)
Definition catalogue_of_models (q : Query) : Fault + list (string * string) :=
  match q with
  | ModelsLike keyword =>
    if keyword =? "fsm" then inl "timeout"
    else if keyword =? "worksheet"
         then inr [("worksheet.template", "Worksheet Template");
                   ("project.task", "Task")]
    else if keyword =? "project.task"
         then inr [("project.task", "Project Task")]
    else inr []
  | ModelNamed _ => inr [("project.task", "Task")]
  | FieldsLike _ _ _ => inr [("worksheet_template_id", "Worksheet Template")]
  | ModulesLike _ _ => inr []
  end.

(** Every keyword query raises, and the dedicated check of [project.task]
    answers. *)
Definition catalogue_down (q : Query) : Fault + list (string * string) :=
  match q with
  | ModelsLike _ => inl "timeout"
  | ModelNamed _ => inr [("project.task", "Task")]
  | FieldsLike _ _ _ => inr []
  | ModulesLike _ _ => inr []
  end.

Definition office : Office :=
  {| present := ["config.json"; "vibration.json"];
     config_file := inr config;
     refused := [];
     uid_for := one_user;
     catalogue := catalogue_of_models |}.

Definition office_without_template : Office :=
  {| present := ["config.json"; "centrifuge_revision_template.json"];
     config_file := inr config_without_template;
     refused := [];
     uid_for := one_user;
     catalogue := catalogue_of_models |}.

Definition office_locked : Office :=
  {| present := ["config.json"; "vibration.json"];
     config_file := inr config;
     refused := [];
     uid_for := no_user;
     catalogue := catalogue_of_models |}.

Definition office_down : Office :=
  {| present := ["config.json"; "vibration.json"];
     config_file := inr config;
     refused := [];
     uid_for := one_user;
     catalogue := catalogue_down |}.

End Desk.

(** * Properties *)

(** ** Strings *)


Lemma length_append (a b : string) :
  String.length (a ++ b) = String.length a + String.length b.
Proof.
  induction a as [|x a IH]; simpl; [reflexivity | now rewrite IH].
Qed.

Lemma append_inv_head (p a b : string) : p ++ a = p ++ b -> a = b.
Proof.
  induction p as [|x p IH]; simpl; intros E; [exact E | injection E; auto].
Qed.

Lemma append_inv_tail (s a b : string) : a ++ s = b ++ s -> a = b.
Proof.
  revert b; induction a as [|x a IH]; intros [|y b] E; simpl in E.
  - reflexivity.
  - apply (f_equal String.length) in E; simpl in E.
    rewrite length_append in E; lia.
  - apply (f_equal String.length) in E; simpl in E.
    rewrite length_append in E; lia.
  - injection E as -> E. f_equal. now apply IH.
Qed.

Lemma count_char_append (c : ascii) (a b : string) :
  count_char c (a ++ b) = count_char c a + count_char c b.
Proof.
  induction a as [|x a IH]; simpl; [reflexivity | rewrite IH; lia].
Qed.

Lemma replace_dot_dot_free (s : string) : dot_free s -> replace_dot s = s.
Proof.
  unfold dot_free; induction s as [|x s IH]; simpl; intros E; [reflexivity|].
  destruct (Ascii.eqb x "."%char); [discriminate|].
  now rewrite IH.
Qed.

(** ** The monad *)

Section MonadFacts.
Context {R : Type} `{Env R}.

Lemma calls_app (a b : list Event) : calls (a ++ b) = (calls a ++ calls b)%list.
Proof.
  induction a as [|[c|m] a IH]; simpl; [reflexivity | now rewrite IH | exact IH].
Qed.

Lemma printed_app (a b : list Event) : printed (a ++ b) = (printed a ++ printed b)%list.
Proof.
  induction a as [|[c|m] a IH]; simpl; [reflexivity | exact IH | now rewrite IH].
Qed.


Lemma value_run {A : Type} (a : A) (r : R) (e : list Event) : value (a, r, e) = a.
Proof. reflexivity. Qed.

Lemma remote_run {A : Type} (a : A) (r : R) (e : list Event) : remote (a, r, e) = r.
Proof. reflexivity. Qed.

Lemma events_run {A : Type} (a : A) (r : R) (e : list Event) : events (a, r, e) = e.
Proof. reflexivity. Qed.


End MonadFacts.

(** ** Existence check *)

Section ExistenceCheck.
Context {R : Type} `{Env R}.


Lemma check_field_exists_found (model field_name : string) (r r' : R) (id : Z) (ids : list Z) :
  execute_kw (FieldSearch model field_name) r = (inr (id :: ids), r') ->
  check_field_exists model field_name r
  = (true, r', [Called (FieldSearch model field_name)]).
Proof.
  intros E. unfold check_field_exists, bind, _execute. rewrite E. reflexivity.
Qed.

Lemma check_field_exists_events (model field_name : string) (r : R) :
  events (check_field_exists model field_name r) = [Called (FieldSearch model field_name)].
Proof.
  unfold check_field_exists, bind, _execute, events.
  destruct (execute_kw (FieldSearch model field_name) r) as [[e|ids] r']; reflexivity.
Qed.


End ExistenceCheck.


(** ** Loading the template document *)

Section Loading.
Context {R : Type} `{Env R}.

(** C10. When the template file cannot be read or parsed, [design_template]
    (in [odd_temp_veb.py], [odoo_template_temp.py] and [odoolong1.py] alike)
    returns a result whose success flag is false and that carries the error
    message, and it issues no remote call: no template resolution, no field
    creation, no view operation. *)
Theorem design_template_load_failure :
  forall (json_path : string) (e : Fault) (r : R),
    json_load json_path = inl e ->
    stopped_at_load (OddTempVeb.design_template json_path r) e r
    /\ stopped_at_load (OdooTemplateTemp.design_template json_path r) e r
    /\ stopped_at_load (OdooLong1.design_template json_path r) e r.
Proof.
  intros json_path e r E.
  unfold stopped_at_load, OddTempVeb.design_template,
    OdooTemplateTemp.design_template, OdooLong1.design_template,
    design_template_with.
  rewrite E. cbn. repeat split.
Qed.

End Loading.

Lemma design_template_load_failure_witness :
  let E := Reference.env Reference.files in
  @json_load _ E "missing.json" = inl "No such file or directory"
  /\ stopped_at_load (@OddTempVeb.design_template _ E "missing.json" Reference.blank)
       "No such file or directory" Reference.blank.
Proof.
  split; [reflexivity|].
  exact (proj1 (@design_template_load_failure _ (Reference.env Reference.files)
                  "missing.json" "No such file or directory" Reference.blank eq_refl)).
Defined.

(** ** Layout naming *)

Lemma view_name_of_inj (m1 m2 : string) :
  view_name_of m1 = view_name_of m2 <-> replace_dot m1 = replace_dot m2.
Proof.
  unfold view_name_of; split; intros E.
  - apply append_inv_head in E. now apply append_inv_tail in E.
  - now rewrite E.
Qed.

Section LayoutNaming.
Context {R : Type} `{Env R}.

(** A layout generator that raises ends the view step before any call. *)
Lemma create_worksheet_view_raises (generate_xml : Template -> Fault + string)
  (worksheet_model : string) (template_config : Template) (r : R) (e : Fault) :
  generate_xml template_config = inl e ->
  create_worksheet_view_with generate_xml worksheet_model template_config r
  = (None, r, [Printed (MsgViewError e)]).
Proof.
  intros G. unfold create_worksheet_view_with. cbv zeta. rewrite G. reflexivity.
Qed.

(** Once the layout is generated, the view step does not look at the
    generator again. *)
Lemma create_worksheet_view_generated (generate_xml : Template -> Fault + string)
  (worksheet_model : string) (template_config : Template) (r : R) (view_xml : string) :
  generate_xml template_config = inr view_xml ->
  create_worksheet_view_with generate_xml worksheet_model template_config r
  = create_worksheet_view_with (returns (fun _ => view_xml)) worksheet_model
      template_config r.
Proof.
  intros G. unfold create_worksheet_view_with, returns. cbv zeta. now rewrite G.
Qed.

Lemma create_worksheet_view_first_call (generate_xml : Template -> Fault + string)
  (worksheet_model : string) (template_config : Template) (r : R) :
  match generate_xml template_config with
  | inr _ =>
    exists rest,
      calls (events (create_worksheet_view_with generate_xml worksheet_model
                       template_config r))
      = ViewSearch (view_name_of worksheet_model) worksheet_model :: rest
  | inl _ =>
    calls (events (create_worksheet_view_with generate_xml worksheet_model
                     template_config r)) = []
  end.
Proof.
  unfold create_worksheet_view_with, bind, _execute, ret, print, events.
  cbv zeta. destruct (generate_xml template_config) as [e0|view_xml]; [reflexivity|].
  destruct (execute_kw (ViewSearch (view_name_of worksheet_model) worksheet_model) r)
    as [[e|[|vid vids]] r1]; simpl.
  - eexists; reflexivity.
  - match goal with
    | |- context [execute_kw (ViewCreate ?vv) r1] =>
      destruct (execute_kw (ViewCreate vv) r1) as [[e|id] r2]
    end; simpl; eexists; reflexivity.
  - match goal with
    | |- context [execute_kw (ViewWrite ?a ?b) r1] =>
      destruct (execute_kw (ViewWrite a b) r1) as [[e|u] r2]
    end; simpl; eexists; reflexivity.
Qed.

(** C5 (amended). The layout name is a function of the target model name
    alone: equal model names give equal layout names, and the name under
    which [create_worksheet_view] searches the remote is that function of the
    model name, whatever the remote state, the template and the generator:
    the search is the first call of the view step whenever the generator
    returns a layout (and when it raises, no call is sent at all).
    Two model names get the same layout name exactly when they agree once
    every ['.'] is replaced by ['_']; so two different model names without
    ['.'] get distinct layout names. *)
Theorem view_name_deterministic :
  forall m1 m2 : string,
    (m1 = m2 -> view_name_of m1 = view_name_of m2)
    /\ (forall (generate_xml : Template -> Fault + string) (template_config : Template)
               (r : R),
          match generate_xml template_config with
          | inr _ =>
            exists rest,
              calls (events (create_worksheet_view_with generate_xml m1
                               template_config r))
              = ViewSearch (view_name_of m1) m1 :: rest
          | inl _ =>
            calls (events (create_worksheet_view_with generate_xml m1
                             template_config r)) = []
          end)
    /\ (view_name_of m1 = view_name_of m2 <-> replace_dot m1 = replace_dot m2)
    /\ (dot_free m1 -> dot_free m2 -> m1 <> m2 -> view_name_of m1 <> view_name_of m2).
Proof.
  intros m1 m2. repeat split.
  - now intros ->.
  - intros g t r. apply create_worksheet_view_first_call.
  - apply view_name_of_inj.
  - apply view_name_of_inj.
  - intros D1 D2 N E. apply view_name_of_inj in E.
    rewrite (replace_dot_dot_free _ D1), (replace_dot_dot_free _ D2) in E.
    contradiction.
Qed.

End LayoutNaming.

(** C5 (as stated) fails: the model names [x_fsm.vibration] and
    [x_fsm_vibration] differ and have the same layout name. *)
Lemma view_name_collision :
  "x_fsm.vibration" <> "x_fsm_vibration"
  /\ view_name_of "x_fsm.vibration" = view_name_of "x_fsm_vibration".
Proof.
  split; [discriminate | reflexivity].
Qed.

Lemma view_name_deterministic_witness :
  dot_free "x_my_model" /\ dot_free "x_other_model"
  /\ "x_my_model" <> "x_other_model"
  /\ view_name_of "x_my_model" = "view_x_my_model_form"
  /\ view_name_of "x_my_model" <> view_name_of "x_other_model".
Proof.
  split; [reflexivity|]. split; [reflexivity|]. split; [discriminate|].
  split; [reflexivity|].
  apply (proj2 (proj2 (proj2
           (@view_name_deterministic _ (Reference.env Reference.files)
              "x_my_model" "x_other_model"))));
    [reflexivity | reflexivity | discriminate].
Defined.

(** ** Type mapping *)

Lemma recognised_types_are_the_keys : map fst field_type_map = recognised_types.
Proof. reflexivity. Qed.

Lemma dict_get_unrecognised (tag : string) :
  ~ In tag recognised_types -> dict_get field_type_map tag "char" = "char".
Proof.
  intros N. unfold field_type_map, dict_get.
  repeat match goal with
         | |- context [if ?k =? tag then _ else _] =>
           destruct (String.eqb_spec k tag) as [E|_];
           [exfalso; apply N; rewrite <- E; simpl; tauto|]
         end.
  reflexivity.
Qed.

Lemma dict_get_recognised (tag : string) :
  In tag recognised_types -> dict_get field_type_map tag "char" = tag.
Proof.
  intros I. simpl in I.
  repeat (destruct I as [<-|I]; [reflexivity|]).
  contradiction.
Qed.

(** ** [create_field], case by case *)

Section CreateField.
Context {R : Type} `{Env R}.

Lemma register_default_calls (model : string) (fc : FieldSpec) (r : R) :
  forall c, In c (calls (events (register_default model fc r))) ->
            exists v, c = DefaultSet model (name fc) v.
Proof.
  unfold register_default, OddTempVeb.set_field_default, bind, _execute, ret, print, events.
  destruct (default_value fc) as [v|]; [|intros c []].
  destruct (truthy v); [|intros c []].
  destruct (execute_kw (DefaultSet model (name fc) v) r) as [[e|u] r1];
    intros c [<-|[]]; eauto.
Qed.


(** [create_field] of [odd_temp_veb.py], spelled out on the answers of the
    remote. *)
Lemma create_field_cases (model : string) (fc : FieldSpec) (r : R) :
  OddTempVeb.create_field model fc r =
  let chk := check_field_exists model (name fc) r in
  if value chk
  then (true, remote chk, (events chk ++ [Printed (MsgFieldExists (name fc))])%list)
  else
    match execute_kw (ModelSearch model) (remote chk) with
    | (inl e, r2) =>
      (false, r2,
       (events chk ++ [Called (ModelSearch model);
                       Printed (MsgFieldError (name fc) e)])%list)
    | (inr [], r2) =>
      (false, r2,
       (events chk ++ [Called (ModelSearch model);
                       Printed (MsgModelNotFound model)])%list)
    | (inr (model_id :: _), r2) =>
      let fv := field_payload model_id fc in
      match execute_kw (FieldCreate fv) r2 with
      | (inl e, r3) =>
        (false, r3,
         (events chk ++ [Called (ModelSearch model);
                         Called (FieldCreate fv);
                         Printed (MsgFieldError (name fc) e)])%list)
      | (inr field_id, r3) =>
        (true, remote (register_default model fc r3),
         (events chk ++ [Called (ModelSearch model);
                         Called (FieldCreate fv);
                         Printed (MsgFieldCreated (name fc) field_id)]
                     ++ events (register_default model fc r3))%list)
      end
    end.
Proof.
  unfold OddTempVeb.create_field, field_payload, register_default.
  unfold bind, _execute, ret, print, value, remote, events.
  cbv beta zeta.
  destruct (check_field_exists model (name fc) r) as [[[|] r1] ev]; cbn [fst snd].
  - reflexivity.
  - destruct (execute_kw (ModelSearch model) r1) as [[e|[|model_id more]] r2];
      try reflexivity.
    match goal with
    | |- context [execute_kw (FieldCreate ?fv) r2] =>
      destruct (execute_kw (FieldCreate fv) r2) as [[e|fid] r3]
    end; [reflexivity|].
    destruct (default_value fc) as [v|]; [|reflexivity].
    destruct (truthy v); [|reflexivity].
    unfold OddTempVeb.set_field_default, bind, _execute, ret, print.
    destruct (execute_kw (DefaultSet model (name fc) v) r3) as [[e|u] r4]; reflexivity.
Qed.

End CreateField.

(** ** Type mapping in [create_field] *)

Lemma field_payload_unrecognised (model_id : Z) (fc : FieldSpec) :
  ~ In (field_type fc) recognised_types ->
  fv_ttype (field_payload model_id fc) = "char"
  /\ fv_selection (field_payload model_id fc) = None.
Proof.
  intros N. unfold field_payload.
  rewrite (dict_get_unrecognised _ N).
  destruct (selection fc); split; reflexivity.
Qed.

Lemma field_payload_name (model_id : Z) (fc : FieldSpec) :
  fv_name (field_payload model_id fc) = name fc
  /\ fv_model_id (field_payload model_id fc) = model_id.
Proof.
  unfold field_payload.
  destruct (selection fc);
    [destruct (dict_get field_type_map (field_type fc) "char" =? "selection")|];
    split; reflexivity.
Qed.

Section TypeMapping.
Context {R : Type} `{Env R}.

(** C6. Fail-open type mapping: a type tag outside the recognised vocabulary
    is mapped to ['char'], and the field is still created: once the existence
    check says the field is absent and the model is found, [create_field]
    issues the creation call with type ['char'], and it reports success
    exactly when that call returns. *)
Theorem unrecognised_type_defaults_to_char :
  forall (model : string) (fc : FieldSpec) (r r1 r2 : R) (ev : list Event)
         (model_id : Z) (more : list Z),
    ~ In (field_type fc) recognised_types ->
    check_field_exists model (name fc) r = (false, r1, ev) ->
    execute_kw (ModelSearch model) r1 = (inr (model_id :: more), r2) ->
    dict_get field_type_map (field_type fc) "char" = "char"
    /\ exists fv,
         In (FieldCreate fv) (calls (events (OddTempVeb.create_field model fc r)))
         /\ fv_ttype fv = "char"
         /\ fv_name fv = name fc
         /\ fv_model_id fv = model_id
         /\ (value (OddTempVeb.create_field model fc r) = true
             <-> exists id r3, execute_kw (FieldCreate fv) r2 = (inr id, r3)).
Proof.
  intros model fc r r1 r2 ev model_id more N C S.
  split; [now apply dict_get_unrecognised|].
  exists (field_payload model_id fc).
  destruct (field_payload_unrecognised model_id fc N) as [Ty _].
  destruct (field_payload_name model_id fc) as [Nm Md].
  rewrite create_field_cases, C.
  unfold value, remote, events; cbn [fst snd].
  rewrite S. cbv zeta.
  destruct (execute_kw (FieldCreate (field_payload model_id fc)) r2) as [[e|fid] r3];
    cbn [fst snd]; rewrite calls_app.
  - repeat split; auto.
    + apply in_or_app; right; simpl; auto.
    + discriminate.
    + intros (id & r4 & E); discriminate.
  - repeat split; auto.
    + apply in_or_app; right; simpl; auto.
    + intros _; eauto.
Qed.

End TypeMapping.

Lemma unrecognised_type_defaults_to_char_witness :
  let E := Reference.env Reference.files in
  let r := Reference.fresh Reference.reliable in
  ~ In (field_type Reference.serial) recognised_types
  /\ value (@OddTempVeb.create_field _ E "x_fsm_vibration" Reference.serial r) = true
  /\ dict_get field_type_map (field_type Reference.serial) "char" = "char".
Proof.
  assert (N : ~ In (field_type Reference.serial) recognised_types).
  { simpl. intros D.
    repeat (destruct D as [D|D]; [discriminate D|]). exact D. }
  split; [exact N|]. split; [reflexivity|].
  exact (proj1 (@unrecognised_type_defaults_to_char _ (Reference.env Reference.files)
                  "x_fsm_vibration" Reference.serial
                  (Reference.fresh Reference.reliable)
                  (Reference.fresh Reference.reliable)
                  (Reference.fresh Reference.reliable)
                  [Called (FieldSearch "x_fsm_vibration" "x_serial_number")]
                  31%Z [] N eq_refl eq_refl)).
Defined.

(** ** Layout dispatch *)

Lemma prefix_spec (p s : string) :
  String.prefix p s = true <-> exists post, s = p ++ post.
Proof.
  revert s; induction p as [|x p IH]; intros s; simpl.
  - split; [intros _; now exists s | now destruct s].
  - destruct s as [|y s].
    + split; [discriminate | intros (post & E); discriminate].
    + simpl. destruct (ascii_dec x y) as [->|N].
      * rewrite IH. split; intros (post & E); exists post.
        -- now rewrite E.
        -- now injection E.
      * split; [discriminate|]. intros (post & E). injection E as E1 E2.
        now elim N.
Qed.

Lemma contains_spec (needle hay : string) :
  contains needle hay = true <-> occurs_in needle hay.
Proof.
  unfold occurs_in.
  induction hay as [|y hay IH].
  - change (contains needle EmptyString) with (String.prefix needle EmptyString).
    rewrite prefix_spec. split.
    + intros (post & E). exists EmptyString, post. exact E.
    + intros ([|x pre] & post & E); [now exists post | discriminate].
  - change (contains needle (String y hay))
      with (String.prefix needle (String y hay) || contains needle hay).
    rewrite orb_true_iff, IH, prefix_spec. split.
    + intros [(post & E)|(pre & post & E)].
      * exists EmptyString, post. exact E.
      * exists (String y pre), post. simpl. now rewrite E.
    + intros ([|x pre] & post & E).
      * left. now exists post.
      * right. injection E as _ E. now exists pre, post.
Qed.

Lemma newlines_append (a b : string) : newlines (a ++ b) = newlines a + newlines b.
Proof. apply count_char_append. Qed.

Lemma newlines_unlines (l : string) (ls : list string) :
  newlines (unlines (l :: ls))
  = newlines l + fold_right (fun x acc => 1 + newlines x + acc) 0 ls.
Proof.
  revert l; induction ls as [|l' ls IH]; intros l.
  - simpl. lia.
  - change (unlines (l :: l' :: ls)) with (l ++ nl ++ unlines (l' :: ls)).
    rewrite !newlines_append, IH. simpl. lia.
Qed.

Lemma newlines_q (s : string) : newlines (q s) = newlines s.
Proof.
  unfold q. rewrite !newlines_append. change (newlines dq) with 0. lia.
Qed.

(** Splits [newlines] over the appends that hold the symbolic string [n]. *)
Ltac split_newlines n :=
  repeat match goal with
         | |- context [newlines (?a ++ ?b)] =>
           lazymatch b with
           | context [n] => rewrite (newlines_append a b)
           | _ => lazymatch a with context [n] => rewrite (newlines_append a b) end
           end
         end;
  rewrite ?newlines_q.

Lemma layouts_differ (cfg : Template) :
  OdooTemplateTemp.generate_worksheet_xml_temperatura cfg
  <> OdooTemplateTemp.generate_worksheet_xml_hermiticity cfg.
Proof.
  intros E. apply (f_equal newlines) in E. revert E.
  unfold OdooTemplateTemp.generate_worksheet_xml_temperatura,
    OdooTemplateTemp.generate_worksheet_xml_hermiticity.
  cbv zeta. rewrite !newlines_unlines.
  cbn [fold_right].
  generalize (template_name cfg); intros n.
  split_newlines n.
  generalize (newlines n); intros k.
  cbn. lia.
Qed.

(** C8 (amended). Layout strategy dispatch in [odoo_template_temp.py]: the
    generator picks one of two hard-coded layouts by a keyword of the
    template input.  For every template whose [template_code] is absent (it
    is then read as the empty string) or is a string: if the lower-cased
    code contains ['temperatura'], the temperature layout is produced;
    otherwise the hermiticity layout is.  The two layouts are never the same
    text, so exactly one of them is produced.  A [template_code] that is
    present and not a string is not dispatched: [lower] raises on it and no
    layout is produced. *)
Theorem generate_worksheet_xml_dispatch :
  forall cfg : Template,
    (forall code : string,
        code_of cfg = JStr code ->
        (occurs_in "temperatura" (lower code) ->
         OdooTemplateTemp.generate_worksheet_xml cfg
         = inr (OdooTemplateTemp.generate_worksheet_xml_temperatura cfg))
        /\ (~ occurs_in "temperatura" (lower code) ->
            OdooTemplateTemp.generate_worksheet_xml cfg
            = inr (OdooTemplateTemp.generate_worksheet_xml_hermiticity cfg)))
    /\ (template_code cfg = None ->
        OdooTemplateTemp.generate_worksheet_xml cfg
        = inr (OdooTemplateTemp.generate_worksheet_xml_hermiticity cfg))
    /\ ((forall code : string, code_of cfg <> JStr code) ->
        exists e,
          lower_of (code_of cfg) = inl e
          /\ OdooTemplateTemp.generate_worksheet_xml cfg = inl e)
    /\ OdooTemplateTemp.generate_worksheet_xml_temperatura cfg
       <> OdooTemplateTemp.generate_worksheet_xml_hermiticity cfg.
Proof.
  intros cfg. unfold OdooTemplateTemp.generate_worksheet_xml. cbv zeta.
  fold (code_of cfg).
  split; [|split; [|split]].
  - intros code C. rewrite C. cbn [lower_of]. split.
    + intros O. apply contains_spec in O. now rewrite O.
    + intros O.
      destruct (contains "temperatura" (lower code)) eqn:K; [|reflexivity].
      apply contains_spec in K. contradiction.
  - intros A. unfold code_of. rewrite A. reflexivity.
  - intros N. destruct (code_of cfg) as [|b|z|code|l|l];
      try (eexists; split; reflexivity).
    now elim (N code).
  - apply layouts_differ.
Qed.

Lemma generate_worksheet_xml_dispatch_witness :
  let cfg := {| template_name := "Bearing temperature";
                fields := [];
                template_code := Some (JStr "TEST_Temperatura_01") |} in
  code_of cfg = JStr "TEST_Temperatura_01"
  /\ occurs_in "temperatura" (lower "TEST_Temperatura_01")
  /\ OdooTemplateTemp.generate_worksheet_xml cfg
     = inr (OdooTemplateTemp.generate_worksheet_xml_temperatura cfg).
Proof.
  assert (O : occurs_in "temperatura" (lower "TEST_Temperatura_01")).
  { exists "test_", "_01". reflexivity. }
  split; [reflexivity|]. split; [exact O|].
  exact (proj1 (proj1 (generate_worksheet_xml_dispatch
                         {| template_name := "Bearing temperature";
                            fields := [];
                            template_code := Some (JStr "TEST_Temperatura_01") |})
                  "TEST_Temperatura_01" eq_refl) O).
Defined.

(** C8 (as stated) fails: a template whose [template_code] is [null] does
    not contain the keyword, and it does not get the hermiticity layout.  It
    gets no layout at all: the generator raises, and the view step of the
    script reports the exception and returns no view without a remote
    call. *)
Lemma null_template_code_gets_no_layout :
  let cfg := {| template_name := "Bearing temperature";
                fields := [];
                template_code := Some JNull |} in
  let r := Reference.fresh Reference.reliable in
  code_of cfg = JNull
  /\ OdooTemplateTemp.generate_worksheet_xml cfg
     = inl "'NoneType' object has no attribute 'lower'"
  /\ OdooTemplateTemp.generate_worksheet_xml cfg
     <> inr (OdooTemplateTemp.generate_worksheet_xml_hermiticity cfg)
  /\ OdooTemplateTemp.generate_worksheet_xml cfg
     <> inr (OdooTemplateTemp.generate_worksheet_xml_temperatura cfg)
  /\ @OdooTemplateTemp.create_worksheet_view _ (Reference.env Reference.files)
       "x_fsm_vibration" cfg r
     = (None, r,
        [Printed (MsgViewError "'NoneType' object has no attribute 'lower'")]).
Proof.
  cbv zeta. split; [reflexivity|]. split; [reflexivity|].
  split; [discriminate|]. split; [discriminate|].
  reflexivity.
Qed.

(** ** Layouts and the fields list *)

(** C9. The hermiticity, temperature and centrifuge generators read the
    template's name and nothing else: two template configurations with the
    same [template_name] get the same hermiticity layout, the same temperature
    layout and the same centrifuge layout, whatever their fields lists; and
    when the dispatch keyword test agrees on both, the dispatching generator
    of [odoo_template_temp.py] returns the same text for both (or raises the
    same exception for both, when the test itself raises). *)
Theorem layouts_ignore_fields :
  forall c1 c2 : Template,
    template_name c1 = template_name c2 ->
    OdooTemplateTemp.generate_worksheet_xml_hermiticity c1
    = OdooTemplateTemp.generate_worksheet_xml_hermiticity c2
    /\ OdooTemplateTemp.generate_worksheet_xml_temperatura c1
       = OdooTemplateTemp.generate_worksheet_xml_temperatura c2
    /\ OdooLong1.generate_worksheet_xml c1 = OdooLong1.generate_worksheet_xml c2
    /\ (keyword_test c1 = keyword_test c2 ->
        OdooTemplateTemp.generate_worksheet_xml c1
        = OdooTemplateTemp.generate_worksheet_xml c2).
Proof.
  intros c1 c2 E.
  assert (Hh : OdooTemplateTemp.generate_worksheet_xml_hermiticity c1
               = OdooTemplateTemp.generate_worksheet_xml_hermiticity c2).
  { unfold OdooTemplateTemp.generate_worksheet_xml_hermiticity. now rewrite E. }
  assert (Ht : OdooTemplateTemp.generate_worksheet_xml_temperatura c1
               = OdooTemplateTemp.generate_worksheet_xml_temperatura c2).
  { unfold OdooTemplateTemp.generate_worksheet_xml_temperatura. now rewrite E. }
  repeat split; auto.
  - unfold OdooLong1.generate_worksheet_xml. now rewrite E.
  - unfold keyword_test, OdooTemplateTemp.generate_worksheet_xml. cbv zeta.
    fold (code_of c1); fold (code_of c2).
    destruct (lower_of (code_of c1)) as [e1|l1], (lower_of (code_of c2)) as [e2|l2];
      intros D; try discriminate D.
    + injection D as ->. reflexivity.
    + injection D as D. rewrite D, Hh, Ht. reflexivity.
Qed.

Lemma layouts_ignore_fields_witness :
  let c1 := {| template_name := "Vibration Test";
               fields := [Reference.objective; Reference.serial];
               template_code := None |} in
  let c2 := {| template_name := "Vibration Test";
               fields := [];
               template_code := Some (JStr "hermeticidad") |} in
  fields c1 <> fields c2
  /\ OdooLong1.generate_worksheet_xml c1 = OdooLong1.generate_worksheet_xml c2
  /\ OdooTemplateTemp.generate_worksheet_xml c1 = OdooTemplateTemp.generate_worksheet_xml c2.
Proof.
  split; [discriminate|].
  pose (T := layouts_ignore_fields
               {| template_name := "Vibration Test";
                  fields := [Reference.objective; Reference.serial];
                  template_code := None |}
               {| template_name := "Vibration Test";
                  fields := [];
                  template_code := Some (JStr "hermeticidad") |} eq_refl).
  split; [exact (proj1 (proj2 (proj2 T))) | exact (proj2 (proj2 (proj2 T)) eq_refl)].
Defined.

(** The vibration layout of [odd_temp_veb.py] walks the fields list to
    collect four default values and then does not use them: it too depends on
    the template's name only. *)
Lemma vibracion_layout_ignores_fields (c1 c2 : Template) :
  template_name c1 = template_name c2 ->
  OddTempVeb.generate_worksheet_xml_vibracion c1
  = OddTempVeb.generate_worksheet_xml_vibracion c2.
Proof.
  intros E. unfold OddTempVeb.generate_worksheet_xml_vibracion. cbv zeta.
  now rewrite E.
Qed.

(** ** Template resolution *)

Section Resolution.
Context {R : Type} `{Env R}.

Lemma find_calls (template_name : string) (r : R) :
  forall c, In c (calls (events (find_worksheet_template_by_name template_name r))) ->
            is_field_call c = false /\ is_view_call c = false.
Proof.
  unfold find_worksheet_template_by_name, bind, _execute, ret, print, events.
  destruct (execute_kw (TemplateSearch template_name) r) as [[e|[|tid tids]] r1];
    cbn [snd app calls]; try (intros c [<-|[]]; now split).
  destruct (execute_kw (TemplateRead tid) r1) as [[e|[|td tds]] r2];
    cbn [snd app calls]; try (intros c [<-|[<-|[]]]; now split).
  destruct (td_model_id td) as [[mid mname]|];
    cbn [snd app calls]; try (intros c [<-|[<-|[]]]; now split).
  destruct (execute_kw (ModelRead mid) r2) as [[e|[|md mds]] r3];
    cbn [snd app calls]; intros c [<-|[<-|[<-|[]]]]; now split.
Qed.

Lemma find_printed (template_name : string) (r : R) :
  forall m, In m (printed (events (find_worksheet_template_by_name template_name r))) ->
            is_skip_line m = false.
Proof.
  unfold find_worksheet_template_by_name, bind, _execute, ret, print, events.
  destruct (execute_kw (TemplateSearch template_name) r) as [[e|[|tid tids]] r1];
    cbn [snd app printed]; try (intros c [<-|[]]; reflexivity).
  destruct (execute_kw (TemplateRead tid) r1) as [[e|[|td tds]] r2];
    cbn [snd app printed]; try (intros c [<-|[]]; reflexivity).
  destruct (td_model_id td) as [[mid mname]|];
    cbn [snd app printed]; try (intros c [<-|[]]; reflexivity).
  destruct (execute_kw (ModelRead mid) r2) as [[e|[|md mds]] r3];
    cbn [snd app printed]; intros c [<-|[]]; reflexivity.
Qed.

Lemma find_resolution_empty (template_name : string) (r : R) :
  resolution_empty template_name r ->
  value (find_worksheet_template_by_name template_name r) = None.
Proof.
  unfold find_worksheet_template_by_name, bind, _execute, ret, print, value.
  intros [r1 E1 | tid tids r1 r2 E1 E2 | tid tids r1 td tds r2 E1 E2 E3
          | tid tids r1 td tds r2 mid mname r3 E1 E2 E3 E4];
    rewrite E1; try reflexivity; rewrite E2; try reflexivity; rewrite E3;
      try reflexivity; rewrite E4; reflexivity.
Qed.

(** [design_template] once the document is loaded, in terms of its three
    steps. *)
Lemma design_template_loaded (generate_xml : Template -> Fault + string)
  (create_field : string -> FieldSpec -> M R bool)
  (json_path : string) (template : Template) (r : R) :
  json_load json_path = inr template ->
  design_template_with generate_xml create_field json_path r =
  let fnd := find_worksheet_template_by_name (template_name template) r in
  let head := [Printed (MsgBanner (template_name template) (length (fields template)));
               Printed MsgStep1] in
  match value fnd with
  | None =>
    (NotFound, remote fnd, (head ++ events fnd ++ [Printed MsgCouldNotFind])%list)
  | Some (template_id, worksheet_model) =>
    if (template_id =? 0)%Z || (worksheet_model =? EmptyString)
    then (NotFound, remote fnd, (head ++ events fnd ++ [Printed MsgCouldNotFind])%list)
    else
      let lp :=
        add_fields create_field worksheet_model (length (fields template)) 1
          (fields template)
          {| p_template_name := template_name template;
             p_template_id := template_id;
             p_worksheet_model := worksheet_model;
             total_fields := length (fields template);
             created := 0;
             failed := 0;
             failed_fields := [] |}
          (remote fnd) in
      let vw := create_worksheet_view_with generate_xml worksheet_model template (remote lp) in
      (Completed {| progress := value lp;
                    view_id := value vw;
                    success := match value vw with Some _ => true | None => false end |},
       remote vw,
       (head ++ events fnd
             ++ Printed (MsgStep2 worksheet_model) :: events lp
             ++ Printed MsgStep3 :: events vw
             ++ [Printed (MsgSummary (template_name template) template_id worksheet_model
                            (created (value lp)) (total_fields (value lp)) (value vw)
                            (failed_fields (value lp)))])%list)
  end.
Proof.
  intros E. unfold design_template_with. rewrite E.
  unfold bind, print, ret, value, remote, events. cbv zeta.
  destruct (find_worksheet_template_by_name (template_name template) r)
    as [[[[tid wm]|] r1] e1]; cbn [fst snd]; [|reflexivity].
  destruct ((tid =? 0)%Z || (wm =? EmptyString)); [reflexivity|].
  match goal with
  | |- context [add_fields ?cf ?wm ?n ?i ?fs ?p r1] =>
    destruct (add_fields cf wm n i fs p r1) as [[p2 r2] e2]
  end.
  cbn [fst snd].
  destruct (create_worksheet_view_with generate_xml wm template r2) as [[v r3] e3].
  reflexivity.
Qed.

Lemma design_template_not_found (generate_xml : Template -> Fault + string)
  (create_field : string -> FieldSpec -> M R bool)
  (json_path : string) (template : Template) (r : R) :
  json_load json_path = inr template ->
  value (find_worksheet_template_by_name (template_name template) r) = None ->
  stopped_at_resolution (design_template_with generate_xml create_field json_path r).
Proof.
  intros E N. rewrite (design_template_loaded _ _ _ _ _ E). cbv zeta. rewrite N.
  unfold stopped_at_resolution, value, events; cbn [fst snd].
  split; [reflexivity|]. split; [reflexivity|].
  intros c I. cbn [app calls] in I. rewrite calls_app in I.
  apply in_app_or in I. destruct I as [I|[]].
  now apply (find_calls _ _ _ I).
Qed.

(** C4. Resolution failure short-circuits: when the template-name search
    returns no match, or a linkage hop yields no model (no template record, no
    model reference on it, no model record), template resolution returns
    not-found, and the run (of any of the three scripts) returns overall
    failure without having issued any field call or layout call. *)
Theorem resolution_failure_short_circuits :
  forall (json_path : string) (template : Template) (r : R),
    json_load json_path = inr template ->
    resolution_empty (template_name template) r ->
    value (find_worksheet_template_by_name (template_name template) r) = None
    /\ stopped_at_resolution (OddTempVeb.design_template json_path r)
    /\ stopped_at_resolution (OdooTemplateTemp.design_template json_path r)
    /\ stopped_at_resolution (OdooLong1.design_template json_path r).
Proof.
  intros json_path template r E Emp.
  pose proof (find_resolution_empty _ _ Emp) as N.
  split; [exact N|].
  unfold OddTempVeb.design_template, OdooTemplateTemp.design_template,
    OdooLong1.design_template.
  split; [|split]; now apply design_template_not_found with (template := template).
Qed.

End Resolution.

Lemma resolution_failure_short_circuits_witness :
  let E := Reference.env Reference.files in
  @json_load _ E "vibration.json" = inr Reference.vibration
  /\ @resolution_empty _ E "Vibration Test" Reference.blank
  /\ stopped_at_resolution (@OddTempVeb.design_template _ E "vibration.json" Reference.blank).
Proof.
  assert (Emp : @resolution_empty _ (Reference.env Reference.files)
                  "Vibration Test" Reference.blank).
  { apply no_match with (r1 := Reference.blank). reflexivity. }
  split; [reflexivity|]. split; [exact Emp|].
  exact (proj1 (proj2 (@resolution_failure_short_circuits _ (Reference.env Reference.files)
                         "vibration.json" Reference.vibration Reference.blank
                         eq_refl Emp))).
Defined.

(** ** The field loop *)

Lemma filter_nothing {A : Type} (p : A -> bool) (l : list A) :
  (forall x, In x l -> p x = false) -> filter p l = [].
Proof.
  induction l as [|x l IH]; simpl; intros N; [reflexivity|].
  rewrite (N x (or_introl eq_refl)). apply IH. intros y I. apply N. now right.
Qed.

Section FieldLoop.
Context {R : Type} `{Env R}.
Variable create_field : string -> FieldSpec -> M R bool.
Variable worksheet_model : string.
Variable total : nat.

Lemma add_fields_cons (fc : FieldSpec) (rest : list FieldSpec) (idx : nat)
  (results : Progress) (r : R) :
  add_fields create_field worksheet_model total idx (fc :: rest) results r =
  let step := create_field worksheet_model fc r in
  let next :=
    add_fields create_field worksheet_model total (S idx) rest
      (if value step
       then {| p_template_name := p_template_name results;
               p_template_id := p_template_id results;
               p_worksheet_model := p_worksheet_model results;
               total_fields := total_fields results;
               created := created results + 1;
               failed := failed results;
               failed_fields := failed_fields results |}
       else {| p_template_name := p_template_name results;
               p_template_id := p_template_id results;
               p_worksheet_model := p_worksheet_model results;
               total_fields := total_fields results;
               created := created results;
               failed := failed results + 1;
               failed_fields := (failed_fields results ++ [name fc])%list |})
      (remote step) in
  (value next, remote next,
   (Printed (MsgProgress idx total (name fc)) :: events step ++ events next)%list).
Proof.
  cbn [add_fields]. unfold bind, print, value, remote, events.
  destruct (create_field worksheet_model fc r) as [[ok r1] e1]; cbn [fst snd].
  match goal with
  | |- context [add_fields ?cf ?wm ?n ?i ?fs ?p r1] =>
    destruct (add_fields cf wm n i fs p r1) as [[p2 r2] e2]
  end.
  reflexivity.
Qed.

(** The loop visits every field: its tallies are those of the per-field
    outcomes, and the remote ends where the last [create_field] left it. *)
Lemma add_fields_tally (fields : list FieldSpec) :
  forall (idx : nat) (results : Progress) (r : R),
    let run := add_fields create_field worksheet_model total idx fields results r in
    let outs := outcomes create_field worksheet_model fields r in
    created (value run) = created results + count_ok outs
    /\ failed (value run) = failed results + count_failed outs
    /\ failed_fields (value run) = (failed_fields results ++ failed_names outs)%list
    /\ total_fields (value run) = total_fields results
    /\ p_template_name (value run) = p_template_name results
    /\ p_template_id (value run) = p_template_id results
    /\ p_worksheet_model (value run) = p_worksheet_model results
    /\ remote run = remote_after create_field worksheet_model fields r.
Proof.
  induction fields as [|fc rest IH]; intros idx results r.
  - cbn. rewrite app_nil_r. repeat split; lia.
  - cbv zeta. rewrite add_fields_cons. cbv zeta.
    cbn [outcomes remote_after].
    rewrite !value_run, !remote_run.
    match goal with
    | |- context [add_fields _ _ _ (S idx) rest ?p ?r1] =>
      destruct (IH (S idx) p r1) as (Hc & Hf & Hff & Ht & Hn & Hi & Hm & Hr)
    end.
    rewrite Hc, Hf, Hff, Ht, Hn, Hi, Hm, Hr.
    unfold count_ok, count_failed, failed_names. cbn [filter snd fst].
    destruct (value (create_field worksheet_model fc r)); cbn [negb map length fst snd
      created failed failed_fields total_fields p_template_name p_template_id
      p_worksheet_model].
    + repeat split; lia.
    + rewrite <- app_assoc. repeat split; lia.
Qed.

Lemma outcomes_fields (fields : list FieldSpec) :
  forall r : R, map fst (outcomes create_field worksheet_model fields r) = fields.
Proof.
  induction fields as [|fc rest IH]; intros r; cbn; [reflexivity | now rewrite IH].
Qed.

Lemma count_ok_failed (outs : list (FieldSpec * bool)) :
  count_ok outs + count_failed outs = length outs.
Proof.
  unfold count_ok, count_failed.
  induction outs as [|[fc [|]] outs IH]; cbn; lia.
Qed.

Lemma failed_names_length (outs : list (FieldSpec * bool)) :
  length (failed_names outs) = count_failed outs.
Proof.
  unfold failed_names, count_failed. apply length_map.
Qed.

(** A filter over the calls of the loop, when it is known on each
    [create_field]. *)
Lemma add_fields_calls (p : Call -> bool) (g : FieldSpec -> list Call) :
  (forall fc r, filter p (calls (events (create_field worksheet_model fc r))) = g fc) ->
  forall (fields : list FieldSpec) (idx : nat) (results : Progress) (r : R),
    filter p (calls (events (add_fields create_field worksheet_model total idx
                               fields results r)))
    = flat_map g fields.
Proof.
  intros G fs. induction fs as [|fc rest IH]; intros idx results r.
  - reflexivity.
  - rewrite add_fields_cons. cbv zeta. rewrite events_run. cbn [calls].
    rewrite calls_app, filter_app, G, IH. reflexivity.
Qed.

End FieldLoop.

(** ** The view step *)

Section ViewStep.
Context {R : Type} `{Env R}.
Variable generate_xml : Template -> Fault + string.

Lemma view_calls (worksheet_model : string) (template_config : Template) (r : R) :
  forall c,
    In c (calls (events (create_worksheet_view_with generate_xml worksheet_model
                           template_config r))) ->
    is_view_call c = true.
Proof.
  unfold create_worksheet_view_with, bind, _execute, ret, print, events.
  cbv zeta. destruct (generate_xml template_config) as [e0|view_xml];
    [intros c []|].
  destruct (execute_kw (ViewSearch (view_name_of worksheet_model) worksheet_model) r)
    as [[e|[|vid vids]] r1]; cbn [snd app calls].
  - intros c [<-|[]]; reflexivity.
  - match goal with
    | |- context [execute_kw (ViewCreate ?vv) r1] =>
      destruct (execute_kw (ViewCreate vv) r1) as [[e|id] r2]
    end; cbn [snd app calls]; intros c [<-|[<-|[]]]; reflexivity.
  - match goal with
    | |- context [execute_kw (ViewWrite ?a ?b) r1] =>
      destruct (execute_kw (ViewWrite a b) r1) as [[e|u] r2]
    end; cbn [snd app calls]; intros c [<-|[<-|[]]]; reflexivity.
Qed.

Lemma view_printed (worksheet_model : string) (template_config : Template) (r : R) :
  forall m,
    In m (printed (events (create_worksheet_view_with generate_xml worksheet_model
                             template_config r))) ->
    is_skip_line m = false.
Proof.
  unfold create_worksheet_view_with, bind, _execute, ret, print, events.
  cbv zeta. destruct (generate_xml template_config) as [e0|view_xml];
    [intros c [<-|[]]; reflexivity|].
  destruct (execute_kw (ViewSearch (view_name_of worksheet_model) worksheet_model) r)
    as [[e|[|vid vids]] r1]; cbn [snd app printed].
  - intros c [<-|[]]; reflexivity.
  - match goal with
    | |- context [execute_kw (ViewCreate ?vv) r1] =>
      destruct (execute_kw (ViewCreate vv) r1) as [[e|id] r2]
    end; cbn [snd app printed]; intros c [<-|[]]; reflexivity.
  - match goal with
    | |- context [execute_kw (ViewWrite ?a ?b) r1] =>
      destruct (execute_kw (ViewWrite a b) r1) as [[e|u] r2]
    end; cbn [snd app printed]; intros c [<-|[<-|[]]]; reflexivity.
Qed.

(** The view step returns no identifier exactly when the generator or one of
    its remote calls raised. *)
Lemma view_none_iff_fault (worksheet_model : string) (template_config : Template) (r : R) :
  value (create_worksheet_view_with generate_xml worksheet_model template_config r) = None
  <-> view_step_faults generate_xml worksheet_model template_config r.
Proof.
  unfold create_worksheet_view_with, view_step_faults, bind, _execute, ret, print, value.
  cbv zeta. destruct (generate_xml template_config) as [e0|view_xml];
    [cbn [fst]; tauto|].
  destruct (execute_kw (ViewSearch (view_name_of worksheet_model) worksheet_model) r)
    as [[e|[|vid vids]] r1]; cbn [fst].
  - tauto.
  - match goal with
    | |- context [execute_kw (ViewCreate ?vv) r1] =>
      destruct (execute_kw (ViewCreate vv) r1) as [[e|id] r2]
    end; cbn [fst]; [tauto | split; [discriminate | contradiction]].
  - match goal with
    | |- context [execute_kw (ViewWrite ?a ?b) r1] =>
      destruct (execute_kw (ViewWrite a b) r1) as [[e|u] r2]
    end; cbn [fst]; [tauto | split; [discriminate | contradiction]].
Qed.

End ViewStep.

(** ** A run that reaches the field step *)

Section Run.
Context {R : Type} `{Env R}.

Lemma design_template_resolved (generate_xml : Template -> Fault + string)
  (create_field : string -> FieldSpec -> M R bool)
  (json_path : string) (template : Template) (r r1 : R)
  (template_id : Z) (worksheet_model : string) (ev1 : list Event) :
  json_load json_path = inr template ->
  find_worksheet_template_by_name (template_name template) r
  = (Some (template_id, worksheet_model), r1, ev1) ->
  template_id <> 0%Z ->
  worksheet_model <> EmptyString ->
  design_template_with generate_xml create_field json_path r =
  let lp :=
    add_fields create_field worksheet_model (length (fields template)) 1
      (fields template)
      {| p_template_name := template_name template;
         p_template_id := template_id;
         p_worksheet_model := worksheet_model;
         total_fields := length (fields template);
         created := 0;
         failed := 0;
         failed_fields := [] |}
      r1 in
  let vw := create_worksheet_view_with generate_xml worksheet_model template (remote lp) in
  (Completed {| progress := value lp;
                view_id := value vw;
                success := match value vw with Some _ => true | None => false end |},
   remote vw,
   (Printed (MsgBanner (template_name template) (length (fields template)))
      :: Printed MsgStep1
      :: ev1
      ++ Printed (MsgStep2 worksheet_model) :: events lp
      ++ Printed MsgStep3 :: events vw
      ++ [Printed (MsgSummary (template_name template) template_id worksheet_model
                     (created (value lp)) (total_fields (value lp)) (value vw)
                     (failed_fields (value lp)))])%list).
Proof.
  intros E F Ni Nm.
  rewrite (design_template_loaded _ _ _ _ _ E). cbv zeta.
  rewrite F, value_run, remote_run, events_run.
  apply Z.eqb_neq in Ni. apply String.eqb_neq in Nm. rewrite Ni, Nm.
  reflexivity.
Qed.

Lemma create_field_searches_once (model : string) (fc : FieldSpec) (r : R) :
  filter is_field_search (calls (events (OddTempVeb.create_field model fc r)))
  = [FieldSearch model (name fc)].
Proof.
  assert (D : forall r3, filter is_field_search
                           (calls (events (register_default model fc r3))) = []).
  { intros r3. apply filter_nothing. intros c I.
    destruct (register_default_calls _ _ _ _ I) as (v & ->). reflexivity. }
  rewrite create_field_cases. cbv zeta.
  rewrite check_field_exists_events.
  destruct (value (check_field_exists model (name fc) r)); [reflexivity|].
  destruct (execute_kw (ModelSearch model) (remote (check_field_exists model (name fc) r)))
    as [[e|[|mid more]] r2]; try reflexivity.
  destruct (execute_kw (FieldCreate (field_payload mid fc)) r2) as [[e|fid] r3];
    [reflexivity|].
  rewrite events_run, !calls_app, !filter_app, D. reflexivity.
Qed.

(** C3. Partial-failure isolation: in a run that reaches the field step, the
    loop goes through all N field specs whatever each one's outcome: one
    existence check per field is sent, in the order of the list; every field
    is tallied as created or failed; the failed count is exactly the number of
    fields for which [create_field] reported failure, and [failed_fields]
    lists exactly their names, in order. *)
Theorem partial_failure_isolation :
  forall (json_path : string) (template : Template) (r r1 : R)
         (template_id : Z) (worksheet_model : string) (ev1 : list Event),
    json_load json_path = inr template ->
    find_worksheet_template_by_name (template_name template) r
    = (Some (template_id, worksheet_model), r1, ev1) ->
    template_id <> 0%Z ->
    worksheet_model <> EmptyString ->
    let run := OddTempVeb.design_template json_path r in
    let outs := outcomes OddTempVeb.create_field worksheet_model (fields template) r1 in
    exists res,
      value run = Completed res
      /\ map fst outs = fields template
      /\ total_fields (progress res) = length (fields template)
      /\ created (progress res) + failed (progress res) = length (fields template)
      /\ created (progress res) = count_ok outs
      /\ failed (progress res) = count_failed outs
      /\ failed_fields (progress res) = failed_names outs
      /\ length (failed_fields (progress res)) = failed (progress res)
      /\ filter is_field_search (calls (events run))
         = map (fun fc => FieldSearch worksheet_model (name fc)) (fields template).
Proof.
  intros json_path template r r1 template_id worksheet_model ev1 E F Ni Nm run outs.
  subst run. unfold OddTempVeb.design_template.
  rewrite (design_template_resolved _ _ _ _ _ _ _ _ _ E F Ni Nm). cbv zeta.
  rewrite value_run, events_run.
  eexists; split; [reflexivity|]. cbn [progress].
  match goal with
  | |- context [add_fields ?cf ?wm ?n ?i ?fs ?p r1] =>
    destruct (add_fields_tally cf wm n fs i p r1) as (Hc & Hf & Hff & Ht & _)
  end.
  cbn [created failed failed_fields total_fields] in Hc, Hf, Hff, Ht.
  fold outs in Hc, Hf, Hff.
  assert (L : length outs = length (fields template)).
  { rewrite <- (length_map fst outs). unfold outs.
    now rewrite outcomes_fields. }
  pose proof (count_ok_failed outs) as S.
  rewrite Hc, Hf, Hff, Ht. cbn [app]. rewrite failed_names_length.
  repeat split; try lia.
  - apply outcomes_fields.
  - cbn [calls filter]. rewrite calls_app, filter_app.
    rewrite (filter_nothing is_field_search (calls ev1)).
    2:{ intros c I. pose proof (find_calls (template_name template) r c) as Fc.
        rewrite F, events_run in Fc. destruct (Fc I) as [Fd _].
        destruct c; try reflexivity; discriminate Fd. }
    cbn [app calls]. rewrite calls_app, filter_app.
    rewrite (add_fields_calls OddTempVeb.create_field worksheet_model _
               is_field_search (fun fc => [FieldSearch worksheet_model (name fc)])).
    2:{ intros fc r0. apply create_field_searches_once. }
    cbn [calls]. rewrite calls_app, filter_app.
    rewrite (filter_nothing is_field_search (calls (events (create_worksheet_view_with _ _ _ _)))).
    2:{ intros c I. apply view_calls in I. destruct c; try reflexivity; discriminate I. }
    cbn [calls filter app]. rewrite app_nil_r.
    clear. induction (fields template) as [|fc fs IH]; cbn; [reflexivity | now rewrite IH].
Qed.

(** C2. In a run that reaches the view step, the success flag is true if and
    only if the view step returned a view identifier, whatever the field
    tallies are; and it is false if and only if the view step raised (the
    layout generator of this script cannot raise, so a remote call did). *)
Theorem success_iff_view_step :
  forall (json_path : string) (template : Template) (r r1 : R)
         (template_id : Z) (worksheet_model : string) (ev1 : list Event),
    json_load json_path = inr template ->
    find_worksheet_template_by_name (template_name template) r
    = (Some (template_id, worksheet_model), r1, ev1) ->
    template_id <> 0%Z ->
    worksheet_model <> EmptyString ->
    let run := OddTempVeb.design_template json_path r in
    let r2 := remote_after OddTempVeb.create_field worksheet_model (fields template) r1 in
    let view := OddTempVeb.create_worksheet_view worksheet_model template r2 in
    exists res,
      value run = Completed res
      /\ run_success (value run) = success res
      /\ view_id res = value view
      /\ (success res = true <-> exists vid, value view = Some vid)
      /\ (success res = false
          <-> view_step_faults (returns OddTempVeb.generate_worksheet_xml_vibracion)
                worksheet_model template r2).
Proof.
  intros json_path template r r1 template_id worksheet_model ev1 E F Ni Nm run r2 view.
  subst run view. unfold OddTempVeb.design_template, OddTempVeb.create_worksheet_view.
  rewrite (design_template_resolved _ _ _ _ _ _ _ _ _ E F Ni Nm). cbv zeta.
  rewrite value_run.
  match goal with
  | |- context [add_fields ?cf ?wm ?n ?i ?fs ?p r1] =>
    destruct (add_fields_tally cf wm n fs i p r1) as (_ & _ & _ & _ & _ & _ & _ & Hr)
  end.
  rewrite Hr. fold r2.
  eexists; split; [reflexivity|]. cbn [run_success success view_id].
  split; [reflexivity|]. split; [reflexivity|].
  rewrite <- view_none_iff_fault.
  destruct (value (create_worksheet_view_with (returns OddTempVeb.generate_worksheet_xml_vibracion)
                     worksheet_model template r2)) as [vid|].
  - split; split; try discriminate; eauto.
  - split; split; try discriminate; try reflexivity.
    intros (vid & D); discriminate.
Qed.

(** ** Re-running over fields that exist *)

Lemma create_field_present (model : string) (fc : FieldSpec) (r : R) :
  field_present model (name fc) r ->
  OddTempVeb.create_field model fc r
  = (true, r, [Called (FieldSearch model (name fc)); Printed (MsgFieldExists (name fc))]).
Proof.
  intros (id & ids & E).
  rewrite create_field_cases. cbv zeta.
  rewrite (check_field_exists_found _ _ _ _ _ _ E).
  reflexivity.
Qed.

Lemma add_fields_all_present (worksheet_model : string) (total : nat)
  (fs : list FieldSpec) (r : R) :
  (forall fc, In fc fs -> field_present worksheet_model (name fc) r) ->
  forall (idx : nat) (results : Progress),
    add_fields OddTempVeb.create_field worksheet_model total idx fs results r
    = ({| p_template_name := p_template_name results;
          p_template_id := p_template_id results;
          p_worksheet_model := p_worksheet_model results;
          total_fields := total_fields results;
          created := created results + length fs;
          failed := failed results;
          failed_fields := failed_fields results |},
       r, skip_events worksheet_model total idx fs).
Proof.
  induction fs as [|fc rest IH]; intros P idx results.
  - cbn. rewrite Nat.add_0_r. now destruct results.
  - rewrite add_fields_cons. cbv zeta.
    rewrite (create_field_present _ _ _ (P fc (or_introl eq_refl))).
    rewrite value_run, remote_run, events_run.
    rewrite IH by (intros fc' I; apply P; now right).
    cbn [p_template_name p_template_id p_worksheet_model total_fields created failed
           failed_fields length skip_events app].
    rewrite value_run, remote_run, events_run.
    replace (created results + 1 + length rest) with (created results + S (length rest))
      by lia.
    reflexivity.
Qed.

Lemma skip_events_calls (worksheet_model : string) (total : nat) (fs : list FieldSpec) :
  forall idx,
    calls (skip_events worksheet_model total idx fs)
    = map (fun fc => FieldSearch worksheet_model (name fc)) fs.
Proof.
  induction fs as [|fc rest IH]; intros idx; cbn; [reflexivity | now rewrite IH].
Qed.

Lemma filter_field_searches (worksheet_model : string) (fs : list FieldSpec) :
  filter is_field_call (map (fun fc => FieldSearch worksheet_model (name fc)) fs)
  = map (fun fc => FieldSearch worksheet_model (name fc)) fs.
Proof.
  induction fs as [|fc rest IH]; cbn; [reflexivity | now rewrite IH].
Qed.

Lemma skip_events_printed (worksheet_model : string) (total : nat) (fs : list FieldSpec) :
  forall idx,
    filter is_skip_line (printed (skip_events worksheet_model total idx fs))
    = map (fun fc => MsgFieldExists (name fc)) fs.
Proof.
  induction fs as [|fc rest IH]; intros idx; cbn; [reflexivity | now rewrite IH].
Qed.

(** C1 (amended). Field synchronization is idempotent where the existence
    query answers.  When a field is found by the existence check,
    [create_field] returns success after that one query and the skip line,
    without any creation call.  So a run over a remote on which every field of
    the list is found (what a first run leaves behind) creates nothing again:
    the only calls of its field step are the existence checks, every field is
    printed as skipped, none is recorded as failed, and the result counts each
    of them under ['created'], the result having no tally of its own for
    skipped fields. *)
Theorem field_sync_idempotent :
  forall (json_path : string) (template : Template) (r r1 : R)
         (template_id : Z) (worksheet_model : string) (ev1 : list Event),
    json_load json_path = inr template ->
    find_worksheet_template_by_name (template_name template) r
    = (Some (template_id, worksheet_model), r1, ev1) ->
    template_id <> 0%Z ->
    worksheet_model <> EmptyString ->
    (forall fc, In fc (fields template) ->
                field_present worksheet_model (name fc) r1) ->
    let run := OddTempVeb.design_template json_path r in
    (forall model fc r0,
        field_present model (name fc) r0 ->
        OddTempVeb.create_field model fc r0
        = (true, r0,
           [Called (FieldSearch model (name fc)); Printed (MsgFieldExists (name fc))]))
    /\ exists res,
         value run = Completed res
         /\ created (progress res) = length (fields template)
         /\ failed (progress res) = 0
         /\ failed_fields (progress res) = []
         /\ filter is_field_create (calls (events run)) = []
         /\ filter is_field_call (calls (events run))
            = map (fun fc => FieldSearch worksheet_model (name fc)) (fields template)
         /\ filter is_skip_line (printed (events run))
            = map (fun fc => MsgFieldExists (name fc)) (fields template).
Proof.
  intros json_path template r r1 template_id worksheet_model ev1 E F Ni Nm P run.
  split; [intros model fc r0; apply create_field_present|].
  subst run. unfold OddTempVeb.design_template.
  rewrite (design_template_resolved _ _ _ _ _ _ _ _ _ E F Ni Nm). cbv zeta.
  rewrite (add_fields_all_present _ _ _ _ P).
  rewrite !value_run, !remote_run, !events_run.
  cbn [created failed failed_fields total_fields progress].
  pose proof (find_calls (template_name template) r) as Fc.
  pose proof (find_printed (template_name template) r) as Fp.
  rewrite F, events_run in Fc, Fp.
  set (view := create_worksheet_view_with (returns OddTempVeb.generate_worksheet_xml_vibracion)
                 worksheet_model template r1).
  pose proof (view_calls (returns OddTempVeb.generate_worksheet_xml_vibracion)
                worksheet_model template r1) as Vc.
  pose proof (view_printed (returns OddTempVeb.generate_worksheet_xml_vibracion)
                worksheet_model template r1) as Vp.
  fold view in Vc, Vp.
  assert (Sc : forall idx,
             filter is_field_create
               (calls (skip_events worksheet_model (length (fields template)) idx
                         (fields template))) = []).
  { intros idx. rewrite skip_events_calls. apply filter_nothing.
    intros c I. apply in_map_iff in I. destruct I as (fc & <- & _). reflexivity. }
  assert (Sf : forall idx,
             filter is_field_call
               (calls (skip_events worksheet_model (length (fields template)) idx
                         (fields template)))
             = map (fun fc => FieldSearch worksheet_model (name fc)) (fields template)).
  { intros idx. rewrite skip_events_calls. apply filter_field_searches. }
  eexists; split; [reflexivity|]. cbn [progress created failed failed_fields].
  split; [reflexivity|]. split; [reflexivity|]. split; [reflexivity|].
  cbn [calls printed].
  rewrite !calls_app, !printed_app. cbn [calls printed].
  rewrite !calls_app, !printed_app. cbn [calls printed].
  rewrite !calls_app, !printed_app. cbn [calls printed].
  repeat first [rewrite filter_app | progress cbn [filter is_skip_line]].
  rewrite Sc, Sf, skip_events_printed.
  rewrite (filter_nothing is_field_create (calls ev1))
    by (intros c I; destruct (Fc c I) as [Fd _];
        destruct c; try reflexivity; discriminate Fd).
  rewrite (filter_nothing is_field_call (calls ev1))
    by (intros c I; now destruct (Fc c I)).
  rewrite (filter_nothing is_skip_line (printed ev1)) by exact Fp.
  rewrite (filter_nothing is_field_create (calls (events view)))
    by (intros c I; apply Vc in I; destruct c; try reflexivity; discriminate I).
  rewrite (filter_nothing is_field_call (calls (events view)))
    by (intros c I; apply Vc in I; destruct c; try reflexivity; discriminate I).
  rewrite (filter_nothing is_skip_line (printed (events view))) by exact Vp.
  cbn [app filter is_skip_line]. rewrite !app_nil_r.
  repeat split; reflexivity.
Qed.

End Run.

(** ** The scripts on the reference remote *)

(** C1 (as stated) fails, in two ways.  First, the existence check fails
    open: on a remote where both fields exist and the existence query raises,
    [create_field] sends a creation call for the existing field and reports
    failure once the remote refuses the duplicate, and the run records both
    fields as failed.  Second, the result has no place for skipped fields:
    where the existence query answers, the run sends no creation call and its
    result counts both fields under ['created'] (2 of 2). *)
Lemma existing_fields_not_reported_skipped :
  let E := Reference.env Reference.files in
  let down := Reference.synced Reference.search_down in
  let again := @OddTempVeb.create_field _ E "x_fsm_vibration" Reference.objective down in
  let rerun := @OddTempVeb.design_template _ E "vibration.json" down in
  let run := @OddTempVeb.design_template _ E "vibration.json"
               (Reference.synced Reference.reliable) in
  (Reference.model_fields down
   = [(100, ("x_fsm_vibration", "x_test_objective"));
      (101, ("x_fsm_vibration", "x_serial_number"))]%Z
   /\ length (filter is_field_create (calls (events again))) = 1
   /\ value again = false
   /\ printed (events again)
      = [MsgFieldError "x_test_objective" "field names must be unique per model"]
   /\ exists res,
        value rerun = Completed res
        /\ failed (progress res) = 2
        /\ failed_fields (progress res) = ["x_test_objective"; "x_serial_number"])
  /\ (filter is_field_create (calls (events run)) = []
      /\ filter is_skip_line (printed (events run))
         = [MsgFieldExists "x_test_objective"; MsgFieldExists "x_serial_number"]
      /\ exists res,
           value run = Completed res
           /\ created (progress res) = 2
           /\ created (progress res) = total_fields (progress res)
           /\ failed (progress res) = 0).
Proof.
  cbv zeta. split.
  - split; [reflexivity|]. split; [vm_compute; reflexivity|].
    split; [vm_compute; reflexivity|]. split; [vm_compute; reflexivity|].
    eexists. split; [vm_compute; reflexivity|]. split; reflexivity.
  - split; [vm_compute; reflexivity|]. split; [vm_compute; reflexivity|].
    eexists. split; [vm_compute; reflexivity|].
    repeat split; reflexivity.
Qed.

Lemma field_sync_idempotent_witness :
  let E := Reference.env Reference.files in
  let r := Reference.synced Reference.reliable in
  let run := @OddTempVeb.design_template _ E "vibration.json" r in
  (forall fc, In fc (fields Reference.vibration) ->
              @field_present _ E "x_fsm_vibration" (name fc) r)
  /\ exists res,
       value run = Completed res
       /\ failed (progress res) = 0
       /\ failed_fields (progress res) = []
       /\ filter is_field_create (calls (events run)) = [].
Proof.
  cbv zeta.
  assert (P : forall fc, In fc (fields Reference.vibration) ->
                         @field_present _ (Reference.env Reference.files)
                           "x_fsm_vibration" (name fc)
                           (Reference.synced Reference.reliable)).
  { intros fc [<-|[<-|[]]].
    - exists 100%Z, []. reflexivity.
    - exists 101%Z, []. reflexivity. }
  split; [exact P|].
  destruct (@field_sync_idempotent _ (Reference.env Reference.files)
              "vibration.json" Reference.vibration
              (Reference.synced Reference.reliable)
              (Reference.synced Reference.reliable)
              7%Z "x_fsm_vibration"
              [Called (TemplateSearch "Vibration Test");
               Called (TemplateRead 7);
               Called (ModelRead 31);
               Printed (MsgTemplateFound "Vibration Test" 7 "x_fsm_vibration")]
              eq_refl eq_refl
              ltac:(discriminate) ltac:(discriminate)
              P)
    as (_ & res & V & _ & Fl & Ff & Fc & _).
  exists res. repeat split; assumption.
Defined.

Lemma success_iff_view_step_witness :
  let E := Reference.env Reference.files in
  let r := Reference.fresh Reference.rejects_fields in
  let run := @OddTempVeb.design_template _ E "vibration.json" r in
  @find_worksheet_template_by_name _ E "Vibration Test" r
  = (Some (7%Z, "x_fsm_vibration"), r,
     [Called (TemplateSearch "Vibration Test");
      Called (TemplateRead 7);
      Called (ModelRead 31);
      Printed (MsgTemplateFound "Vibration Test" 7 "x_fsm_vibration")])
  /\ exists res,
       value run = Completed res
       /\ success res = true
       /\ run_success (value run) = true.
Proof.
  cbv zeta. split; [reflexivity|].
  destruct (@success_iff_view_step _ (Reference.env Reference.files)
              "vibration.json" Reference.vibration
              (Reference.fresh Reference.rejects_fields)
              (Reference.fresh Reference.rejects_fields)
              7%Z "x_fsm_vibration"
              [Called (TemplateSearch "Vibration Test");
               Called (TemplateRead 7);
               Called (ModelRead 31);
               Printed (MsgTemplateFound "Vibration Test" 7 "x_fsm_vibration")]
              eq_refl eq_refl
              ltac:(discriminate) ltac:(discriminate))
    as (res & V & Rs & _ & St & _).
  assert (S : success res = true).
  { apply St. exists 100%Z. vm_compute. reflexivity. }
  exists res. split; [exact V|]. split; [exact S|].
  rewrite Rs. exact S.
Defined.

Lemma partial_failure_isolation_witness :
  let E := Reference.env Reference.files in
  let r := Reference.fresh Reference.rejects_objective in
  let run := @OddTempVeb.design_template _ E "vibration.json" r in
  @json_load _ E "vibration.json" = inr Reference.vibration
  /\ exists res,
       value run = Completed res
       /\ total_fields (progress res) = 2
       /\ created (progress res) = 1
       /\ failed (progress res) = 1
       /\ failed_fields (progress res) = ["x_test_objective"].
Proof.
  cbv zeta. split; [reflexivity|].
  destruct (@partial_failure_isolation _ (Reference.env Reference.files)
              "vibration.json" Reference.vibration
              (Reference.fresh Reference.rejects_objective)
              (Reference.fresh Reference.rejects_objective)
              7%Z "x_fsm_vibration"
              [Called (TemplateSearch "Vibration Test");
               Called (TemplateRead 7);
               Called (ModelRead 31);
               Printed (MsgTemplateFound "Vibration Test" 7 "x_fsm_vibration")]
              eq_refl eq_refl
              ltac:(discriminate) ltac:(discriminate))
    as (res & V & _ & Ht & _ & Hc & Hf & Hff & _).
  exists res. split; [exact V|].
  rewrite Ht, Hc, Hf, Hff. vm_compute. repeat split; reflexivity.
Defined.

(** The scenario of the specification, run twice with [odd_temp_veb.py]: the
    first run creates both fields and the view; the second, over the state
    the first one left, sends no creation call and fails no field. *)
Example vibration_scenario_twice :
  let E := Reference.env Reference.files in
  let first := @OddTempVeb.design_template _ E "vibration.json"
                 (Reference.fresh Reference.reliable) in
  let second := @OddTempVeb.design_template _ E "vibration.json" (remote first) in
  run_success (value first) = true
  /\ length (filter is_field_create (calls (events first))) = 2
  /\ run_success (value second) = true
  /\ filter is_field_create (calls (events second)) = []
  /\ Reference.model_fields (remote second) = Reference.model_fields (remote first)
  /\ map (fun v => fst (snd v)) (Reference.views (remote second))
     = [("view_x_fsm_vibration_form", "x_fsm_vibration")].
Proof.
  vm_compute. repeat split; reflexivity.
Qed.

(** A view step that raises fails the run, though both fields were created. *)
Example view_fault_fails_run :
  let E := Reference.env Reference.files in
  let run := @OddTempVeb.design_template _ E "vibration.json"
               (Reference.fresh Reference.rejects_views) in
  run_success (value run) = false
  /\ length (filter is_field_create (calls (events run))) = 2
  /\ exists res,
       value run = Completed res
       /\ created (progress res) = 2
       /\ failed (progress res) = 0
       /\ view_id res = None.
Proof.
  cbv zeta. split; [vm_compute; reflexivity|]. split; [vm_compute; reflexivity|].
  eexists. split; [vm_compute; reflexivity|]. repeat split; reflexivity.
Qed.

(** The concrete scenario of the specification: one declared field
    [x_test_objective] of type [text], a template resolving to
    [x_fsm_vibration], neither the field nor the layout
    [view_x_fsm_vibration_form] present.  One field and one layout are
    created, and the run succeeds with [created = 1] and [failed = 0]. *)
Example specification_scenario :
  let document := {| template_name := "Vibration Test";
                     fields := [Reference.objective];
                     template_code := None |} in
  let E := Reference.env [("vibration_test.json", document)] in
  let run := @OddTempVeb.design_template _ E "vibration_test.json"
               (Reference.fresh Reference.reliable) in
  run_success (value run) = true
  /\ length (filter is_field_create (calls (events run))) = 1
  /\ Reference.model_fields (remote run)
     = [(100%Z, ("x_fsm_vibration", "x_test_objective"))]
  /\ map (fun v => fst (snd v)) (Reference.views (remote run))
     = [("view_x_fsm_vibration_form", "x_fsm_vibration")]
  /\ exists res,
       value run = Completed res
       /\ created (progress res) = 1
       /\ failed (progress res) = 0.
Proof.
  cbv zeta. split; [vm_compute; reflexivity|]. split; [vm_compute; reflexivity|].
  split; [vm_compute; reflexivity|]. split; [vm_compute; reflexivity|].
  eexists. split; [vm_compute; reflexivity|]. split; reflexivity.
Qed.

(** * Further properties of the scripts *)

(** ** The three [create_field] functions *)

Section CreateFieldShape.
Context {R : Type} `{Env R}.

Lemma veb_create_field_shape (model : string) (fc : FieldSpec) (r : R) :
  OddTempVeb.create_field model fc r
  = create_field_by field_payload register_default model fc r.
Proof. apply create_field_cases. Qed.

Lemma temp_create_field_shape (model : string) (fc : FieldSpec) (r : R) :
  OdooTemplateTemp.create_field model fc r
  = create_field_by temp_payload nothing_after model fc r.
Proof.
  unfold OdooTemplateTemp.create_field, create_field_by, temp_payload, nothing_after.
  unfold bind, _execute, ret, print, value, remote, events.
  cbv beta zeta.
  destruct (check_field_exists model (name fc) r) as [[[|] r1] ev]; cbn [fst snd].
  - reflexivity.
  - destruct (execute_kw (ModelSearch model) r1) as [[e|[|model_id more]] r2];
      try reflexivity.
    match goal with
    | |- context [execute_kw (FieldCreate ?fv) r2] =>
      destruct (execute_kw (FieldCreate fv) r2) as [[e|fid] r3]
    end; reflexivity.
Qed.

Lemma long_create_field_shape (model : string) (fc : FieldSpec) (r : R) :
  OdooLong1.create_field model fc r
  = create_field_by field_payload nothing_after model fc r.
Proof.
  unfold OdooLong1.create_field, create_field_by, field_payload, nothing_after.
  unfold bind, _execute, ret, print, value, remote, events.
  cbv beta zeta.
  destruct (check_field_exists model (name fc) r) as [[[|] r1] ev]; cbn [fst snd].
  - reflexivity.
  - destruct (execute_kw (ModelSearch model) r1) as [[e|[|model_id more]] r2];
      try reflexivity.
    match goal with
    | |- context [execute_kw (FieldCreate ?fv) r2] =>
      destruct (execute_kw (FieldCreate fv) r2) as [[e|fid] r3]
    end; reflexivity.
Qed.

Lemma create_field_of_shape (s : Script) (model : string) (fc : FieldSpec) (r : R) :
  create_field_of s model fc r
  = create_field_by (payload_of s) (after_of s) model fc r.
Proof.
  destruct s; cbn [create_field_of payload_of after_of].
  - apply veb_create_field_shape.
  - apply temp_create_field_shape.
  - apply long_create_field_shape.
Qed.

Lemma after_of_calls (s : Script) (model : string) (fc : FieldSpec) (r : R) :
  forall c, In c (calls (events (after_of s model fc r))) ->
            s = OddTempVebPy
            /\ exists v, c = DefaultSet model (name fc) v
                         /\ truthy_default fc = Some v.
Proof.
  destruct s; cbn [after_of]; try (intros c []).
  unfold register_default, truthy_default, OddTempVeb.set_field_default,
    bind, _execute, ret, print, events.
  destruct (default_value fc) as [v|]; [|intros c []].
  destruct (truthy v); [|intros c []].
  destruct (execute_kw (DefaultSet model (name fc) v) r) as [[e|u] r1];
    intros c [<-|[]]; eauto.
Qed.

Lemma create_field_runs (s : Script) (model : string) (fc : FieldSpec) (r : R) :
  field_run s model fc r
    (value (create_field_of s model fc r))
    (calls (events (create_field_of s model fc r))).
Proof.
  rewrite create_field_of_shape. unfold create_field_by. cbv zeta.
  pose proof (check_field_exists_events model (name fc) r) as Ev.
  destruct (check_field_exists model (name fc) r) as [[b r1] ev] eqn:C.
  rewrite events_run in Ev. subst ev.
  rewrite value_run, remote_run, events_run.
  destruct b.
  - rewrite value_run, events_run. now apply run_skipped with (r1 := r1)
      (ev := [Called (FieldSearch model (name fc))]).
  - destruct (execute_kw (ModelSearch model) r1) as [[e|[|model_id more]] r2] eqn:S.
    + rewrite value_run, events_run.
      apply run_no_model with (r1 := r1) (ev := [Called (FieldSearch model (name fc))])
        (r2 := r2) (a := inl e); eauto.
    + rewrite value_run, events_run.
      apply run_no_model with (r1 := r1) (ev := [Called (FieldSearch model (name fc))])
        (r2 := r2) (a := inr []); eauto.
    + destruct (execute_kw (FieldCreate (payload_of s model_id fc)) r2)
        as [[e|fid] r3] eqn:K; rewrite value_run, events_run.
      * now apply run_refused with (r1 := r1)
          (ev := [Called (FieldSearch model (name fc))]) (more := more) (r2 := r2)
          (e := e) (r3 := r3).
      * rewrite !calls_app.
        now apply run_created with (r1 := r1)
          (ev := [Called (FieldSearch model (name fc))]) (more := more) (r2 := r2)
          (field_id := fid) (r3 := r3).
Qed.

Lemma field_create_sent (s : Script) (model : string) (fc : FieldSpec) (r : R)
  (fv : FieldValues) :
  In (FieldCreate fv) (calls (events (create_field_of s model fc r))) ->
  exists r1 ev model_id more r2,
    check_field_exists model (name fc) r = (false, r1, ev)
    /\ execute_kw (ModelSearch model) r1 = (inr (model_id :: more), r2)
    /\ fv = payload_of s model_id fc.
Proof.
  intros I.
  destruct (create_field_runs s model fc r)
    as [r1 ev C | r1 ev r2 a C S A | r1 ev mid more r2 e r3 C S K
        | r1 ev mid more r2 fid r3 C S K].
  - destruct I as [D|[]]; discriminate D.
  - destruct I as [D|[D|[]]]; discriminate D.
  - destruct I as [D|[D|[D|[]]]]; try discriminate D.
    injection D as <-. now exists r1, ev, mid, more, r2.
  - destruct I as [D|[D|[D|I]]]; try discriminate D.
    + injection D as <-. now exists r1, ev, mid, more, r2.
    + apply after_of_calls in I. destruct I as (_ & v & D & _). discriminate D.
Qed.

(** X1. A creation call is only ever sent for a field that the existence
    check just reported absent, on the first model identifier that the model
    lookup just returned, and with the payload of the script. *)
Theorem creation_is_guarded :
  forall (s : Script) (model : string) (fc : FieldSpec) (r : R) (fv : FieldValues),
    In (FieldCreate fv) (calls (events (create_field_of s model fc r))) ->
    exists r1 ev model_id more r2,
      check_field_exists model (name fc) r = (false, r1, ev)
      /\ execute_kw (ModelSearch model) r1 = (inr (model_id :: more), r2)
      /\ fv = payload_of s model_id fc.
Proof.
  intros s model fc r fv. apply field_create_sent.
Qed.

(** X2. [create_field] reports success in exactly two cases: the existence
    check found the field, or the creation call returned.  Nothing that
    happens afterwards (the registration of a default in [odd_temp_veb.py])
    changes the outcome. *)
Theorem create_field_success :
  forall (s : Script) (model : string) (fc : FieldSpec) (r : R),
    value (create_field_of s model fc r) = true
    <-> (value (check_field_exists model (name fc) r) = true
         \/ exists model_id more r2 field_id r3,
              execute_kw (ModelSearch model)
                (remote (check_field_exists model (name fc) r))
              = (inr (model_id :: more), r2)
              /\ execute_kw (FieldCreate (payload_of s model_id fc)) r2
                 = (inr field_id, r3)).
Proof.
  intros s model fc r.
  rewrite create_field_of_shape. unfold create_field_by. cbv zeta.
  destruct (value (check_field_exists model (name fc) r)) eqn:V.
  - rewrite value_run. tauto.
  - destruct (execute_kw (ModelSearch model)
                (remote (check_field_exists model (name fc) r)))
      as [[e|[|mid more]] r2] eqn:S; rewrite ?value_run.
    + split; [discriminate|]. intros [D|(m & mo & r2' & f & r3 & D & _)]; discriminate.
    + split; [discriminate|]. intros [D|(m & mo & r2' & f & r3 & D & _)]; discriminate.
    + destruct (execute_kw (FieldCreate (payload_of s mid fc)) r2) as [[e|fid] r3] eqn:K;
        rewrite value_run.
      * split; [discriminate|].
        intros [D|(m & mo & r2' & f & r3' & D & K')]; [discriminate|].
        injection D as <- <- <-. rewrite K in K'. discriminate K'.
      * split; [|reflexivity]. intros _. right. now exists mid, more, r2, fid, r3.
Qed.

End CreateFieldShape.

Lemma creation_is_guarded_witness :
  let E := Reference.env Reference.files in
  let r := Reference.fresh Reference.reliable in
  In (FieldCreate (field_payload 31 Reference.objective))
     (calls (events (@create_field_of _ E OddTempVebPy "x_fsm_vibration"
                       Reference.objective r)))
  /\ exists r1 ev model_id more r2,
       @check_field_exists _ E "x_fsm_vibration" "x_test_objective" r = (false, r1, ev)
       /\ @execute_kw _ E (ModelSearch "x_fsm_vibration") r1 = (inr (model_id :: more), r2)
       /\ field_payload 31 Reference.objective
          = payload_of OddTempVebPy model_id Reference.objective.
Proof.
  cbv zeta.
  assert (I : In (FieldCreate (field_payload 31 Reference.objective))
                (calls (events (@create_field_of _ (Reference.env Reference.files)
                                  OddTempVebPy "x_fsm_vibration" Reference.objective
                                  (Reference.fresh Reference.reliable))))).
  { vm_compute. right. right. left. reflexivity. }
  split; [exact I|].
  exact (@creation_is_guarded _ (Reference.env Reference.files) OddTempVebPy
           "x_fsm_vibration" Reference.objective
           (Reference.fresh Reference.reliable)
           (field_payload 31 Reference.objective) I).
Defined.

(** ** What the creation call carries *)

Lemma ttype_in_vocabulary (tag : string) :
  In (dict_get field_type_map tag "char") recognised_types.
Proof.
  unfold field_type_map, dict_get.
  repeat match goal with
         | |- context [if ?k =? tag then _ else _] =>
           destruct (String.eqb_spec k tag) as [_|_]; [simpl; tauto|]
         end.
  simpl; tauto.
Qed.

Lemma ttype_selection (tag : string) :
  (dict_get field_type_map tag "char" =? "selection") = (tag =? "selection").
Proof.
  destruct (String.eqb_spec tag "selection") as [->|N]; [reflexivity|].
  unfold field_type_map, dict_get.
  repeat match goal with
         | |- context [if ?k =? tag then _ else _] =>
           destruct (String.eqb_spec k tag) as [E|_];
           [try reflexivity; now elim N|]
         end.
  reflexivity.
Qed.

Lemma payload_of_basics (s : Script) (model_id : Z) (fc : FieldSpec) :
  let fv := payload_of s model_id fc in
  fv_name fv = name fc
  /\ fv_field_description fv = label fc
  /\ fv_model_id fv = model_id
  /\ fv_state fv = "manual"
  /\ fv_ttype fv = dict_get field_type_map (field_type fc) "char"
  /\ fv_required fv = get_or_false (required fc)
  /\ fv_readonly fv = get_or_false (readonly fc).
Proof.
  destruct s; cbn [payload_of]; unfold field_payload, temp_payload; cbv zeta;
    destruct (selection fc);
    try destruct (dict_get field_type_map (field_type fc) "char" =? "selection");
    try destruct (default_value fc) as [v|]; try destruct (truthy v);
    repeat split.
Qed.

Lemma payload_of_selection (s : Script) (model_id : Z) (fc : FieldSpec) :
  fv_selection (payload_of s model_id fc) = selection_sent fc.
Proof.
  unfold selection_sent. rewrite <- ttype_selection.
  destruct s; cbn [payload_of]; unfold field_payload, temp_payload; cbv zeta;
    destruct (selection fc);
    try destruct (dict_get field_type_map (field_type fc) "char" =? "selection");
    try destruct (default_value fc) as [v|]; try destruct (truthy v);
    reflexivity.
Qed.

Lemma payload_of_default (s : Script) (model_id : Z) (fc : FieldSpec) :
  fv_default (payload_of s model_id fc) = default_sent s fc.
Proof.
  destruct s; cbn [payload_of default_sent]; unfold field_payload, temp_payload,
    truthy_default; cbv zeta;
    destruct (selection fc);
    try destruct (dict_get field_type_map (field_type fc) "char" =? "selection");
    try destruct (default_value fc) as [v|]; try destruct (truthy v);
    reflexivity.
Qed.

Section Payload.
Context {R : Type} `{Env R}.

(** X3. The type a creation call carries is always one of the eight
    recognised tags: the declared tag itself when it is recognised, ['char']
    otherwise.  The call names the declared field and label, and marks the
    field as manual. *)
Theorem created_type_is_recognised :
  forall (s : Script) (model : string) (fc : FieldSpec) (r : R) (fv : FieldValues),
    In (FieldCreate fv) (calls (events (create_field_of s model fc r))) ->
    In (fv_ttype fv) recognised_types
    /\ (In (field_type fc) recognised_types -> fv_ttype fv = field_type fc)
    /\ (~ In (field_type fc) recognised_types -> fv_ttype fv = "char")
    /\ fv_name fv = name fc
    /\ fv_field_description fv = label fc
    /\ fv_state fv = "manual".
Proof.
  intros s model fc r fv I.
  destruct (field_create_sent s model fc r fv I) as (r1 & ev & mid & more & r2 & _ & _ & ->).
  destruct (payload_of_basics s mid fc) as (Nm & Lb & _ & St & Ty & _).
  rewrite Ty, Nm, Lb, St.
  repeat split.
  - apply ttype_in_vocabulary.
  - apply dict_get_recognised.
  - apply dict_get_unrecognised.
Qed.

(** X4. Selection options travel with the creation call exactly when the
    declared type tag is ['selection']: options declared for a field of any
    other type are dropped, and a selection field without options is created
    without any. *)
Theorem selection_sent_with_selection_type :
  forall (s : Script) (model : string) (fc : FieldSpec) (r : R) (fv : FieldValues),
    In (FieldCreate fv) (calls (events (create_field_of s model fc r))) ->
    fv_selection fv = selection_sent fc
    /\ (field_type fc <> "selection" -> fv_selection fv = None)
    /\ (field_type fc = "selection" -> fv_selection fv = selection fc).
Proof.
  intros s model fc r fv I.
  destruct (field_create_sent s model fc r fv I) as (r1 & ev & mid & more & r2 & _ & _ & ->).
  rewrite payload_of_selection. unfold selection_sent.
  repeat split.
  - intros N. apply String.eqb_neq in N. now rewrite N.
  - intros ->. reflexivity.
Qed.

(** X5. A declared default reaches the creation call only in
    [odoo_template_temp.py], under ['default'], and only when it is truthy;
    [odd_temp_veb.py] and [odoolong1.py] never put a default in the call. *)
Theorem default_in_payload :
  forall (s : Script) (model : string) (fc : FieldSpec) (r : R) (fv : FieldValues),
    In (FieldCreate fv) (calls (events (create_field_of s model fc r))) ->
    fv_default fv = default_sent s fc
    /\ (s <> OdooTemplateTempPy -> fv_default fv = None)
    /\ (forall v, fv_default fv = Some v ->
                  default_value fc = Some v /\ truthy v = true).
Proof.
  intros s model fc r fv I.
  destruct (field_create_sent s model fc r fv I) as (r1 & ev & mid & more & r2 & _ & _ & ->).
  rewrite payload_of_default.
  repeat split.
  - intros N. destruct s; try reflexivity. now elim N.
  - destruct s; cbn [default_sent] in *; try discriminate.
    unfold truthy_default in *. destruct (default_value fc) as [w|]; [|discriminate].
    destruct (truthy w); [|discriminate]. congruence.
  - destruct s; cbn [default_sent] in *; try discriminate.
    unfold truthy_default in *. destruct (default_value fc) as [w|]; [|discriminate].
    destruct (truthy w) eqn:T; [|discriminate]. congruence.
Qed.

(** What follows a creation in [odd_temp_veb.py] when the declared default
    is truthy: one registration call, whatever it answers. *)
Lemma register_default_sent (model : string) (fc : FieldSpec) (r : R) (v : Json) :
  truthy_default fc = Some v ->
  calls (events (register_default model fc r)) = [DefaultSet model (name fc) v].
Proof.
  unfold truthy_default, register_default, OddTempVeb.set_field_default,
    bind, _execute, ret, print, events.
  destruct (default_value fc) as [u|]; [|discriminate].
  destruct (truthy u); [|discriminate]. intros D. injection D as ->.
  destruct (execute_kw (DefaultSet model (name fc) v) r) as [[e|u'] r1]; reflexivity.
Qed.

(** X6. A default is registered through ['ir.default'] only by
    [odd_temp_veb.py], only for the field at hand, only when the declared
    default is truthy, and only once the field has been created by this very
    call: the existence check reported the field absent, the model lookup
    and then the creation call returned, and the registration is the fourth
    and last call of the run, sent after the creation.  The run reports
    success whatever the registration does. *)
Theorem default_registered_after_creation :
  forall (s : Script) (model : string) (fc : FieldSpec) (r : R)
         (m n : string) (v : Json),
    In (DefaultSet m n v) (calls (events (create_field_of s model fc r))) ->
    s = OddTempVebPy
    /\ m = model /\ n = name fc
    /\ default_value fc = Some v /\ truthy v = true
    /\ value (create_field_of s model fc r) = true
    /\ exists r1 ev model_id more r2 field_id r3,
         check_field_exists model (name fc) r = (false, r1, ev)
         /\ execute_kw (ModelSearch model) r1 = (inr (model_id :: more), r2)
         /\ execute_kw (FieldCreate (payload_of s model_id fc)) r2 = (inr field_id, r3)
         /\ calls (events (create_field_of s model fc r))
            = [FieldSearch model (name fc);
               ModelSearch model;
               FieldCreate (payload_of s model_id fc);
               DefaultSet model (name fc) v].
Proof.
  intros s model fc r m n v I.
  destruct (create_field_runs s model fc r)
    as [r1 ev C | r1 ev r2 a C S A | r1 ev mid more r2 e r3 C S K
        | r1 ev mid more r2 fid r3 C S K].
  - destruct I as [D|[]]; discriminate D.
  - destruct I as [D|[D|[]]]; discriminate D.
  - destruct I as [D|[D|[D|[]]]]; discriminate D.
  - destruct I as [D|[D|[D|I]]]; try discriminate D.
    apply after_of_calls in I. destruct I as (-> & w & D & T).
    injection D as -> -> ->.
    cbn [after_of]. rewrite (register_default_sent _ _ _ _ T).
    unfold truthy_default in T. destruct (default_value fc) as [u|]; [|discriminate].
    destruct (truthy u) eqn:Tu; [|discriminate]. injection T as ->.
    repeat split; try reflexivity; try assumption.
    exists r1, ev, mid, more, r2, fid, r3. repeat split; assumption || reflexivity.
Qed.

End Payload.

Lemma created_type_is_recognised_witness :
  let E := Reference.env Reference.files in
  let run := @create_field_of _ E OddTempVebPy "x_fsm_vibration" Reference.serial
               (Reference.fresh Reference.reliable) in
  In (FieldCreate (field_payload 31 Reference.serial)) (calls (events run))
  /\ field_type Reference.serial = "barcode"
  /\ fv_ttype (field_payload 31 Reference.serial) = "char".
Proof.
  cbv zeta.
  assert (I : In (FieldCreate (field_payload 31 Reference.serial))
                (calls (events (@create_field_of _ (Reference.env Reference.files)
                                  OddTempVebPy "x_fsm_vibration" Reference.serial
                                  (Reference.fresh Reference.reliable))))).
  { vm_compute. right. right. left. reflexivity. }
  split; [exact I|]. split; [reflexivity|].
  apply (proj1 (proj2 (proj2
           (@created_type_is_recognised _ (Reference.env Reference.files) OddTempVebPy
              "x_fsm_vibration" Reference.serial (Reference.fresh Reference.reliable)
              (field_payload 31 Reference.serial) I)))).
  simpl. intros D.
  repeat (destruct D as [D|D]; [discriminate D|]). exact D.
Defined.

Lemma selection_sent_with_selection_type_witness :
  let E := Reference.env Reference.files in
  let run := @create_field_of _ E OdooLong1Py "x_fsm_vibration" Samples.comments
               (Reference.fresh Reference.reliable) in
  In (FieldCreate (field_payload 31 Samples.comments)) (calls (events run))
  /\ selection Samples.comments <> None
  /\ fv_selection (field_payload 31 Samples.comments) = None.
Proof.
  cbv zeta.
  assert (I : In (FieldCreate (field_payload 31 Samples.comments))
                (calls (events (@create_field_of _ (Reference.env Reference.files)
                                  OdooLong1Py "x_fsm_vibration" Samples.comments
                                  (Reference.fresh Reference.reliable))))).
  { vm_compute. right. right. left. reflexivity. }
  split; [exact I|]. split; [discriminate|].
  apply (proj1 (proj2
           (@selection_sent_with_selection_type _ (Reference.env Reference.files)
              OdooLong1Py "x_fsm_vibration" Samples.comments
              (Reference.fresh Reference.reliable)
              (field_payload 31 Samples.comments) I))).
  discriminate.
Defined.

Lemma default_in_payload_witness :
  let E := Reference.env Reference.files in
  let run := @create_field_of _ E OdooTemplateTempPy "x_fsm_vibration" Reference.serial
               (Reference.fresh Reference.reliable) in
  In (FieldCreate (temp_payload 31 Reference.serial)) (calls (events run))
  /\ fv_default (temp_payload 31 Reference.serial) = Some (JStr "n/a")
  /\ default_value Reference.serial = Some (JStr "n/a")
  /\ truthy (JStr "n/a") = true.
Proof.
  cbv zeta.
  assert (I : In (FieldCreate (temp_payload 31 Reference.serial))
                (calls (events (@create_field_of _ (Reference.env Reference.files)
                                  OdooTemplateTempPy "x_fsm_vibration" Reference.serial
                                  (Reference.fresh Reference.reliable))))).
  { vm_compute. right. right. left. reflexivity. }
  split; [exact I|]. split; [reflexivity|].
  exact (proj2 (proj2
           (@default_in_payload _ (Reference.env Reference.files)
              OdooTemplateTempPy "x_fsm_vibration" Reference.serial
              (Reference.fresh Reference.reliable)
              (temp_payload 31 Reference.serial) I))
           (JStr "n/a") eq_refl).
Defined.

Lemma default_registered_after_creation_witness :
  let E := Reference.env Reference.files in
  let run := @create_field_of _ E OddTempVebPy "x_fsm_vibration" Reference.serial
               (Reference.fresh Reference.reliable) in
  In (DefaultSet "x_fsm_vibration" "x_serial_number" (JStr "n/a")) (calls (events run))
  /\ value run = true
  /\ calls (events run)
     = [FieldSearch "x_fsm_vibration" "x_serial_number";
        ModelSearch "x_fsm_vibration";
        FieldCreate (field_payload 31 Reference.serial);
        DefaultSet "x_fsm_vibration" "x_serial_number" (JStr "n/a")].
Proof.
  cbv zeta.
  assert (I : In (DefaultSet "x_fsm_vibration" "x_serial_number" (JStr "n/a"))
                (calls (events (@create_field_of _ (Reference.env Reference.files)
                                  OddTempVebPy "x_fsm_vibration" Reference.serial
                                  (Reference.fresh Reference.reliable))))).
  { vm_compute. right. right. right. left. reflexivity. }
  split; [exact I|].
  split; [|vm_compute; reflexivity].
  exact (proj1 (proj2 (proj2 (proj2 (proj2 (proj2
           (@default_registered_after_creation _ (Reference.env Reference.files)
              OddTempVebPy "x_fsm_vibration" Reference.serial
              (Reference.fresh Reference.reliable)
              "x_fsm_vibration" "x_serial_number" (JStr "n/a") I))))))).
Defined.

(** ** The view step: overwrite or create *)

Section ViewBranches.
Context {R : Type} `{Env R}.

Lemma create_worksheet_view_of_with (s : Script) :
  create_worksheet_view_of s = create_worksheet_view_with (generate_of s).
Proof. destruct s; reflexivity. Qed.

(** The layout generator raises in one case only: in [odoo_template_temp.py],
    on a [template_code] that is present and not a string. *)
Lemma generate_of_raises (s : Script) (template : Template) (e : Fault) :
  generate_of s template = inl e
  <-> s = OdooTemplateTempPy /\ lower_of (code_of template) = inl e.
Proof.
  destruct s; cbn [generate_of]; unfold returns.
  - split; [discriminate | intros [D _]; discriminate D].
  - unfold OdooTemplateTemp.generate_worksheet_xml. cbv zeta. fold (code_of template).
    destruct (lower_of (code_of template)) as [e'|lowered].
    + split; [intros D; injection D as ->; now split | intros [_ D]; exact D].
    + destruct (contains "temperatura" lowered);
        (split; [discriminate | intros [_ D]; discriminate D]).
  - split; [discriminate | intros [D _]; discriminate D].
Qed.

(** X7. When a layout with the computed name exists for the model, the view
    step overwrites the first one found with the generated layout and sends
    nothing else: no other hit is written and no layout is created, not even
    when the write raises.  It returns the identifier written to exactly when
    the write answers.  (The search is only sent once the layout is
    generated: if the generator raises, the step sends nothing and returns no
    view.) *)
Theorem existing_layout_is_overwritten :
  forall (s : Script) (worksheet_model : string) (template : Template) (r r1 : R)
         (view_id : Z) (others : list Z),
    execute_kw (ViewSearch (view_name_of worksheet_model) worksheet_model) r
    = (inr (view_id :: others), r1) ->
    let run := create_worksheet_view_of s worksheet_model template r in
    (forall view_xml : string,
        generate_of s template = inr view_xml ->
        calls (events run)
        = [ViewSearch (view_name_of worksheet_model) worksheet_model;
           ViewWrite view_id view_xml]
        /\ (value run = Some view_id \/ value run = None)
        /\ (value run = Some view_id
            <-> exists u r2,
                 execute_kw (ViewWrite view_id view_xml) r1 = (inr u, r2)))
    /\ (forall e : Fault,
           generate_of s template = inl e ->
           calls (events run) = [] /\ value run = None).
Proof.
  intros s worksheet_model template r r1 view_id others S run. subst run.
  rewrite create_worksheet_view_of_with. split.
  - intros view_xml G.
    unfold create_worksheet_view_with, bind, _execute, ret, print, value, events.
    cbv zeta. rewrite G, S.
    destruct (execute_kw (ViewWrite view_id view_xml) r1) as [[e|u] r2];
      cbn [fst snd app calls].
    + split; [reflexivity|]. split; [now right|].
      split; [discriminate | intros (u & r3 & D); discriminate].
    + split; [reflexivity|]. split; [now left|].
      split; [intros _; eauto | reflexivity].
  - intros e G. rewrite (create_worksheet_view_raises _ _ _ _ _ G).
    split; reflexivity.
Qed.

(** X8. When no layout with the computed name exists for the model, the view
    step creates one and writes to none: the new record carries the computed
    name, the model, type ['form'], priority 1 and the generated layout.  It
    returns the new identifier exactly when the creation answers.  (The
    search is only sent once the layout is generated: if the generator
    raises, the step sends nothing and returns no view.) *)
Theorem missing_layout_is_created :
  forall (s : Script) (worksheet_model : string) (template : Template) (r r1 : R),
    execute_kw (ViewSearch (view_name_of worksheet_model) worksheet_model) r
    = (inr [], r1) ->
    let run := create_worksheet_view_of s worksheet_model template r in
    (forall view_xml : string,
        generate_of s template = inr view_xml ->
        let record := new_view worksheet_model view_xml in
        calls (events run)
        = [ViewSearch (view_name_of worksheet_model) worksheet_model; ViewCreate record]
        /\ forall view_id,
             value run = Some view_id
             <-> exists r2, execute_kw (ViewCreate record) r1 = (inr view_id, r2))
    /\ (forall e : Fault,
           generate_of s template = inl e ->
           calls (events run) = [] /\ value run = None).
Proof.
  intros s worksheet_model template r r1 S run. subst run.
  rewrite create_worksheet_view_of_with. split.
  - intros view_xml G record. subst record.
    unfold create_worksheet_view_with, new_view, bind, _execute, ret, print, value,
      events.
    cbv zeta. rewrite G, S.
    match goal with
    | |- context [execute_kw (ViewCreate ?vv) r1] =>
      destruct (execute_kw (ViewCreate vv) r1) as [[e|id] r2]
    end; cbn [fst snd app calls].
    + split; [reflexivity|]. intros v.
      split; [discriminate | intros (r3 & D); discriminate].
    + split; [reflexivity|]. intros v. split.
      * intros D. injection D as <-. eauto.
      * intros (r3 & D). injection D as <- _. reflexivity.
  - intros e G. rewrite (create_worksheet_view_raises _ _ _ _ _ G).
    split; reflexivity.
Qed.

End ViewBranches.

Lemma existing_layout_is_overwritten_witness :
  let E := Reference.env Reference.files in
  let run := @create_worksheet_view_of _ E OddTempVebPy "x_fsm_vibration"
               Reference.vibration Samples.with_layout in
  @execute_kw _ E (ViewSearch (view_name_of "x_fsm_vibration") "x_fsm_vibration")
    Samples.with_layout
  = (inr [55; 56]%Z, Samples.with_layout)
  /\ generate_of OddTempVebPy Reference.vibration
     = inr (OddTempVeb.generate_worksheet_xml_vibracion Reference.vibration)
  /\ calls (events run)
     = [ViewSearch (view_name_of "x_fsm_vibration") "x_fsm_vibration";
        ViewWrite 55 (OddTempVeb.generate_worksheet_xml_vibracion Reference.vibration)].
Proof.
  cbv zeta. split; [reflexivity|]. split; [reflexivity|].
  exact (proj1 (proj1 (@existing_layout_is_overwritten _ (Reference.env Reference.files)
                         OddTempVebPy "x_fsm_vibration" Reference.vibration
                         Samples.with_layout Samples.with_layout 55%Z [56%Z] eq_refl)
                  (OddTempVeb.generate_worksheet_xml_vibracion Reference.vibration)
                  eq_refl)).
Defined.

Lemma missing_layout_is_created_witness :
  let E := Reference.env Reference.files in
  let r := Reference.fresh Reference.reliable in
  let run := @create_worksheet_view_of _ E OdooLong1Py "x_fsm_vibration"
               Reference.vibration r in
  @execute_kw _ E (ViewSearch (view_name_of "x_fsm_vibration") "x_fsm_vibration") r
  = (inr [], r)
  /\ generate_of OdooLong1Py Reference.vibration
     = inr (OdooLong1.generate_worksheet_xml Reference.vibration)
  /\ calls (events run)
     = [ViewSearch (view_name_of "x_fsm_vibration") "x_fsm_vibration";
        ViewCreate (new_view "x_fsm_vibration"
                      (OdooLong1.generate_worksheet_xml Reference.vibration))].
Proof.
  cbv zeta. split; [reflexivity|]. split; [reflexivity|].
  exact (proj1 (proj1 (@missing_layout_is_created _ (Reference.env Reference.files)
                         OdooLong1Py "x_fsm_vibration" Reference.vibration
                         (Reference.fresh Reference.reliable)
                         (Reference.fresh Reference.reliable) eq_refl)
                  (OdooLong1.generate_worksheet_xml Reference.vibration) eq_refl)).
Defined.

(** ** Template resolution, completely *)

Section ResolutionComplete.
Context {R : Type} `{Env R}.

Lemma resolves_found (template_name : string) (r : R) (template_id : Z)
  (worksheet_model : string) (r3 : R) :
  resolves template_name r template_id worksheet_model r3 ->
  exists model_id,
    find_worksheet_template_by_name template_name r
    = (Some (template_id, worksheet_model), r3,
       [Called (TemplateSearch template_name);
        Called (TemplateRead template_id);
        Called (ModelRead model_id);
        Printed (MsgTemplateFound template_name template_id worksheet_model)]).
Proof.
  intros [tids r1 td tds r2 mid mname md mds S1 S2 Tm S3 Md].
  exists mid.
  unfold find_worksheet_template_by_name, bind, _execute, ret, print.
  rewrite S1, S2, Tm, S3, Md. reflexivity.
Qed.

Lemma found_resolves (template_name : string) (r : R) (template_id : Z)
  (worksheet_model : string) :
  value (find_worksheet_template_by_name template_name r)
  = Some (template_id, worksheet_model) ->
  resolves template_name r template_id worksheet_model
    (remote (find_worksheet_template_by_name template_name r)).
Proof.
  unfold find_worksheet_template_by_name, bind, _execute, ret, print, value, remote.
  destruct (execute_kw (TemplateSearch template_name) r) as [[e|[|tid tids]] r1] eqn:S1;
    cbn [fst snd]; try discriminate.
  destruct (execute_kw (TemplateRead tid) r1) as [[e|[|td tds]] r2] eqn:S2;
    cbn [fst snd]; try discriminate.
  destruct (td_model_id td) as [[mid mname]|] eqn:Tm; cbn [fst snd]; try discriminate.
  destruct (execute_kw (ModelRead mid) r2) as [[e|[|md mds]] r3] eqn:S3;
    cbn [fst snd]; try discriminate.
  intros D. injection D as <- <-.
  now apply resolved with (tids := tids) (r1 := r1) (td := td) (tds := tds) (r2 := r2)
    (model_id := mid) (mname := mname) (md := md) (mds := mds).
Qed.

(** X9. Template resolution returns a pair exactly when the search, the read
    of the first hit and the read of its model all answer with something: the
    identifier returned is the first search hit (later hits are never read),
    the model name is that of the first model record, and any raise along the
    way gives not-found.  A successful resolution sends its three reads and
    nothing else. *)
Theorem resolution_takes_first_match :
  forall (template_name : string) (r : R) (template_id : Z) (worksheet_model : string)
         (r3 : R),
    let run := find_worksheet_template_by_name template_name r in
    ((value run = Some (template_id, worksheet_model) /\ remote run = r3)
     <-> resolves template_name r template_id worksheet_model r3)
    /\ (value run = Some (template_id, worksheet_model) ->
        exists model_id,
          calls (events run) = resolution_calls template_name template_id model_id).
Proof.
  intros template_name r template_id worksheet_model r3 run. subst run.
  split; [split|].
  - intros [V <-]. now apply found_resolves.
  - intros Rs. destruct (resolves_found _ _ _ _ _ Rs) as (mid & ->). now split.
  - intros V. apply found_resolves in V.
    destruct (resolves_found _ _ _ _ _ V) as (mid & ->). now exists mid.
Qed.

End ResolutionComplete.

(** ** Runs of the three scripts *)

Section Runs.
Context {R : Type} `{Env R}.

Lemma design_template_of_with (s : Script) :
  design_template_of s = design_template_with (generate_of s) (create_field_of s).
Proof. destruct s; reflexivity. Qed.

Lemma create_field_of_field_calls (s : Script) (model : string) (fc : FieldSpec) (r : R) :
  all_of is_field_call (calls (events (create_field_of s model fc r))).
Proof.
  intros c I.
  destruct (create_field_runs s model fc r)
    as [r1 ev C | r1 ev r2 a C S A | r1 ev mid more r2 e r3 C S K
        | r1 ev mid more r2 fid r3 C S K].
  - destruct I as [<-|[]]; reflexivity.
  - destruct I as [<-|[<-|[]]]; reflexivity.
  - destruct I as [<-|[<-|[<-|[]]]]; reflexivity.
  - destruct I as [<-|[<-|[<-|I]]]; try reflexivity.
    apply after_of_calls in I. destruct I as (_ & v & -> & _). reflexivity.
Qed.

Lemma create_field_of_searches_once (s : Script) (model : string) (fc : FieldSpec) (r : R) :
  filter is_field_search (calls (events (create_field_of s model fc r)))
  = [FieldSearch model (name fc)].
Proof.
  destruct (create_field_runs s model fc r)
    as [r1 ev C | r1 ev r2 a C S A | r1 ev mid more r2 e r3 C S K
        | r1 ev mid more r2 fid r3 C S K]; try reflexivity.
  cbn [app filter is_field_search]. f_equal.
  apply filter_nothing. intros c I.
  apply after_of_calls in I. destruct I as (_ & v & -> & _). reflexivity.
Qed.

Lemma add_fields_field_calls (create_field : string -> FieldSpec -> M R bool)
  (worksheet_model : string) (total : nat) :
  (forall fc r, all_of is_field_call (calls (events (create_field worksheet_model fc r)))) ->
  forall (fs : list FieldSpec) (idx : nat) (results : Progress) (r : R),
    all_of is_field_call
      (calls (events (add_fields create_field worksheet_model total idx fs results r))).
Proof.
  intros A fs. induction fs as [|fc rest IH]; intros idx results r.
  - intros c [].
  - rewrite add_fields_cons. cbv zeta. rewrite events_run. cbn [calls].
    rewrite calls_app. intros c I. apply in_app_or in I. destruct I as [I|I].
    + now apply (A fc r).
    + eapply IH; exact I.
Qed.

(** X10. A resolution that returns identifier 0, or an empty model name, is
    treated as not-found: the run stops with plain failure and sends no field
    call and no layout call. *)
Theorem falsy_resolution_is_not_found :
  forall (s : Script) (json_path : string) (template : Template) (r r1 : R)
         (template_id : Z) (worksheet_model : string) (ev1 : list Event),
    json_load json_path = inr template ->
    find_worksheet_template_by_name (template_name template) r
    = (Some (template_id, worksheet_model), r1, ev1) ->
    template_id = 0%Z \/ worksheet_model = EmptyString ->
    stopped_at_resolution (design_template_of s json_path r).
Proof.
  intros s json_path template r r1 template_id worksheet_model ev1 E F Z.
  rewrite design_template_of_with, (design_template_loaded _ _ _ _ _ E). cbv zeta.
  pose proof (find_calls (template_name template) r) as Fc.
  rewrite F in *. rewrite value_run, remote_run, events_run in *.
  assert (T : (template_id =? 0)%Z || (worksheet_model =? EmptyString) = true).
  { destruct Z as [->| ->]; [reflexivity|]. apply orb_true_r. }
  rewrite T. unfold stopped_at_resolution. rewrite value_run, events_run.
  split; [reflexivity|]. split; [reflexivity|].
  intros c I. cbn [app calls] in I. rewrite calls_app in I.
  apply in_app_or in I. destruct I as [I|[]]. now apply Fc.
Qed.

(** X11. In every run that resolves its template, the three steps follow one
    another: after the calls of the resolution come the calls of the field
    step, one existence check per declared field in the order of the list,
    and only then the calls of the view step.  The view step runs whatever
    the fields' outcomes were, also for an empty fields list: whenever the
    layout generator returns, its calls start with the search for the
    layout.  The generator raises in [odoo_template_temp.py] only, on a
    [template_code] that is present and not a string; the view step then
    sends no call at all and the run reports failure. *)
Theorem steps_run_in_order :
  forall (s : Script) (json_path : string) (template : Template) (r r1 : R)
         (template_id : Z) (worksheet_model : string) (ev1 : list Event),
    json_load json_path = inr template ->
    find_worksheet_template_by_name (template_name template) r
    = (Some (template_id, worksheet_model), r1, ev1) ->
    template_id <> 0%Z ->
    worksheet_model <> EmptyString ->
    exists field_step view_step,
      calls (events (design_template_of s json_path r))
      = (calls ev1 ++ field_step ++ view_step)%list
      /\ all_of is_field_call field_step
      /\ filter is_field_search field_step
         = map (fun fc => FieldSearch worksheet_model (name fc)) (fields template)
      /\ all_of is_view_call view_step
      /\ (forall view_xml : string,
             generate_of s template = inr view_xml ->
             exists rest,
               view_step
               = ViewSearch (view_name_of worksheet_model) worksheet_model :: rest)
      /\ (forall e : Fault,
             generate_of s template = inl e ->
             s = OdooTemplateTempPy
             /\ lower_of (code_of template) = inl e
             /\ view_step = []
             /\ run_success (value (design_template_of s json_path r)) = false).
Proof.
  intros s json_path template r r1 template_id worksheet_model ev1 E F Ni Nm.
  rewrite design_template_of_with.
  rewrite (design_template_resolved _ _ _ _ _ _ _ _ _ E F Ni Nm). cbv zeta.
  rewrite events_run.
  match goal with
  | |- context [events (add_fields ?cf ?wm ?n ?i ?fs ?p r1)] =>
    set (lp := add_fields cf wm n i fs p r1)
  end.
  set (vw := create_worksheet_view_with (generate_of s) worksheet_model template (remote lp)).
  exists (calls (events lp)), (calls (events vw)).
  split; [|split; [|split; [|split; [|split]]]].
  - cbn [calls]. rewrite calls_app. cbn [calls]. rewrite calls_app. cbn [calls].
    rewrite calls_app. cbn [calls]. now rewrite app_nil_r.
  - apply add_fields_field_calls. intros fc r0. apply create_field_of_field_calls.
  - unfold lp.
    rewrite (add_fields_calls (create_field_of s) worksheet_model _
               is_field_search (fun fc => [FieldSearch worksheet_model (name fc)])).
    + clear. induction (fields template) as [|fc fs IH]; cbn; [reflexivity | now rewrite IH].
    + intros fc r0. apply create_field_of_searches_once.
  - intros c I. now apply view_calls in I.
  - intros view_xml G.
    pose proof (create_worksheet_view_first_call (generate_of s) worksheet_model
                  template (remote lp)) as Fc.
    rewrite G in Fc. exact Fc.
  - intros e G. pose proof G as G'. apply generate_of_raises in G'.
    destruct G' as [Es El]. split; [exact Es|]. split; [exact El|].
    unfold vw. rewrite (create_worksheet_view_raises _ _ _ _ _ G).
    split; reflexivity.
Qed.

(** X12. In every run of [odoo_template_temp.py] or [odoolong1.py] (as of
    [odd_temp_veb.py]) that resolves its template, the result names the
    template, its identifier and its model as resolved, counts all declared
    fields, and tallies them by the outcome of [create_field]: every field is
    counted once, as created or as failed, and [failed_fields] lists the names
    of the failed ones in order. *)
Theorem run_tallies :
  forall (s : Script) (json_path : string) (template : Template) (r r1 : R)
         (template_id : Z) (worksheet_model : string) (ev1 : list Event),
    json_load json_path = inr template ->
    find_worksheet_template_by_name (template_name template) r
    = (Some (template_id, worksheet_model), r1, ev1) ->
    template_id <> 0%Z ->
    worksheet_model <> EmptyString ->
    let outs := outcomes (create_field_of s) worksheet_model (fields template) r1 in
    exists res,
      value (design_template_of s json_path r) = Completed res
      /\ p_template_name (progress res) = template_name template
      /\ p_template_id (progress res) = template_id
      /\ p_worksheet_model (progress res) = worksheet_model
      /\ total_fields (progress res) = length (fields template)
      /\ created (progress res) = count_ok outs
      /\ failed (progress res) = count_failed outs
      /\ failed_fields (progress res) = failed_names outs
      /\ created (progress res) + failed (progress res) = total_fields (progress res).
Proof.
  intros s json_path template r r1 template_id worksheet_model ev1 E F Ni Nm outs.
  rewrite design_template_of_with.
  rewrite (design_template_resolved _ _ _ _ _ _ _ _ _ E F Ni Nm). cbv zeta.
  rewrite value_run.
  eexists; split; [reflexivity|]. cbn [progress].
  match goal with
  | |- context [add_fields ?cf ?wm ?n ?i ?fs ?p r1] =>
    destruct (add_fields_tally cf wm n fs i p r1)
      as (Hc & Hf & Hff & Ht & Hn & Hi & Hm & _)
  end.
  cbn [created failed failed_fields total_fields p_template_name p_template_id
         p_worksheet_model] in Hc, Hf, Hff, Ht, Hn, Hi, Hm.
  fold outs in Hc, Hf, Hff.
  assert (L : length outs = length (fields template)).
  { rewrite <- (length_map fst outs). unfold outs. now rewrite outcomes_fields. }
  pose proof (count_ok_failed outs) as S.
  rewrite Hc, Hf, Hff, Ht, Hn, Hi, Hm. cbn [app].
  repeat split; lia.
Qed.

End Runs.

Lemma falsy_resolution_is_not_found_witness :
  let E := Reference.env Reference.files in
  let run := @design_template_of _ E OdooLong1Py "vibration.json" Samples.zero_id in
  value (@find_worksheet_template_by_name _ E "Vibration Test" Samples.zero_id)
  = Some (0%Z, "x_fsm_vibration")
  /\ stopped_at_resolution run.
Proof.
  cbv zeta. split; [reflexivity|].
  exact (@falsy_resolution_is_not_found _ (Reference.env Reference.files) OdooLong1Py
           "vibration.json" Reference.vibration Samples.zero_id Samples.zero_id
           0%Z "x_fsm_vibration"
           [Called (TemplateSearch "Vibration Test");
            Called (TemplateRead 0);
            Called (ModelRead 31);
            Printed (MsgTemplateFound "Vibration Test" 0 "x_fsm_vibration")]
           eq_refl eq_refl (or_introl eq_refl)).
Defined.

Lemma steps_run_in_order_witness :
  let E := Reference.env Reference.files in
  let r := Reference.fresh Reference.rejects_fields in
  let run := @design_template_of _ E OdooTemplateTempPy "vibration.json" r in
  run_success (value run) = true
  /\ exists field_step view_step,
       calls (events run)
       = ([TemplateSearch "Vibration Test"; TemplateRead 7; ModelRead 31]
            ++ field_step ++ view_step)%list
       /\ all_of is_field_call field_step
       /\ all_of is_view_call view_step
       /\ exists rest,
            view_step
            = ViewSearch (view_name_of "x_fsm_vibration") "x_fsm_vibration" :: rest.
Proof.
  cbv zeta. split; [reflexivity|].
  destruct (@steps_run_in_order _ (Reference.env Reference.files) OdooTemplateTempPy
              "vibration.json" Reference.vibration
              (Reference.fresh Reference.rejects_fields)
              (Reference.fresh Reference.rejects_fields)
              7%Z "x_fsm_vibration"
              [Called (TemplateSearch "Vibration Test");
               Called (TemplateRead 7);
               Called (ModelRead 31);
               Printed (MsgTemplateFound "Vibration Test" 7 "x_fsm_vibration")]
              eq_refl eq_refl ltac:(discriminate) ltac:(discriminate))
    as (fs & vs & Ec & Af & _ & Av & Vs & _).
  exists fs, vs. split; [exact Ec|]. split; [exact Af|]. split; [exact Av|].
  exact (Vs (OdooTemplateTemp.generate_worksheet_xml_hermiticity Reference.vibration)
            eq_refl).
Defined.

Lemma run_tallies_witness :
  let E := Reference.env Reference.files in
  let r := Reference.fresh Reference.rejects_objective in
  let run := @design_template_of _ E OdooTemplateTempPy "vibration.json" r in
  exists res,
    value run = Completed res
    /\ p_worksheet_model (progress res) = "x_fsm_vibration"
    /\ created (progress res) = 1
    /\ failed (progress res) = 1
    /\ failed_fields (progress res) = ["x_test_objective"].
Proof.
  cbv zeta.
  destruct (@run_tallies _ (Reference.env Reference.files) OdooTemplateTempPy
              "vibration.json" Reference.vibration
              (Reference.fresh Reference.rejects_objective)
              (Reference.fresh Reference.rejects_objective)
              7%Z "x_fsm_vibration"
              [Called (TemplateSearch "Vibration Test");
               Called (TemplateRead 7);
               Called (ModelRead 31);
               Printed (MsgTemplateFound "Vibration Test" 7 "x_fsm_vibration")]
              eq_refl eq_refl ltac:(discriminate) ltac:(discriminate))
    as (res & V & _ & _ & Hm & _ & Hc & Hf & Hff & _).
  exists res. split; [exact V|]. split; [exact Hm|].
  rewrite Hc, Hf, Hff. vm_compute. repeat split; reflexivity.
Defined.

Section VibrationLayout.
Context {R : Type} `{Env R}.

(** X13. In [odd_temp_veb.py] the four default values that
    [generate_worksheet_xml_vibracion] collects from the fields list never
    reach the layout: two template configurations with the same
    [template_name] get the same layout, and the view step sends the same
    requests, prints the same lines and returns the same result for both,
    whatever their fields and their [template_code]. *)
Theorem view_step_ignores_fields :
  forall (worksheet_model : string) (c1 c2 : Template) (r : R),
    template_name c1 = template_name c2 ->
    OddTempVeb.generate_worksheet_xml_vibracion c1
    = OddTempVeb.generate_worksheet_xml_vibracion c2
    /\ create_worksheet_view_of OddTempVebPy worksheet_model c1 r
       = create_worksheet_view_of OddTempVebPy worksheet_model c2 r.
Proof.
  intros worksheet_model c1 c2 r E.
  pose proof (vibracion_layout_ignores_fields c1 c2 E) as L.
  split; [exact L|].
  rewrite create_worksheet_view_of_with.
  unfold create_worksheet_view_with, generate_of, returns. cbv zeta. now rewrite L.
Qed.

End VibrationLayout.

Lemma view_step_ignores_fields_witness :
  let E := Reference.env Reference.files in
  let c1 := Reference.vibration in
  let c2 := {| template_name := "Vibration Test";
               fields := [];
               template_code := Some (JStr "temperatura") |} in
  let r := Reference.fresh Reference.reliable in
  fields c1 <> fields c2
  /\ OddTempVeb.generate_worksheet_xml_vibracion c1
     = OddTempVeb.generate_worksheet_xml_vibracion c2
  /\ @create_worksheet_view_of _ E OddTempVebPy "x_fsm_vibration" c1 r
     = @create_worksheet_view_of _ E OddTempVebPy "x_fsm_vibration" c2 r.
Proof.
  cbv zeta. split; [discriminate|].
  exact (@view_step_ignores_fields _ (Reference.env Reference.files)
           "x_fsm_vibration" Reference.vibration
           {| template_name := "Vibration Test";
              fields := [];
              template_code := Some (JStr "temperatura") |}
           (Reference.fresh Reference.reliable) eq_refl).
Defined.

(** ** The programs: [main] *)

Lemma ran_app (a b : list HostEvent) : ran (a ++ b) = (ran a ++ ran b)%list.
Proof.
  induction a as [|x a IH]; [reflexivity|].
  destruct x; simpl; try exact IH. now rewrite IH.
Qed.

Lemma ran_map (es : list Event) : ran (map Ran es) = es.
Proof.
  induction es as [|e es IH]; simpl; [reflexivity | now rewrite IH].
Qed.

Lemma logins_app (a b : list HostEvent) : logins (a ++ b) = (logins a ++ logins b)%list.
Proof.
  induction a as [|x a IH]; [reflexivity|].
  destruct x; simpl; try exact IH. now rewrite IH.
Qed.

Lemma logins_map (es : list Event) : logins (map Ran es) = [].
Proof.
  induction es as [|e es IH]; simpl; [reflexivity | exact IH].
Qed.

Section MainFacts.
Context {R : Type} `{Env R} `{Host R}.

Lemma template_file_of_never_exits (s : Script) (config : Config) (code : Z) :
  template_file_of s config <> Exited code.
Proof.
  destruct s; unfold template_file_of, config_key;
    destruct (template_file config); discriminate.
Qed.

(** [main], spelled out: either everything is prepared and the designer
    runs, or the program ends with status 1 before any call of the designer. *)
Lemma main_cases (s : Script) (r : R) :
  (exists template_file r1 head verdict,
      prepared s r template_file r1
      /\ let run := design_template_of s template_file r1 in
         main s r
         = (if run_success (value run) then Normal tt else Exited 1,
            remote run,
            (head ++ map Ran (events run) ++ [Said verdict])%list)
         /\ ran head = []
         /\ length (logins head) = 1)
  \/ (exit_status (hvalue (main s r)) = 1%Z
      /\ ran (hevents (main s r)) = []
      /\ forall template_file r1, ~ prepared s r template_file r1).
Proof.
  unfold main, new_designer, _authenticate, login, designer, hbind, hret, say,
    hvalue, hevents, config_key.
  destruct (path_exists "config.json") eqn:Pc; cbn [negb].
  2:{ right. split; [reflexivity|]. split; [reflexivity|].
      intros tf r1 []; congruence. }
  destruct load_config as [e|config] eqn:Lc.
  { right. split; [reflexivity|]. split; [reflexivity|].
    intros tf r1 []; congruence. }
  destruct (odoo_url config) as [url|] eqn:Ku.
  2:{ right. split; [reflexivity|]. split; [reflexivity|].
      intros tf r1 []; congruence. }
  destruct (odoo_db config) as [db|] eqn:Kd.
  2:{ right. split; [reflexivity|]. split; [reflexivity|].
      intros tf r1 []; congruence. }
  destruct (odoo_username config) as [username|] eqn:Kn.
  2:{ right. split; [reflexivity|]. split; [reflexivity|].
      intros tf r1 []; congruence. }
  destruct (odoo_password config) as [password|] eqn:Kp.
  2:{ right. split; [reflexivity|]. split; [reflexivity|].
      intros tf r1 []; congruence. }
  destruct (template_file_of s config) as [tf|e|code] eqn:Kt.
  2:{ right. split; [reflexivity|]. split; [reflexivity|].
      intros tf r1 []; congruence. }
  2:{ now elim (template_file_of_never_exits s config code). }
  destruct (path_exists tf) eqn:Pt; cbn [negb].
  2:{ right. split; [reflexivity|]. split; [reflexivity|].
      intros tf' r1 []; congruence. }
  destruct (proxy_fault (common_endpoint (rstrip_slash url))) as [e|] eqn:Xc.
  { right. split; [reflexivity|]. split; [reflexivity|].
    intros tf' r1 []; congruence. }
  destruct (authenticate (common_endpoint (rstrip_slash url)) db username password r)
    as [[e|uid] r1] eqn:Au.
  { right. split; [reflexivity|]. split; [reflexivity|].
    intros tf' r1' []; congruence. }
  destruct (truthy uid) eqn:Tu.
  2:{ right. split; [reflexivity|]. split; [reflexivity|].
      intros tf' r1' []; congruence. }
  destruct (proxy_fault (object_endpoint (rstrip_slash url))) as [e|] eqn:Xo.
  { right. split; [reflexivity|]. split; [reflexivity|].
    intros tf' r1' []; congruence. }
  left.
  assert (P : prepared s r tf r1).
  { now apply is_prepared with (config := config) (url := url) (db := db)
      (username := username) (password := password) (uid := uid). }
  cbn [fst snd app].
  destruct (design_template_of s tf r1) as [[results r2] ev] eqn:Dt.
  unfold value, remote, events. cbn [fst snd].
  exists tf, r1,
    [Said SayBanner; Said (SayConfigLoaded (rstrip_slash url) db tf);
     Said (SayConnecting (rstrip_slash url));
     Login (common_endpoint (rstrip_slash url)) db username password;
     Said (SayAuthenticated uid)],
    (if run_success results then SayDesigned else SayDesignErrors).
  split; [exact P|]. rewrite Dt. cbn [fst snd].
  split; [|split; reflexivity].
  destruct (run_success results); reflexivity.
Qed.

End MainFacts.

(** *** [rstrip('/')] *)

Lemma rstrip_slash_no_trailing (s p : string) : rstrip_slash s <> p ++ "/".
Proof.
  revert p. induction s as [|c s IH]; intros p; cbn [rstrip_slash].
  - destruct p; discriminate.
  - destruct (rstrip_slash s) as [|d t] eqn:E.
    + destruct (Ascii.eqb_spec c "/"%char) as [->|N].
      * destruct p; discriminate.
      * destruct p as [|x [|y p]]; cbn; try discriminate.
        intros D. injection D as D. now elim N.
    + destruct p as [|x p]; cbn.
      * discriminate.
      * intros D. injection D as _ D. now apply (IH p).
Qed.

Lemma rstrip_slash_tail (s : string) :
  exists tail, s = rstrip_slash s ++ tail /\ slashes tail.
Proof.
  unfold slashes. induction s as [|c s (tail & E & S)]; cbn [rstrip_slash].
  - exists EmptyString. split; reflexivity.
  - destruct (rstrip_slash s) as [|d t] eqn:Rs.
    + destruct (Ascii.eqb_spec c "/"%char) as [->|N].
      * exists (String "/"%char tail). cbn in E |- *. subst s.
        split; [reflexivity|]. cbn. now rewrite S.
      * exists tail. cbn in E |- *. subst s. split; [reflexivity | exact S].
    + exists tail. cbn in E |- *. rewrite E at 1. split; [reflexivity | exact S].
Qed.

Lemma rstrip_slash_fixed (s : string) :
  (forall p, s <> p ++ "/") -> rstrip_slash s = s.
Proof.
  induction s as [|c s IH]; intros N; cbn [rstrip_slash]; [reflexivity|].
  destruct s as [|d s].
  - cbn. destruct (Ascii.eqb_spec c "/"%char) as [->|_]; [|reflexivity].
    now elim (N EmptyString).
  - rewrite IH.
    + reflexivity.
    + intros p E. apply (N (String c p)). cbn. now rewrite E.
Qed.

Section MainTheorems.
Context {R : Type} `{Env R} `{Host R}.

Lemma prepared_unique (s : Script) (r : R) (tf tf' : string) (r1 r1' : R) :
  prepared s r tf r1 -> prepared s r tf' r1' -> tf = tf' /\ r1 = r1'.
Proof.
  intros [] []. split; congruence.
Qed.

(** X14. [main] ends with exit status 0 exactly when everything was in place
    (the configuration file with its keys, the template file, both proxies, a
    login that returns a truthy user identifier) and the run of
    [design_template] reports success; in every other case the status is
    1. *)
Theorem main_exit_status :
  forall (s : Script) (r : R),
    (exit_status (hvalue (main s r)) = 0%Z
     <-> exists template_file r1,
          prepared s r template_file r1
          /\ run_success (value (design_template_of s template_file r1)) = true)
    /\ (exit_status (hvalue (main s r)) = 0%Z \/ exit_status (hvalue (main s r)) = 1%Z).
Proof.
  intros s r.
  destruct (main_cases s r) as [(tf & r1 & head & verdict & P & E & _)|(X & _ & N)].
  - cbv zeta in E. rewrite E. unfold hvalue. cbn [fst].
    destruct (run_success (value (design_template_of s tf r1))) eqn:S; cbn [exit_status].
    + split; [|now left]. split; [|reflexivity]. intros _. now exists tf, r1.
    + split; [|now right]. split; [discriminate|].
      intros (tf' & r1' & P' & S').
      destruct (prepared_unique _ _ _ _ _ _ P P') as [<- <-]. congruence.
  - rewrite X. split; [|now right]. split; [discriminate|].
    intros (tf & r1 & P & _). now elim (N tf r1).
Qed.

(** X15. [main] lets the designer act only once everything is in place: if
    anything of the designer shows in a run of [main], be it a remote call or
    a printed line, then the preparation succeeded, and what shows is exactly
    one run of [design_template] on the configured template file, from the
    state the login left. *)
Theorem designer_runs_only_when_prepared :
  forall (s : Script) (r : R),
    ran (hevents (main s r)) <> [] ->
    exists template_file r1,
      prepared s r template_file r1
      /\ ran (hevents (main s r)) = events (design_template_of s template_file r1)
      /\ hremote (main s r) = remote (design_template_of s template_file r1).
Proof.
  intros s r N.
  destruct (main_cases s r) as [(tf & r1 & head & verdict & P & E & Rh & _)|(_ & X & _)].
  - exists tf, r1. split; [exact P|]. cbv zeta in E. rewrite E.
    unfold hevents, hremote. cbn [fst snd].
    rewrite !ran_app, Rh, ran_map. cbn. rewrite app_nil_r. split; reflexivity.
  - now elim N.
Qed.

Lemma main_logins (s : Script) (r : R) :
  logins (hevents (main s r)) = []
  \/ exists url db username password,
       configured url db username password
       /\ logins (hevents (main s r))
          = [(common_endpoint (rstrip_slash url), db, username, password)].
Proof.
  unfold main, new_designer, _authenticate, login, designer, hbind, hret, say,
    hvalue, hevents, config_key.
  destruct (path_exists "config.json"); cbn [negb]; [|now left].
  destruct load_config as [e|config] eqn:Lc; [now left|].
  destruct (odoo_url config) as [url|] eqn:Ku; [|now left].
  destruct (odoo_db config) as [db|] eqn:Kd; [|now left].
  destruct (odoo_username config) as [username|] eqn:Kn; [|now left].
  destruct (odoo_password config) as [password|] eqn:Kp; [|now left].
  destruct (template_file_of s config) as [tf|e|code]; [|now left|now left].
  destruct (path_exists tf); cbn [negb]; [|now left].
  destruct (proxy_fault (common_endpoint (rstrip_slash url))) as [e|]; [now left|].
  right. exists url, db, username, password.
  split; [now apply is_configured with (config := config)|].
  destruct (authenticate (common_endpoint (rstrip_slash url)) db username password r)
    as [[e|uid] r1]; [reflexivity|].
  destruct (truthy uid); [|reflexivity].
  destruct (proxy_fault (object_endpoint (rstrip_slash url))) as [e|]; [reflexivity|].
  destruct (design_template_of s tf r1) as [[results r2] ev].
  destruct (run_success results); cbn [fst snd app logins];
    rewrite logins_app, logins_map; reflexivity.
Qed.

(** X16. [main] logs in at most once, with the configured database, user and
    password, at the common endpoint of the configured URL stripped of its
    trailing slashes: the stripped URL is the configured one up to a tail of
    slashes and does not end with one, so the endpoint holds exactly one
    slash before [xmlrpc]. *)
Theorem login_at_stripped_url :
  forall (s : Script) (r : R) (uri db username password : string),
    In (uri, db, username, password) (logins (hevents (main s r))) ->
    logins (hevents (main s r)) = [(uri, db, username, password)]
    /\ exists url tail,
         configured url db username password
         /\ uri = rstrip_slash url ++ "/xmlrpc/2/common"
         /\ url = rstrip_slash url ++ tail
         /\ slashes tail
         /\ forall p, rstrip_slash url <> p ++ "/".
Proof.
  intros s r uri db username password I.
  destruct (main_logins s r) as [E|(url & db' & u' & p' & C & E)]; rewrite E in I.
  - destruct I.
  - destruct I as [D|[]]. injection D as <- <- <- <-.
    split; [exact E|].
    destruct (rstrip_slash_tail url) as (tail & Eu & S).
    exists url, tail. repeat split; try assumption.
    apply rstrip_slash_no_trailing.
Qed.

(** X17. When [config.json] holds no [template_file], [odd_temp_veb.py] and
    [odoo_template_temp.py] leave [main] with a [KeyError] (status 1) before
    any login, while [odoolong1.py] goes on with
    [centrifuge_revision_template.json]: it stops with status 1 if that file
    does not exist, and otherwise it is the file its designer is given. *)
Theorem missing_template_file_key :
  forall (r : R) (config : Config) (url db username password : string),
    path_exists "config.json" = true ->
    load_config = inr config ->
    odoo_url config = Some url ->
    odoo_db config = Some db ->
    odoo_username config = Some username ->
    odoo_password config = Some password ->
    template_file config = None ->
    main OddTempVebPy r = (Raised "'template_file'", r, [Said SayBanner])
    /\ main OdooTemplateTempPy r = (Raised "'template_file'", r, [Said SayBanner])
    /\ (path_exists "centrifuge_revision_template.json" = false ->
        main OdooLong1Py r
        = (Exited 1, r,
           [Said SayBanner; Said (SayNoTemplateFile "centrifuge_revision_template.json")]))
    /\ (forall template_file r1,
           prepared OdooLong1Py r template_file r1 ->
           template_file = "centrifuge_revision_template.json").
Proof.
  intros r config url db username password Pc Lc Ku Kd Kn Kp Kt.
  unfold main, config_key, template_file_of, hbind, hret, say.
  rewrite Pc, Lc, Ku, Kd, Kn, Kp, Kt. cbn [negb config_key].
  split; [reflexivity|]. split; [reflexivity|]. split.
  - intros Pt. rewrite Pt. reflexivity.
  - intros tf r1 [config' ? ? ? ? ? _ Lc' _ _ _ _ Kt' _ _ _ _ _].
    rewrite Lc in Lc'. injection Lc' as <-.
    unfold template_file_of in Kt'. rewrite Kt in Kt'. now injection Kt'.
Qed.

End MainTheorems.

Lemma designer_runs_only_when_prepared_witness :
  let E := Reference.env Reference.files in
  let D := Desk.host Desk.office in
  let run := @main _ E D OddTempVebPy (Reference.fresh Reference.reliable) in
  ran (hevents run) <> []
  /\ exit_status (hvalue run) = 0%Z
  /\ exists template_file r1,
       @prepared _ D OddTempVebPy (Reference.fresh Reference.reliable) template_file r1
       /\ ran (hevents run)
          = events (@design_template_of _ E OddTempVebPy template_file r1).
Proof.
  cbv zeta.
  assert (N : ran (hevents (@main _ (Reference.env Reference.files)
                              (Desk.host Desk.office) OddTempVebPy
                              (Reference.fresh Reference.reliable))) <> []).
  { vm_compute. discriminate. }
  split; [exact N|]. split; [vm_compute; reflexivity|].
  destruct (@designer_runs_only_when_prepared _ (Reference.env Reference.files)
              (Desk.host Desk.office) OddTempVebPy
              (Reference.fresh Reference.reliable) N) as (tf & r1 & P & E & _).
  exists tf, r1. split; assumption.
Defined.

Lemma login_at_stripped_url_witness :
  let E := Reference.env Reference.files in
  let D := Desk.host Desk.office in
  let run := @main _ E D OdooLong1Py (Reference.fresh Reference.reliable) in
  odoo_url Desk.config = Some "https://erp.example.com/"
  /\ In ("https://erp.example.com/xmlrpc/2/common", "prod", "designer", "secret")
        (logins (hevents run))
  /\ logins (hevents run)
     = [("https://erp.example.com/xmlrpc/2/common", "prod", "designer", "secret")].
Proof.
  cbv zeta. split; [reflexivity|].
  assert (I : In ("https://erp.example.com/xmlrpc/2/common", "prod", "designer", "secret")
                (logins (hevents (@main _ (Reference.env Reference.files)
                                    (Desk.host Desk.office) OdooLong1Py
                                    (Reference.fresh Reference.reliable))))).
  { vm_compute. left. reflexivity. }
  split; [exact I|].
  exact (proj1 (@login_at_stripped_url _ (Reference.env Reference.files)
                  (Desk.host Desk.office) OdooLong1Py
                  (Reference.fresh Reference.reliable)
                  "https://erp.example.com/xmlrpc/2/common" "prod" "designer" "secret" I)).
Defined.

Lemma missing_template_file_key_witness :
  let E := Reference.env Reference.files in
  let D := Desk.host Desk.office_without_template in
  let r := Reference.fresh Reference.reliable in
  template_file Desk.config_without_template = None
  /\ hvalue (@main _ E D OddTempVebPy r) = Raised "'template_file'"
  /\ exit_status (hvalue (@main _ E D OddTempVebPy r)) = 1%Z
  /\ logins (hevents (@main _ E D OdooLong1Py r)) <> [].
Proof.
  cbv zeta. split; [reflexivity|].
  pose (T := @missing_template_file_key _ (Reference.env Reference.files)
               (Desk.host Desk.office_without_template)
               (Reference.fresh Reference.reliable)
               Desk.config_without_template
               "https://erp.example.com/" "prod" "designer" "secret"
               eq_refl eq_refl eq_refl eq_refl eq_refl eq_refl eq_refl).
  split; [now rewrite (proj1 T)|]. split; [now rewrite (proj1 T)|].
  vm_compute. discriminate.
Defined.

(** The three designers on the reference host: with everything in place
    [main] ends with status 0; with a user the login does not know it ends
    with status 1 and the designer does not run. *)
Example main_on_the_reference_host :
  let E := Reference.env Reference.files in
  let r := Reference.fresh Reference.reliable in
  exit_status (hvalue (@main _ E (Desk.host Desk.office) OdooTemplateTempPy r)) = 0%Z
  /\ exit_status (hvalue (@main _ E (Desk.host Desk.office_locked) OdooTemplateTempPy r))
     = 1%Z
  /\ ran (hevents (@main _ E (Desk.host Desk.office_locked) OdooTemplateTempPy r)) = [].
Proof.
  cbv zeta. repeat split; vm_compute; reflexivity.
Qed.

(** ** The programs: [test.py] *)

Section TestPy.
Context {R : Type} `{Env R} `{Host R}.

(** X18. Once [config.json] loads with its four connection keys, [test.py]
    always ends normally (status 0): a proxy or a login that raises, or a
    login that returns no user, is only printed.  It logs in at most once, at
    the common endpoint of the URL exactly as configured (trailing slashes
    are not stripped, unlike in [main]), and it prints the success line
    exactly when the login returns a truthy user identifier. *)
Theorem test_py_always_returns :
  forall (r : R) (url db username password : string),
    configured url db username password ->
    hvalue (test_py r) = Normal tt
    /\ (logins (hevents (test_py r)) = []
        \/ logins (hevents (test_py r))
           = [(url ++ "/xmlrpc/2/common", db, username, password)])
    /\ forall uid,
         In (SayConnected uid) (said (hevents (test_py r)))
         <-> (proxy_fault (common_endpoint url) = None
              /\ truthy uid = true
              /\ exists r1,
                   authenticate (common_endpoint url) db username password r
                   = (inr uid, r1)).
Proof.
  intros r url db username password [config Lc Ku Kd Kn Kp].
  unfold test_py, login, hbind, hret, say, hvalue, hevents, config_key.
  rewrite Lc, Ku, Kd, Kn, Kp.
  destruct (proxy_fault (common_endpoint url)) as [e|] eqn:Xc.
  { cbn. split; [reflexivity|]. split; [now left|].
    intros uid. split.
    - intros [D|[D|[D|[]]]]; discriminate D.
    - intros (D & _); discriminate D. }
  destruct (authenticate (common_endpoint url) db username password r)
    as [[e|uid] r1] eqn:Au.
  { cbn. split; [reflexivity|]. split; [now right|].
    intros uid. split.
    - intros [D|[D|[D|[]]]]; discriminate D.
    - intros (_ & _ & r1' & D); discriminate D. }
  destruct (truthy uid) eqn:Tu.
  - cbn. split; [reflexivity|]. split; [now right|].
    intros uid'. split.
    + intros [D|[D|[D|[]]]]; try discriminate D. injection D as <-.
      repeat split; eauto.
    + intros (_ & _ & r1' & D). injection D as <- _. auto.
  - cbn. split; [reflexivity|]. split; [now right|].
    intros uid'. split.
    + intros [D|[D|[D|[]]]]; discriminate D.
    + intros (_ & T & r1' & D). injection D as <- _. congruence.
Qed.

End TestPy.

Lemma test_py_always_returns_witness :
  let E := Reference.env Reference.files in
  let D := Desk.host Desk.office in
  let run := @test_py _ D (Reference.fresh Reference.reliable) in
  @configured _ D "https://erp.example.com/" "prod" "designer" "secret"
  /\ hvalue run = Normal tt
  /\ logins (hevents run)
     = [("https://erp.example.com//xmlrpc/2/common", "prod", "designer", "secret")]
  /\ said (hevents run)
     = [SayLoading; SayTesting "https://erp.example.com/" "prod" "designer"; SayLoginFailed].
Proof.
  cbv zeta.
  assert (C : @configured _ (Desk.host Desk.office)
                "https://erp.example.com/" "prod" "designer" "secret").
  { now apply is_configured with (config := Desk.config). }
  split; [exact C|].
  split; [exact (proj1 (@test_py_always_returns _ (Desk.host Desk.office)
                          (Reference.fresh Reference.reliable)
                          "https://erp.example.com/" "prod" "designer" "secret" C))|].
  split; vm_compute; reflexivity.
Defined.

(** ** The programs: [check_odoo_models.py] *)

(** *** Dictionaries *)

Lemma dict_has_In (d : Dict) (k : string) :
  dict_has d k = true <-> In k (map fst d).
Proof.
  unfold dict_has. induction d as [|[k' v'] d IH]; cbn.
  - split; [discriminate | contradiction].
  - rewrite orb_true_iff, IH, String.eqb_eq. tauto.
Qed.

Lemma dict_set_keys (d : Dict) (k v : string) :
  map fst (dict_set d k v)
  = if dict_has d k then map fst d else (map fst d ++ [k])%list.
Proof.
  unfold dict_has. induction d as [|[k' v'] d IH]; cbn; [reflexivity|].
  destruct (k' =? k) eqn:E; cbn; [reflexivity|].
  rewrite IH. now destruct (existsb (fun kv => fst kv =? k) d).
Qed.

Lemma dict_set_In (d : Dict) (k v k' : string) :
  In k' (map fst (dict_set d k v)) <-> In k' (map fst d) \/ k' = k.
Proof.
  rewrite dict_set_keys. destruct (dict_has d k) eqn:Hk.
  - apply dict_has_In in Hk. split; [tauto|]. intros [I| ->]; assumption.
  - rewrite in_app_iff. cbn. intuition.
Qed.

Lemma dict_set_NoDup (d : Dict) (k v : string) :
  NoDup (map fst d) -> NoDup (map fst (dict_set d k v)).
Proof.
  intros N. rewrite dict_set_keys. destruct (dict_has d k) eqn:Hk; [exact N|].
  assert (Nk : ~ In k (map fst d)).
  { intros I. apply dict_has_In in I. congruence. }
  clear Hk. induction (map fst d) as [|x l IH]; cbn.
  - constructor; [intros [] | constructor].
  - inversion N as [|? ? Nx Nl]; subst. constructor.
    + rewrite in_app_iff. cbn. intros [I|[->|[]]]; [now elim Nx|].
      apply Nk. now left.
    + apply IH; [exact Nl|]. intros I. apply Nk. now right.
Qed.

Lemma dict_set_lookup (d : Dict) (k v k' : string) :
  dict_lookup (dict_set d k v) k'
  = if k =? k' then Some v else dict_lookup d k'.
Proof.
  induction d as [|[k0 v0] d IH]; cbn; [reflexivity|].
  destruct (String.eqb_spec k0 k) as [->|N]; cbn.
  - now destruct (k =? k').
  - rewrite IH. destruct (String.eqb_spec k0 k') as [->|N'].
    + destruct (String.eqb_spec k k') as [->|_]; [now elim N | reflexivity].
    + reflexivity.
Qed.

Lemma dict_lookup_app (a b : Dict) (k : string) :
  dict_lookup (a ++ b)%list k
  = match dict_lookup a k with
    | Some v => Some v
    | None => dict_lookup b k
    end.
Proof.
  induction a as [|[k0 v0] a IH]; cbn; [reflexivity|].
  now destruct (k0 =? k).
Qed.

Lemma dict_lookup_In (d : Dict) (k v : string) :
  dict_lookup d k = Some v -> In (k, v) d.
Proof.
  induction d as [|[k0 v0] d IH]; cbn; [discriminate|].
  destruct (String.eqb_spec k0 k) as [->|N].
  - intros D. injection D as ->. now left.
  - intros D. right. now apply IH.
Qed.

Lemma dict_In_lookup (d : Dict) (k v : string) :
  NoDup (map fst d) -> In (k, v) d -> dict_lookup d k = Some v.
Proof.
  induction d as [|[k0 v0] d IH]; cbn; [contradiction|].
  intros N I. inversion N as [|? ? Nx Nl]; subst.
  destruct I as [D|I].
  - injection D as -> ->. now rewrite String.eqb_refl.
  - destruct (String.eqb_spec k0 k) as [->|_]; [|now apply IH].
    elim Nx. change k with (fst (k, v)). now apply in_map.
Qed.

Lemma record_models_app (d : Dict) (a b : list (string * string)) :
  record_models d (a ++ b)%list = record_models (record_models d a) b.
Proof. apply fold_left_app. Qed.

Lemma record_models_In (recs : list (string * string)) :
  forall (d : Dict) (k : string),
    In k (map fst (record_models d recs))
    <-> In k (map fst d) \/ In k (map fst recs).
Proof.
  induction recs as [|[k0 v0] recs IH]; intros d k; cbn.
  - tauto.
  - unfold record_models in IH. rewrite IH, dict_set_In. cbn. intuition.
Qed.

Lemma record_models_NoDup (recs : list (string * string)) :
  forall d : Dict, NoDup (map fst d) -> NoDup (map fst (record_models d recs)).
Proof.
  induction recs as [|[k0 v0] recs IH]; intros d N; cbn; [exact N|].
  apply IH. now apply dict_set_NoDup.
Qed.

Lemma record_models_lookup (recs : list (string * string)) :
  forall (d : Dict) (k : string),
    dict_lookup (record_models d recs) k
    = match dict_lookup (rev recs) k with
      | Some v => Some v
      | None => dict_lookup d k
      end.
Proof.
  induction recs as [|[k0 v0] recs IH]; intros d k; cbn [rev].
  - reflexivity.
  - change (record_models d ((k0, v0) :: recs))
      with (record_models (dict_set d k0 v0) recs).
    rewrite IH, dict_set_lookup, dict_lookup_app. cbn.
    destruct (dict_lookup (rev recs) k); [reflexivity|].
    now destruct (k0 =? k).
Qed.

(** *** Sorting *)

Lemma item_leb_total (x y : string * string) :
  item_leb x y = false -> item_leb y x = true.
Proof.
  unfold item_leb. rewrite (String.compare_antisym (fst y) (fst x)).
  destruct (String.compare (fst x) (fst y)); cbn; try discriminate; [|reflexivity].
  intros L. destruct (String.leb_total (snd x) (snd y)); congruence.
Qed.

Lemma insert_item_perm (x : string * string) (l : list (string * string)) :
  Permutation (insert_item x l) (x :: l).
Proof.
  induction l as [|y l IH]; cbn; [reflexivity|].
  destruct (item_leb x y); [reflexivity|].
  rewrite IH. apply perm_swap.
Qed.

Lemma py_sorted_perm (l : list (string * string)) : Permutation (py_sorted l) l.
Proof.
  induction l as [|x l IH]; cbn; [reflexivity|].
  rewrite insert_item_perm. now constructor.
Qed.

Lemma insert_item_sorted (x : string * string) (l : list (string * string)) :
  Sorted (fun a b => item_leb a b = true) l ->
  Sorted (fun a b => item_leb a b = true) (insert_item x l).
Proof.
  induction l as [|y l IH]; cbn; intros S.
  - repeat constructor.
  - destruct (item_leb x y) eqn:L.
    + constructor; [exact S | now constructor].
    + inversion S as [|? ? Sl Hd]; subst.
      constructor; [now apply IH|].
      destruct l as [|z l]; cbn.
      * constructor. now apply item_leb_total.
      * destruct (item_leb x z).
        -- constructor. now apply item_leb_total.
        -- inversion Hd; subst. now constructor.
Qed.

Lemma py_sorted_sorted (l : list (string * string)) :
  Sorted (fun a b => item_leb a b = true) (py_sorted l).
Proof.
  induction l as [|x l IH]; cbn; [constructor | now apply insert_item_sorted].
Qed.

Lemma sorted_by_key (l : list (string * string)) :
  NoDup (map fst l) ->
  Sorted (fun a b => item_leb a b = true) l ->
  Sorted (fun a b => String.ltb (fst a) (fst b) = true) l.
Proof.
  induction l as [|x l IH]; intros N S; [constructor|].
  inversion S as [|? ? Sl Hd]; subst. cbn in N.
  inversion N as [|? ? Nx Nl]; subst.
  constructor; [now apply IH|].
  destruct l as [|y l]; constructor.
  inversion Hd as [|? ? L]; subst.
  unfold item_leb in L. unfold String.ltb.
  destruct (String.compare (fst x) (fst y)) eqn:C; try reflexivity; try discriminate.
  apply String.compare_eq_iff in C. elim Nx. cbn. now left.
Qed.

(** *** The diagnostic run *)

Lemma asked_app (a b : list HostEvent) : asked (a ++ b) = (asked a ++ asked b)%list.
Proof.
  induction a as [|x a IH]; [reflexivity|].
  destruct x; simpl; try exact IH. now rewrite IH.
Qed.

Lemma said_app (a b : list HostEvent) : said (a ++ b) = (said a ++ said b)%list.
Proof.
  induction a as [|x a IH]; [reflexivity|].
  destruct x; simpl; try exact IH. now rewrite IH.
Qed.

Lemma listed_app (a b : list HostMsg) : listed (a ++ b) = (listed a ++ listed b)%list.
Proof.
  induction a as [|x a IH]; [reflexivity|].
  destruct x; simpl; try exact IH. now rewrite IH.
Qed.

Lemma said_map (ms : list HostMsg) : said (map Said ms) = ms.
Proof.
  induction ms as [|m ms IH]; simpl; [reflexivity | now rewrite IH].
Qed.

Lemma asked_map_said (ms : list HostMsg) : asked (map Said ms) = [].
Proof.
  induction ms as [|m ms IH]; simpl; [reflexivity | exact IH].
Qed.

Lemma asked_map (qs : list Query) : asked (map Asked qs) = qs.
Proof.
  induction qs as [|q qs IH]; simpl; [reflexivity | now rewrite IH].
Qed.

Lemma said_map_asked (qs : list Query) : said (map Asked qs) = [].
Proof.
  induction qs as [|q qs IH]; simpl; [reflexivity | exact IH].
Qed.

Lemma listed_models (l : list (string * string)) :
  listed (map (fun item => SayModel (fst item) (snd item)) l) = l.
Proof.
  induction l as [|[k v] l IH]; simpl; [reflexivity | now rewrite IH].
Qed.

Lemma listed_fields (l : list (string * string)) :
  listed (map (fun field => SayField (fst field) (snd field)) l) = [].
Proof.
  induction l as [|[k v] l IH]; simpl; [reflexivity | exact IH].
Qed.

Lemma listed_modules (l : list (string * string)) :
  listed (map (fun module => SayModule (fst module) (snd module)) l) = [].
Proof.
  induction l as [|[k v] l IH]; simpl; [reflexivity | exact IH].
Qed.

Lemma advice_fields (l : list (string * string)) :
  filter is_advice (map (fun field => SayField (fst field) (snd field)) l) = [].
Proof.
  induction l as [|[k v] l IH]; simpl; [reflexivity | exact IH].
Qed.

Lemma advice_modules (l : list (string * string)) :
  filter is_advice (map (fun module => SayModule (fst module) (snd module)) l) = [].
Proof.
  induction l as [|[k v] l IH]; simpl; [reflexivity | exact IH].
Qed.

Lemma advice_models (l : list (string * string)) :
  filter is_advice (map (fun item => SayModel (fst item) (snd item)) l) = [].
Proof.
  induction l as [|[k v] l IH]; simpl; [reflexivity | exact IH].
Qed.

Section DiagnosticsFacts.
Context {R : Type} `{Host R}.

Lemma scan_keywords_run (keywords : list string) :
  forall (found : Dict) (r : R),
    scan_keywords keywords found r
    = (record_models found (scan_answers keywords r),
       scan_remote keywords r,
       map Asked (map ModelsLike keywords)).
Proof.
  induction keywords as [|k rest IH]; intros found r.
  - reflexivity.
  - cbn [scan_keywords scan_answers scan_remote map].
    unfold hbind, ask.
    destruct (search_read (ModelsLike k) r) as [[e|ids] r'].
    + rewrite IH. reflexivity.
    + rewrite IH, record_models_app. reflexivity.
Qed.

(** The lines of the listing. *)
Lemma list_models_run (found : Dict) (r : R) :
  list_models found r
  = (tt, r,
     map Said
       match found with
       | [] => [SayNoModels]
       | _ :: _ =>
         SayFoundHeader
           :: map (fun item => SayModel (fst item) (snd item)) (py_sorted found)
       end).
Proof.
  unfold list_models. destruct found; reflexivity.
Qed.

Lemma check_project_task_said (r : R) :
  listed (said (hevents (check_project_task r))) = []
  /\ filter is_advice (said (hevents (check_project_task r))) = [].
Proof.
  unfold check_project_task, hbind, hret, say, say_all, ask, hevents.
  destruct (search_read (ModelNamed "project.task") r) as [[e|[|rec recs]] r1];
    try (split; reflexivity).
  destruct (search_read (FieldsLike "project.task" "worksheet" 10) r1)
    as [[e|[|f fs]] r2]; try (split; reflexivity).
  cbn [snd app said]. rewrite said_map.
  change (listed (SayCheckingTask :: SayTaskExists :: SayCheckingFields
                    :: SayFieldsHeader
                    :: map (fun field => SayField (fst field) (snd field)) (f :: fs)))
    with (listed (map (fun field => SayField (fst field) (snd field)) (f :: fs))).
  change (filter is_advice
            (SayCheckingTask :: SayTaskExists :: SayCheckingFields
               :: SayFieldsHeader
               :: map (fun field => SayField (fst field) (snd field)) (f :: fs)))
    with (filter is_advice
            (map (fun field => SayField (fst field) (snd field)) (f :: fs))).
  now rewrite listed_fields, advice_fields.
Qed.

Lemma check_modules_said (r : R) :
  listed (said (hevents (check_modules r))) = []
  /\ filter is_advice (said (hevents (check_modules r))) = [].
Proof.
  unfold check_modules, hbind, hret, say, say_all, ask, hevents.
  destruct (search_read (ModulesLike "field" "installed") r) as [[e|[|m ms]] r1];
    try (split; reflexivity).
  cbn [snd app said]. rewrite said_map.
  change (listed (SayCheckingModules :: SayModulesHeader
                    :: map (fun module => SayModule (fst module) (snd module)) (m :: ms)))
    with (listed (map (fun module => SayModule (fst module) (snd module)) (m :: ms))).
  change (filter is_advice
            (SayCheckingModules :: SayModulesHeader
               :: map (fun module => SayModule (fst module) (snd module)) (m :: ms)))
    with (filter is_advice
            (map (fun module => SayModule (fst module) (snd module)) (m :: ms))).
  now rewrite listed_modules, advice_modules.
Qed.

(** [diagnose], step by step. *)
Lemma diagnose_run (r : R) :
  let found := record_models [] (scan_answers field_service_keywords r) in
  let r1 := scan_remote field_service_keywords r in
  let task := check_project_task r1 in
  let modules := check_modules (hremote task) in
  diagnose r
  = (tt, hremote modules,
     (Said SaySearching
        :: map Asked (map ModelsLike field_service_keywords)
        ++ hevents (list_models found r1)
        ++ hevents task
        ++ hevents modules
        ++ [Said SayRecommendations; Said (recommendation found)])%list).
Proof.
  cbv zeta. unfold diagnose.
  unfold hbind at 1. unfold say at 1.
  unfold hbind at 1. rewrite scan_keywords_run.
  unfold hbind at 1. rewrite list_models_run.
  unfold hbind at 1. unfold hremote, hevents.
  destruct (check_project_task (scan_remote field_service_keywords r))
    as [[u1 r2] e2]; cbn [fst snd].
  unfold hbind at 1.
  destruct (check_modules r2) as [[u2 r3] e3]; cbn [fst snd].
  unfold hbind, say. cbn [fst snd app]. reflexivity.
Qed.

End DiagnosticsFacts.

Lemma record_models_has (answers : list (string * string)) (k : string) :
  dict_has (record_models [] answers) k
  = existsb (fun rec => fst rec =? k) answers.
Proof.
  apply Bool.eq_iff_eq_true.
  rewrite dict_has_In, record_models_In, existsb_exists. cbn. split.
  - intros [[]|I]. apply in_map_iff in I. destruct I as (rec & <- & I).
    exists rec. split; [exact I | apply String.eqb_refl].
  - intros (rec & I & E). right. apply String.eqb_eq in E. subst k.
    now apply in_map.
Qed.

Lemma recommendation_advice (answers : list (string * string)) :
  recommendation (record_models [] answers) = advice_for answers.
Proof.
  unfold recommendation, advice_for. now rewrite !record_models_has.
Qed.

Section DiagnosticsTheorems.
Context {R : Type} `{Host R}.

(** X19. The keyword loop of [check_odoo_models] queries every keyword, in
    the order of the list, whichever queries raise; afterwards
    [found_models] holds exactly the models that the answered queries
    returned, each one once, with the name of the last record returned for
    it. *)
Theorem keyword_scan_survives_faults :
  forall r : R,
    let run := scan_keywords field_service_keywords [] r in
    let answers := scan_answers field_service_keywords r in
    asked (hevents run) = map ModelsLike field_service_keywords
    /\ NoDup (map fst (hvalue run))
    /\ (forall k, In k (map fst (hvalue run)) <-> In k (map fst answers))
    /\ (forall k, dict_lookup (hvalue run) k = dict_lookup (rev answers) k).
Proof.
  intros r run answers. subst run answers. rewrite scan_keywords_run.
  unfold hevents, hvalue. cbn [fst snd].
  split; [apply asked_map|]. split; [|split].
  - apply record_models_NoDup. constructor.
  - intros k. rewrite record_models_In. cbn. tauto.
  - intros k. rewrite record_models_lookup.
    destruct (dict_lookup (rev (scan_answers field_service_keywords r)) k);
      reflexivity.
Qed.

Lemma diagnose_listed (r : R) :
  listed (said (hevents (diagnose r)))
  = py_sorted (record_models [] (scan_answers field_service_keywords r)).
Proof.
  pose proof (diagnose_run r) as D. cbv zeta in D. rewrite D. clear D.
  unfold hevents at 1. cbn [snd said listed].
  rewrite !said_app, !listed_app, said_map_asked, list_models_run.
  unfold hevents at 1. cbn [snd]. rewrite said_map.
  destruct (check_project_task_said (scan_remote field_service_keywords r)) as [-> _].
  destruct (check_modules_said
              (hremote (check_project_task (scan_remote field_service_keywords r))))
    as [-> _].
  cbn [listed app said].
  assert (L : match recommendation
                      (record_models [] (scan_answers field_service_keywords r))
              with
              | SayModel model name => [(model, name)]
              | _ => []
              end = []).
  { unfold recommendation.
    destruct (dict_has _ "fsm.worksheet"); [reflexivity|].
    destruct (dict_has _ "project.task"); reflexivity. }
  rewrite L, !app_nil_r.
  destruct (record_models [] (scan_answers field_service_keywords r)) as [|x l];
    [reflexivity|].
  cbn [listed]. apply listed_models.
Qed.

(** X20. The listing that [check_odoo_models] prints shows every model that
    an answered keyword query returned exactly once, with the name of the
    last record returned for it, in strictly ascending order of the
    technical names. *)
Theorem models_listed_in_order :
  forall r : R,
    let items := listed (said (hevents (diagnose r))) in
    let answers := scan_answers field_service_keywords r in
    Sorted (fun a b => String.ltb (fst a) (fst b) = true) items
    /\ NoDup (map fst items)
    /\ forall k v, In (k, v) items <-> dict_lookup (rev answers) k = Some v.
Proof.
  intros r items answers. subst items answers. rewrite diagnose_listed.
  set (found := record_models [] (scan_answers field_service_keywords r)).
  assert (N : NoDup (map fst found)) by (apply record_models_NoDup; constructor).
  assert (Np : NoDup (map fst (py_sorted found))).
  { apply Permutation_NoDup with (l := map fst found); [|exact N].
    apply Permutation_map. symmetry. apply py_sorted_perm. }
  split; [|split].
  - apply sorted_by_key; [exact Np | apply py_sorted_sorted].
  - exact Np.
  - intros k v.
    assert (L : dict_lookup found k
                = dict_lookup (rev (scan_answers field_service_keywords r)) k).
    { unfold found. rewrite record_models_lookup.
      destruct (dict_lookup (rev (scan_answers field_service_keywords r)) k);
        reflexivity. }
    rewrite <- L. split.
    + intros I. apply dict_In_lookup; [exact N|].
      apply Permutation_in with (l := py_sorted found); [apply py_sorted_perm | exact I].
    + intros E. apply dict_lookup_In in E.
      apply Permutation_in with (l := found);
        [symmetry; apply py_sorted_perm | exact E].
Qed.

(** X21. [check_odoo_models] prints exactly one line of advice, and it
    follows from the records of the keyword queries alone: [fsm.worksheet]
    if one of them names that model, else [project.task] if one of them names
    that one, else the advice to install a module.  The dedicated check of
    [project.task] has no part in it. *)
Theorem advice_follows_keyword_scan :
  forall r : R,
    filter is_advice (said (hevents (diagnose r)))
    = [advice_for (scan_answers field_service_keywords r)]
    /\ is_advice (advice_for (scan_answers field_service_keywords r)) = true.
Proof.
  intros r. split.
  - pose proof (diagnose_run r) as D. cbv zeta in D. rewrite D. clear D.
    unfold hevents at 1. cbn [snd said].
    rewrite !said_app, said_map_asked, list_models_run.
    unfold hevents at 1. cbn [snd]. rewrite said_map.
    cbn [filter is_advice app]. rewrite !filter_app.
    destruct (check_project_task_said (scan_remote field_service_keywords r)) as [_ ->].
    destruct (check_modules_said
                (hremote (check_project_task (scan_remote field_service_keywords r))))
      as [_ ->].
    rewrite recommendation_advice.
    assert (F : filter is_advice
                  match record_models [] (scan_answers field_service_keywords r) with
                  | [] => [SayNoModels]
                  | _ :: _ =>
                    SayFoundHeader
                      :: map (fun item => SayModel (fst item) (snd item))
                           (py_sorted
                              (record_models [] (scan_answers field_service_keywords r)))
                  end = []).
    { destruct (record_models [] (scan_answers field_service_keywords r));
        [reflexivity|]. cbn [filter is_advice]. apply advice_models. }
    rewrite F. cbn [app said filter is_advice].
    unfold advice_for.
    destruct (existsb _ _); [reflexivity|]. destruct (existsb _ _); reflexivity.
  - unfold advice_for.
    destruct (existsb _ _); [reflexivity|]. destruct (existsb _ _); reflexivity.
Qed.

(** X22. The queries of a diagnosis: the seven keyword queries, then the
    check of [project.task], then the query for its worksheet fields (at
    most ten) exactly when that check answered with a record, and at the end
    the query for the installed modules, which is sent whatever came
    before. *)
Theorem diagnosis_queries :
  forall r : R,
    exists between,
      asked (hevents (diagnose r))
      = (map ModelsLike field_service_keywords
           ++ ModelNamed "project.task" :: between
           ++ [ModulesLike "field" "installed"])%list
      /\ (between = [] \/ between = [FieldsLike "project.task" "worksheet" 10])
      /\ (between = [FieldsLike "project.task" "worksheet" 10]
          <-> exists rec recs r2,
               search_read (ModelNamed "project.task")
                 (scan_remote field_service_keywords r)
               = (inr (rec :: recs), r2)).
Proof.
  intros r.
  pose proof (diagnose_run r) as D. cbv zeta in D. rewrite D. clear D.
  unfold hevents at 1. cbn [snd asked].
  rewrite !asked_app, asked_map, list_models_run.
  unfold hevents at 1. cbn [snd]. rewrite asked_map_said.
  set (r1 := scan_remote field_service_keywords r).
  assert (M : forall r2, asked (hevents (check_modules r2))
                         = [ModulesLike "field" "installed"]).
  { intros r2. unfold check_modules, hbind, hret, say, say_all, ask, hevents.
    destruct (search_read (ModulesLike "field" "installed") r2) as [[e|[|m ms]] r3];
      try reflexivity.
    cbn [snd app asked]. now rewrite asked_map_said. }
  rewrite M. cbn [app asked].
  unfold check_project_task, hbind, hret, say, say_all, ask, hevents, hremote.
  destruct (search_read (ModelNamed "project.task") r1) as [[e|[|rec recs]] r2] eqn:T.
  - exists []. split; [reflexivity|]. split; [now left|].
    split; [discriminate | intros (a & b & c & E); discriminate].
  - exists []. split; [reflexivity|]. split; [now left|].
    split; [discriminate | intros (a & b & c & E); discriminate].
  - exists [FieldsLike "project.task" "worksheet" 10].
    split.
    + destruct (search_read (FieldsLike "project.task" "worksheet" 10) r2)
        as [[e|[|f fs]] r3]; try reflexivity.
      cbn [snd app asked]. now rewrite asked_map_said.
    + split; [now right|]. split; [intros _; eauto | reflexivity].
Qed.

(** [check_odoo_models], spelled out: either it holds a session and runs the
    diagnosis, or it sends no query at all. *)
Lemma check_cases (r : R) :
  (exists r1 head,
      signed_in r r1
      /\ check_odoo_models r
         = (Normal tt, hremote (diagnose r1), (head ++ hevents (diagnose r1))%list)
      /\ asked head = [])
  \/ (asked (hevents (check_odoo_models r)) = []
      /\ forall r1, ~ signed_in r r1).
Proof.
  unfold check_odoo_models, login, hbind, hret, say, hvalue, hevents, hremote,
    config_key.
  destruct load_config as [e|config] eqn:Lc.
  { right. split; [reflexivity|]. intros r1 [? ? ? ? ? []]; congruence. }
  destruct (odoo_url config) as [url|] eqn:Ku.
  2:{ right. split; [reflexivity|]. intros r1 [? ? ? ? ? []]; congruence. }
  destruct (odoo_db config) as [db|] eqn:Kd.
  2:{ right. split; [reflexivity|]. intros r1 [? ? ? ? ? []]; congruence. }
  destruct (odoo_username config) as [username|] eqn:Kn.
  2:{ right. split; [reflexivity|]. intros r1 [? ? ? ? ? []]; congruence. }
  destruct (odoo_password config) as [password|] eqn:Kp.
  2:{ right. split; [reflexivity|]. intros r1 [? ? ? ? ? []]; congruence. }
  destruct (proxy_fault (common_endpoint (rstrip_slash url))) as [e|] eqn:Xc.
  { right. split; [reflexivity|]. intros r1 [? ? ? ? ? []]; congruence. }
  destruct (authenticate (common_endpoint (rstrip_slash url)) db username password r)
    as [[e|uid] r1] eqn:Au.
  { right. split; [reflexivity|]. intros r1' [? ? ? ? ? []]; congruence. }
  destruct (truthy uid) eqn:Tu.
  2:{ right. split; [reflexivity|]. intros r1' [? ? ? ? ? []]; congruence. }
  destruct (proxy_fault (object_endpoint (rstrip_slash url))) as [e|] eqn:Xo.
  { right. split; [reflexivity|]. intros r1' [? ? ? ? ? []]; congruence. }
  left. exists r1,
    [Said SayBanner; Said (SayConnecting (rstrip_slash url));
     Login (common_endpoint (rstrip_slash url)) db username password;
     Said (SayAuthenticated uid)].
  split.
  - apply is_signed_in with (url := url) (db := db) (username := username)
      (password := password) (uid := uid); try assumption.
    now apply is_configured with (config := config).
  - destruct (diagnose r1) as [[u r2] ev]. cbn [fst snd app].
    rewrite app_nil_r. split; reflexivity.
Qed.

(** X23. [check_odoo_models] sends queries only under a session: if any
    query shows in a run, then the configuration was complete, both proxies
    were built and the login returned a truthy user identifier; the queries
    are then those of one diagnosis from the state the login left.  A login
    that returns no user ends the script before any query. *)
Theorem queries_need_a_session :
  forall r : R,
    asked (hevents (check_odoo_models r)) <> [] ->
    exists r1,
      signed_in r r1
      /\ hvalue (check_odoo_models r) = Normal tt
      /\ asked (hevents (check_odoo_models r)) = asked (hevents (diagnose r1)).
Proof.
  intros r N.
  destruct (check_cases r) as [(r1 & head & S & E & A)|(A & _)].
  - exists r1. split; [exact S|]. rewrite E. split; [reflexivity|].
    unfold hevents at 1. cbn [snd]. now rewrite asked_app, A.
  - now elim N.
Qed.

(** X24. [check_odoo_models] ends normally (status 0) exactly when the login
    returns something: the configuration is complete, the proxy of the common
    endpoint is built, the login answers, with a user identifier or without
    one, and in the first case the proxy of the object endpoint is built too.
    No query that raises and no missing model changes that; in every other
    case an exception leaves the script (status 1). *)
Theorem diagnosis_exit_status :
  forall r : R,
    (exit_status (hvalue (check_odoo_models r)) = 0%Z <-> login_answered r)
    /\ (exit_status (hvalue (check_odoo_models r)) = 0%Z
        \/ exit_status (hvalue (check_odoo_models r)) = 1%Z).
Proof.
  intros r.
  unfold check_odoo_models, login, hbind, hret, say, hvalue, hevents, hremote,
    config_key.
  destruct load_config as [e|config] eqn:Lc.
  { split; [|now right]. split; [discriminate|]. intros [? ? ? ? ? ? []]; congruence. }
  destruct (odoo_url config) as [url|] eqn:Ku.
  2:{ split; [|now right]. split; [discriminate|]. intros [? ? ? ? ? ? []]; congruence. }
  destruct (odoo_db config) as [db|] eqn:Kd.
  2:{ split; [|now right]. split; [discriminate|]. intros [? ? ? ? ? ? []]; congruence. }
  destruct (odoo_username config) as [username|] eqn:Kn.
  2:{ split; [|now right]. split; [discriminate|]. intros [? ? ? ? ? ? []]; congruence. }
  destruct (odoo_password config) as [password|] eqn:Kp.
  2:{ split; [|now right]. split; [discriminate|]. intros [? ? ? ? ? ? []]; congruence. }
  assert (C : configured url db username password)
    by now apply is_configured with (config := config).
  destruct (proxy_fault (common_endpoint (rstrip_slash url))) as [e|] eqn:Xc.
  { split; [|now right]. split; [discriminate|]. intros [? ? ? ? ? ? []]; congruence. }
  destruct (authenticate (common_endpoint (rstrip_slash url)) db username password r)
    as [[e|uid] r1] eqn:Au.
  { split; [|now right]. split; [discriminate|]. intros [? ? ? ? ? ? []]; congruence. }
  destruct (truthy uid) eqn:Tu.
  2:{ split; [|now left]. split; [|reflexivity]. intros _.
      apply is_login_answered with (url := url) (db := db) (username := username)
        (password := password) (uid := uid) (r1 := r1); try assumption.
      congruence. }
  destruct (proxy_fault (object_endpoint (rstrip_slash url))) as [e|] eqn:Xo.
  { split; [|now right]. split; [discriminate|].
    intros [url' db' u' p' uid' r1' [config' Lc' Ku' Kd' Kn' Kp'] Xc' Au' Xo'].
    assert (config' = config) by congruence. subst config'.
    assert (url' = url) by congruence. subst url'.
    assert (db' = db) by congruence. assert (u' = username) by congruence.
    assert (p' = password) by congruence. subst.
    rewrite Au in Au'. injection Au' as <- <-.
    rewrite Xo in Xo'. specialize (Xo' Tu). discriminate Xo'. }
  destruct (diagnose r1) as [[u r2] ev]. cbn [fst snd].
  split; [|now left]. split; [|reflexivity]. intros _.
  now apply is_login_answered with (url := url) (db := db) (username := username)
    (password := password) (uid := uid) (r1 := r1).
Qed.

End DiagnosticsTheorems.

Lemma queries_need_a_session_witness :
  let D := Desk.host Desk.office in
  let r := Reference.fresh Reference.reliable in
  asked (hevents (@check_odoo_models _ D r)) <> []
  /\ exists r1,
       @signed_in _ D r r1
       /\ hvalue (@check_odoo_models _ D r) = Normal tt
       /\ asked (hevents (@check_odoo_models _ D r))
          = asked (hevents (@diagnose _ D r1)).
Proof.
  cbv zeta.
  assert (N : asked (hevents (@check_odoo_models _ (Desk.host Desk.office)
                                (Reference.fresh Reference.reliable))) <> []).
  { vm_compute. discriminate. }
  split; [exact N|].
  exact (@queries_need_a_session _ (Desk.host Desk.office)
           (Reference.fresh Reference.reliable) N).
Defined.

(** A run on the reference office: the keyword [fsm] raises, two keywords
    answer, and [project.task] is listed under the name of the later
    answer. *)
Example diagnosis_on_the_reference_office :
  let D := Desk.host Desk.office in
  let run := @check_odoo_models _ D (Reference.fresh Reference.reliable) in
  hvalue run = Normal tt
  /\ listed (said (hevents run))
     = [("project.task", "Project Task");
        ("worksheet.template", "Worksheet Template")]
  /\ filter is_advice (said (hevents run)) = [SayUseTask]
  /\ asked (hevents run)
     = (map ModelsLike field_service_keywords
          ++ [ModelNamed "project.task";
              FieldsLike "project.task" "worksheet" 10;
              ModulesLike "field" "installed"])%list.
Proof.
  cbv zeta. repeat split; vm_compute; reflexivity.
Qed.

(** When every keyword query raises, the dedicated check still reports that
    [project.task] exists, and the advice is nevertheless to install a
    module. *)
Example advice_ignores_the_dedicated_check :
  let D := Desk.host Desk.office_down in
  let run := @check_odoo_models _ D (Reference.fresh Reference.reliable) in
  In SayTaskExists (said (hevents run))
  /\ filter is_advice (said (hevents run)) = [SayInstall].
Proof.
  cbv zeta. split; vm_compute; [tauto | reflexivity].
Qed.

(** A login that returns [False]: the diagnostic script returns normally
    without a query, where [main] exits with status 1. *)
Example refused_login_in_both_programs :
  let E := Reference.env Reference.files in
  let D := Desk.host Desk.office_locked in
  let r := Reference.fresh Reference.reliable in
  exit_status (hvalue (@check_odoo_models _ D r)) = 0%Z
  /\ asked (hevents (@check_odoo_models _ D r)) = []
  /\ exit_status (hvalue (@main _ E D OddTempVebPy r)) = 1%Z.
Proof.
  cbv zeta. repeat split; vm_compute; reflexivity.
Qed.
